(** * mlopt: the strategy-verification engine of [mlopt.optimizer] and [mlopt.utils]

    A shallow embedding of [Optimizer.choose_best], [Optimizer.solve],
    [Optimizer.cache_factors], [Optimizer.get_samples], [Optimizer.train],
    [Optimizer.performance] (src/mlopt/optimizer.py) and of [suboptimality],
    [accuracy] and [n_features] (src/mlopt/utils.py).

    Conventions.
    - Python exceptions are values of [exn]; a computation that may raise
      returns [res A]; a method of [Optimizer] is a function of the monad [M]
      which threads the object [self] (fields are mutated in place in Python,
      so a mutation that precedes a raise is kept).
    - float64 values are modelled by the rationals they denote ([Q]): order
      and exact arithmetic, no rounding, no infinities; [nan] results of
      numpy reductions over empty arrays are [None : option Q].
    - The collaborators that live outside src/ (the problem object, the
      learners, the sampler, the filter, the KKT helpers, scipy and ray) are
      the fields of the class [External]. *)

From Stdlib Require Import String Bool Arith PeanoNat ZArith QArith Qabs Lia List.
Import ListNotations.

Set Implicit Arguments.

Close Scope Q_scope.

(** ** Exceptions and results *)

Inductive errmsg : Type :=
| NotEnoughArguments          (* "Not enough arguments to train the model" *)
| OnlyOneOfXAndSamplingFn     (* "You can pass only one value between X and sampling_fn" *)
| InfeasiblePoints (n : nat)  (* "number of infeasible points %d" *)
| CacheNotComputed            (* "Solver cache requested but the cache has not been computed ..." *)
| ModelNotTrained             (* "Model has been trained yet to return the number of strategies." *)
| EmptySequence.              (* numpy: "attempt to get argmin of an empty sequence" *)

Inductive exn : Type :=
| ValueError (m : errmsg)
| IndexError
| KeyError (key : string)
| TypeError
| AttributeError
| AssertionError
| ZeroDivisionError
| RuntimeError (m : string).

(** The name of the Python class of an exception. *)
Definition exn_class (e : exn) : string :=
  match e with
  | ValueError _ => "ValueError"
  | IndexError => "IndexError"
  | KeyError _ => "KeyError"
  | TypeError => "TypeError"
  | AttributeError => "AttributeError"
  | AssertionError => "AssertionError"
  | ZeroDivisionError => "ZeroDivisionError"
  | RuntimeError _ => "RuntimeError"
  end.

Inductive res (A : Type) : Type :=
| Ok (a : A)
| Raise (e : exn).

Arguments Ok {A} a.
Arguments Raise {A} e.

Definition rbind {A B} (r : res A) (f : A -> res B) : res B :=
  match r with
  | Ok a => f a
  | Raise e => Raise e
  end.

(** A list comprehension whose element expression may raise. *)
Fixpoint rmap {A B} (f : A -> res B) (l : list A) : res (list B) :=
  match l with
  | [] => Ok []
  | a :: l' => rbind (f a) (fun b => rbind (rmap f l') (fun bs => Ok (b :: bs)))
  end.

(** ** The monad of methods: state [W], exceptions [exn] *)

Definition M (W A : Type) : Type := W -> res A * W.

Definition ret {W A} (a : A) : M W A := fun w => (Ok a, w).

Definition bind {W A B} (m : M W A) (f : A -> M W B) : M W B :=
  fun w => match m w with
           | (Ok a, w') => f a w'
           | (Raise e, w') => (Raise e, w')
           end.

Definition raise {W A} (e : exn) : M W A := fun w => (Raise e, w).

Definition lift {W A} (r : res A) : M W A := fun w => (r, w).

Definition get {W} : M W W := fun w => (Ok w, w).

Definition modify {W} (f : W -> W) : M W unit := fun w => (Ok tt, f w).

Declare Scope py_scope.
Delimit Scope py_scope with py.
Notation "x <- m ;; k" := (bind m (fun x => k))
  (at level 61, m at next level, right associativity) : py_scope.
Notation "m ;;; k" := (bind m (fun _ => k))
  (at level 61, right associativity) : py_scope.

(** [for a in l: s = body a s], the loop state [s] being the local
    variables the body updates. *)
Fixpoint for_loop {W S A} (body : A -> S -> M W S) (l : list A) (s : S) : M W S :=
  match l with
  | [] => ret s
  | a :: l' => bind (body a s) (fun s' => for_loop body l' s')
  end.

(** A comprehension (or an append-only loop) whose element is a method call. *)
Fixpoint for_each {W A B} (f : A -> M W B) (l : list A) : M W (list B) :=
  match l with
  | [] => ret []
  | a :: l' => bind (f a) (fun b => bind (for_each f l') (fun bs => ret (b :: bs)))
  end.

(** ** Python and numpy primitives *)

(** [l[i]] on a Python list: negative indices count from the end. *)
Definition py_index {A} (l : list A) (i : Z) : res A :=
  let n := Z.of_nat (length l) in
  let k := if (i <? 0)%Z then (i + n)%Z else i in
  if ((0 <=? k)%Z && (k <? n)%Z)%bool
  then match nth_error l (Z.to_nat k) with
       | Some a => Ok a
       | None => Raise IndexError
       end
  else Raise IndexError.

(** [l[i]] for an index that is a position ([range], [np.where], [np.argmin]). *)
Definition py_get {A} (l : list A) (i : nat) : res A :=
  match nth_error l i with
  | Some a => Ok a
  | None => Raise IndexError
  end.

(** [a <= b] and [a < b] on floats. *)
Definition Qleb (a b : Q) : bool := Qle_bool a b.
Definition Qltb (a b : Q) : bool := negb (Qle_bool b a).

(** [np.where(mask)[0]]: the positions at which [mask] holds, increasing. *)
Fixpoint np_where_from (i : nat) (mask : list bool) : list nat :=
  match mask with
  | [] => []
  | b :: mask' => if b then i :: np_where_from (S i) mask'
                  else np_where_from (S i) mask'
  end.

Definition np_where (mask : list bool) : list nat := np_where_from 0 mask.

(** [np.argmin(a)]: the position of the first occurrence of the minimum. *)
Fixpoint argmin_scan (l : list Q) (i : nat) (best : Q) (best_i : nat) : nat :=
  match l with
  | [] => best_i
  | v :: l' => if Qltb v best then argmin_scan l' (S i) v i
               else argmin_scan l' (S i) best best_i
  end.

Definition np_argmin (a : list Q) : res nat :=
  match a with
  | [] => Raise (ValueError EmptySequence)
  | v :: a' => Ok (argmin_scan a' 1 v 0)
  end.

(** [np.max(a)]. *)
Definition np_max (a : list Q) : res Q :=
  match a with
  | [] => Raise (ValueError EmptySequence)
  | v :: a' => Ok (fold_left (fun m y => if Qltb m y then y else m) a' v)
  end.

(** [np.sum(a)]. *)
Definition np_sum (a : list Q) : Q := fold_left Qplus a 0%Q.

(** [np.mean(a)]: [nan] on an empty array. *)
Definition np_mean (a : list Q) : option Q :=
  match a with
  | [] => None
  | _ => Some (np_sum a / inject_Z (Z.of_nat (length a)))%Q
  end.

(** [a[idx]] for an index array [idx]. *)
Definition np_take {A} (a : list A) (idx : list nat) : res (list A) :=
  rmap (py_get a) idx.

(** Arithmetic on possibly-[nan] floats. *)
Definition nan_div (a b : option Q) : option Q :=
  match a, b with
  | Some p, Some q => Some (p / q)%Q
  | _, _ => None
  end.

(** ** Data *)

(** A cell of a parameter frame holds a number or a list of numbers; a row
    ([X.iloc[i]]) is the cells of one data point, a column per cell. *)
Inductive cell : Type :=
| Num (v : Q)
| Lst (l : list Q).

Definition row : Type := list cell.

(** The argument of [Optimizer.solve]: a pandas Series (one point) or a
    DataFrame (a row per point). *)
Inductive frame : Type :=
| Series (r : row)
| DataFrame (rows : list row).

(** The dictionary returned by [solve_with_strategy]: the keys that
    [choose_best] reads. *)
Record solve_result (Sol : Type) : Type := {
  sr_x : Sol;
  sr_time : Q;
  sr_infeasibility : Q;
  sr_cost : Q
}.

(** A dictionary returned by [Problem.solve_parametric]: the key ['strategy']
    is absent for a point that could not be solved. *)
Record full_result (Strategy : Type) : Type := {
  fr_strategy : option Strategy;     (* 'strategy', when present *)
  fr_cost : Q;                       (* 'cost' *)
  fr_time : Q;                       (* 'time' *)
  fr_solution_present : bool         (* 'status' in cps.SOLUTION_PRESENT *)
}.

(** An entry of [Optimizer._solver_cache], built by [cache_factors]. *)
Record cache_entry (Factor InvData Chain : Type) : Type := {
  factors : Factor;
  inverse_data : InvData;
  chain : Chain
}.

(** ** External collaborators *)

Class External : Type := {
  (* mlopt.strategy *)
  Strategy : Type;
  strategy_eqb : Strategy -> Strategy -> bool;            (* Strategy.__eq__ *)
  encode_strategies : list Strategy -> list Z * list Strategy;
  (* mlopt.problem *)
  Problem : Type;
  Sol : Type;
  ReducedProblem : Type;
  ProblemData : Type;
  Chain : Type;
  InvData : Type;
  populate : Problem -> row -> Problem;
  set_verbose : Problem -> Problem;           (* solver_options['verbose'] = True *)
  is_qp : Problem -> bool;
  _relax_disc_var : Problem -> Problem;
  _restore_disc_var : Problem -> Problem;
  _construct_reduced_problem : Problem -> Strategy -> ReducedProblem;
  get_problem_data : ReducedProblem -> ProblemData * Chain * InvData;
  solve_parametric : Problem -> list row -> bool -> list (full_result Strategy);
  (* mlopt.kkt and scipy.sparse.linalg *)
  KKTMatrix : Type;
  Factor : Type;
  create_kkt_matrix : ProblemData -> KKTMatrix;
  factorized : KKTMatrix -> res Factor;       (* raises on a singular matrix *)
  (* the two solve entry points of mlopt.problem, as choose_best calls them *)
  solve_with_strategy :
    Problem -> Strategy -> option (cache_entry Factor InvData Chain) -> solve_result Sol;
  solve_with_strategy_ray :
    Problem -> Strategy -> list (option (cache_entry Factor InvData Chain)) -> solve_result Sol;
  (* mlopt.settings *)
  INFEAS_TOL : Q;
  SUBOPT_TOL : Q;
  K_MAX_STRATEGIES : nat;
  DEFAULT_LEARNER : string;
  (* mlopt.learners *)
  Learner : Type;
  LearnerOptions : Type;
  LEARNER_MAP : string -> option (nat -> nat -> LearnerOptions -> Learner);
  learner_train : Learner -> list row -> option (list Z) -> Learner;
  learner_n_best : Learner -> nat;                        (* options['n_best'] *)
  learner_predict : Learner -> list row -> list (list Z); (* one row of labels per point *)
  predict_elapsed : Learner -> list row -> Q;             (* time() - t_start around predict *)
  learner_n_train : Learner -> nat;
  (* mlopt.sampling *)
  Sampler : Type;
  SamplingFn : Type;
  new_sampler : Problem -> nat -> Sampler;                (* Sampler(problem, n_samples=n) *)
  new_sampler_fn : Problem -> SamplingFn -> Sampler;      (* Sampler(problem, sampling_fn) *)
  compute_good_turing : Sampler -> option (list Z) -> Sampler;
  good_turing : Sampler -> Q;
  good_turing_smooth : Sampler -> Q;
  sampler_sample : Sampler -> bool -> Sampler * (list row * list Z * list Strategy);
  (* mlopt.filter *)
  Filter : Type;
  new_filter : option (list row) -> option (list Z) -> list Q ->
               option (list Strategy) -> Problem -> Filter;
  filter_run : Filter -> nat -> bool -> Filter * (list Z * list Strategy)
}.

Section Model.

Context {E : External}.

Definition kkt_cache : Type := cache_entry Factor InvData Chain.

(** The dictionary returned by [choose_best]; [solve] adds ['pred_time'] and
    ['solve_time']. *)
Record result : Type := {
  r_x : Sol;
  r_time : Q;
  r_strategy : Strategy;
  r_cost : Q;
  r_infeasibility : Q;
  r_pred_time : option Q;
  r_solve_time : option Q
}.

(** The fields of an [Optimizer] object. [None] is Python's [None]; for the
    attributes that [__init__] does not create it is the missing attribute. *)
Record Optimizer : Type := {
  _problem : Problem;
  _solver_cache : option (list kkt_cache);
  name : string;
  _learner : option Learner;
  encoding : option (list Strategy);
  X_train : option (list row);
  y_train : option (list Z);
  parallel : bool;
  obj_train : option (list Q);
  _sampler : option Sampler;
  _filter : option Filter;
  encoding_full : option (list Strategy);
  y_train_full : option (list Z)
}.

(** A call of one of the two solve entry points, in the order made. *)
Inductive solver_call : Type :=
| CallSolve (p : Problem) (s : Strategy) (c : option kkt_cache)
| CallSolveRay (p : Problem) (s : Strategy) (c : list (option kkt_cache)).

(** The state a method runs in: the object and the calls made so far to
    the solver. *)
Record World : Type := {
  self : Optimizer;
  calls : list solver_call
}.

Definition Meth (A : Type) : Type := M World A.

Definition update_self (f : Optimizer -> Optimizer) : Meth unit :=
  modify (fun w => {| self := f (self w); calls := calls w |}).

Definition set_problem (p : Problem) (o : Optimizer) : Optimizer :=
  {| _problem := p; _solver_cache := _solver_cache o; name := name o;
     _learner := _learner o; encoding := encoding o; X_train := X_train o;
     y_train := y_train o; parallel := parallel o; obj_train := obj_train o;
     _sampler := _sampler o; _filter := _filter o;
     encoding_full := encoding_full o; y_train_full := y_train_full o |}.

Definition set_solver_cache (c : option (list kkt_cache)) (o : Optimizer) : Optimizer :=
  {| _problem := _problem o; _solver_cache := c; name := name o;
     _learner := _learner o; encoding := encoding o; X_train := X_train o;
     y_train := y_train o; parallel := parallel o; obj_train := obj_train o;
     _sampler := _sampler o; _filter := _filter o;
     encoding_full := encoding_full o; y_train_full := y_train_full o |}.

Definition set_learner (l : option Learner) (o : Optimizer) : Optimizer :=
  {| _problem := _problem o; _solver_cache := _solver_cache o; name := name o;
     _learner := l; encoding := encoding o; X_train := X_train o;
     y_train := y_train o; parallel := parallel o; obj_train := obj_train o;
     _sampler := _sampler o; _filter := _filter o;
     encoding_full := encoding_full o; y_train_full := y_train_full o |}.

Definition set_samples (X : option (list row)) (y : option (list Z))
    (enc : option (list Strategy)) (o : Optimizer) : Optimizer :=
  {| _problem := _problem o; _solver_cache := _solver_cache o; name := name o;
     _learner := _learner o; encoding := enc; X_train := X;
     y_train := y; parallel := parallel o; obj_train := obj_train o;
     _sampler := _sampler o; _filter := _filter o;
     encoding_full := encoding_full o; y_train_full := y_train_full o |}.

Definition set_obj_train (c : option (list Q)) (o : Optimizer) : Optimizer :=
  {| _problem := _problem o; _solver_cache := _solver_cache o; name := name o;
     _learner := _learner o; encoding := encoding o; X_train := X_train o;
     y_train := y_train o; parallel := parallel o; obj_train := c;
     _sampler := _sampler o; _filter := _filter o;
     encoding_full := encoding_full o; y_train_full := y_train_full o |}.

Definition set_sampler (s : option Sampler) (o : Optimizer) : Optimizer :=
  {| _problem := _problem o; _solver_cache := _solver_cache o; name := name o;
     _learner := _learner o; encoding := encoding o; X_train := X_train o;
     y_train := y_train o; parallel := parallel o; obj_train := obj_train o;
     _sampler := s; _filter := _filter o;
     encoding_full := encoding_full o; y_train_full := y_train_full o |}.

Definition set_filter (f : option Filter) (o : Optimizer) : Optimizer :=
  {| _problem := _problem o; _solver_cache := _solver_cache o; name := name o;
     _learner := _learner o; encoding := encoding o; X_train := X_train o;
     y_train := y_train o; parallel := parallel o; obj_train := obj_train o;
     _sampler := _sampler o; _filter := f;
     encoding_full := encoding_full o; y_train_full := y_train_full o |}.

Definition set_full (enc : option (list Strategy)) (y : option (list Z))
    (o : Optimizer) : Optimizer :=
  {| _problem := _problem o; _solver_cache := _solver_cache o; name := name o;
     _learner := _learner o; encoding := encoding o; X_train := X_train o;
     y_train := y_train o; parallel := parallel o; obj_train := obj_train o;
     _sampler := _sampler o; _filter := _filter o;
     encoding_full := enc; y_train_full := y |}.

(** [obj.attr] where [obj] may be [None] (or the attribute missing). *)
Definition attr {A} (o : option A) : res A :=
  match o with
  | Some a => Ok a
  | None => Raise AttributeError
  end.

(** [obj[i]] or [len(obj)] where [obj] may be [None]. *)
Definition not_none {A} (o : option A) : res A :=
  match o with
  | Some a => Ok a
  | None => Raise TypeError
  end.

(** Truth value of a field that holds [None] or a list. *)
Definition truthy {A} (o : option (list A)) : bool :=
  match o with
  | Some (_ :: _) => true
  | _ => false
  end.

(** The two solve entry points, recorded in [calls]. *)
Definition call_solve (p : Problem) (s : Strategy) (c : option kkt_cache)
  : Meth (solve_result Sol) :=
  fun w => (Ok (solve_with_strategy p s c),
            {| self := self w; calls := calls w ++ [CallSolve p s c] |}).

Definition call_solve_ray (p : Problem) (s : Strategy) (c : list (option kkt_cache))
  : Meth (solve_result Sol) :=
  fun w => (Ok (solve_with_strategy_ray p s c),
            {| self := self w; calls := calls w ++ [CallSolveRay p s c] |}).

(** *** [Optimizer.choose_best] *)

(** Lines 433-444: the position of the candidate to return. *)
Definition pick_best (infeas cost : list Q) : res nat :=
  let idx_filter := np_where (map (fun v => Qleb v INFEAS_TOL) infeas) in
  if (0 <? length idx_filter)%nat
  then rbind (np_take cost idx_filter) (fun cost_f =>
       rbind (np_argmin cost_f) (fun k =>
       py_get idx_filter k))
  else np_argmin infeas.

(** The local lists [x], [time], [infeas], [cost]. *)
Definition locals : Type := (list Sol * list Q * list Q * list Q)%type.

Definition append_result (l : locals) (r : solve_result Sol) : locals :=
  let '(x, time, infeas, cost) := l in
  (x ++ [sr_x r], time ++ [sr_time r],
   infeas ++ [sr_infeasibility r], cost ++ [sr_cost r]).

(** Line 400: [[self.encoding[l] for l in labels]]. *)
Definition decode_labels (o : Optimizer) (labels : list Z) : res (list Strategy) :=
  rmap (fun l => rbind (not_none (encoding o)) (fun enc => py_index enc l)) labels.

(** Lines 403-405: the list of solver caches to pass. *)
Definition cache_for (o : Optimizer) (labels : list Z) (use_cache : bool)
    (n_best : nat) : res (list (option kkt_cache)) :=
  if (truthy (_solver_cache o) && use_cache)%bool
  then rmap (fun l => rbind (not_none (_solver_cache o)) (fun sc =>
                      rbind (py_index sc l) (fun c => Ok (Some c)))) labels
  else Ok (repeat None n_best).

(** Lines 407-430: the candidate solves, through ray or one after the other. *)
Definition evaluate (p : Problem) (strategies : list Strategy)
    (cache : list (option kkt_cache)) (parallel : bool) (n_best : nat) : Meth locals :=
  (if parallel
   then results <- for_each (fun s => call_solve_ray p s cache) strategies ;;
        ret (map (@sr_x _) results, map (@sr_time _) results,
             map (@sr_infeasibility _) results, map (@sr_cost _) results)
   else for_loop (fun j l =>
          s <- lift (py_get strategies j) ;;
          c <- lift (py_get cache j) ;;
          res <- call_solve p s c ;;
          ret (append_result l res))
        (seq 0 n_best) ([], [], [], []))%py.

(** Lines 433-454: pick the candidate and store its values. *)
Definition store_best (strategies : list Strategy) (l : locals) : res result :=
  let '(x, time, infeas, cost) := l in
  rbind (pick_best infeas cost) (fun idx_pick =>
  rbind (py_get x idx_pick) (fun rx =>
  rbind (py_get strategies idx_pick) (fun rs =>
  rbind (py_get cost idx_pick) (fun rc =>
  rbind (py_get infeas idx_pick) (fun ri =>
  Ok {| r_x := rx; r_time := np_sum time; r_strategy := rs; r_cost := rc;
        r_infeasibility := ri; r_pred_time := None; r_solve_time := None |}))))).

Definition choose_best (labels : list Z) (parallel use_cache : bool) : Meth result :=
  (w <- get ;;
   learner <- lift (attr (_learner (self w))) ;;
   let n_best := learner_n_best learner in
   strategies <- lift (decode_labels (self w) labels) ;;
   cache <- lift (cache_for (self w) labels use_cache n_best) ;;
   l <- evaluate (_problem (self w)) strategies cache parallel n_best ;;
   lift (store_best strategies l))%py.

(** *** [Optimizer.solve] *)

(** What [solve] returns: one dictionary, or a list of dictionaries. *)
Inductive solve_output : Type :=
| Single (r : result)
| Many (rs : list result).

(** Lines 511-514, for one result [r]. *)
Definition append_predict_time (t_predict : Q) (r : result) : result :=
  {| r_x := r_x r;
     r_time := (t_predict + r_time r)%Q;
     r_strategy := r_strategy r;
     r_cost := r_cost r;
     r_infeasibility := r_infeasibility r;
     r_pred_time := Some t_predict;
     r_solve_time := Some (r_time r) |}.

(** [len(X)] rows of [X], after a Series has been made a one-row frame. *)
Definition frame_rows (X : frame) : list row :=
  match X with
  | Series r => [r]
  | DataFrame rows => rows
  end.

(** The body of the loop of [solve] for point [i]: populate the problem,
    choose among the labels predicted for the point. *)
Definition solve_point (X : list row) (classes : list (list Z)) (use_cache : bool)
    (i : nat) : Meth result :=
  (theta <- lift (py_get X i) ;;
   update_self (fun o => set_problem (populate (_problem o) theta) o) ;;;
   labels <- lift (py_get classes i) ;;
   choose_best labels false use_cache)%py.

Definition solve (X : frame) (use_cache verbose : bool) : Meth solve_output :=
  (let X := frame_rows X in
   let n_points := length X in
   w <- get ;;
   if (use_cache && negb (truthy (_solver_cache (self w))))%bool
   then raise (ValueError CacheNotComputed)
   else
     (if verbose
      then update_self (fun o => set_problem (set_verbose (_problem o)) o)
      else ret tt) ;;;
     learner <- lift (attr (_learner (self w))) ;;
     let classes := learner_predict learner X in
     t_predict <- lift (if (n_points =? 0)%nat then Raise ZeroDivisionError
                        else Ok (predict_elapsed learner X
                                 / inject_Z (Z.of_nat n_points))%Q) ;;
     results <- for_each (solve_point X classes use_cache) (seq 0 n_points) ;;
     let results := map (append_predict_time t_predict) results in
     if (length results =? 1)%nat
     then r <- lift (py_get results 0) ;; ret (Single r)
     else ret (Many results))%py.

(** *** [Optimizer.cache_factors] *)

Definition n_strategies : Meth nat :=
  (w <- get ;;
   match encoding (self w) with
   | None => raise (ValueError ModelNotTrained)
   | Some enc => ret (length enc)
   end)%py.

(** [np.where(self.y_train == strategy_idx)[0]]; a [y_train] that is [None]
    compares unequal as a whole. *)
Definition where_label (y : option (list Z)) (strategy_idx : nat) : list nat :=
  match y with
  | None => []
  | Some y => np_where (map (fun l => (l =? Z.of_nat strategy_idx)%Z) y)
  end.

(** Lines 347-349: the strategy of id [strategy_idx] and the first training
    point that gave it. *)
Definition representative (o : Optimizer) (strategy_idx : nat) : res (Strategy * row) :=
  rbind (not_none (encoding o)) (fun enc =>
  rbind (py_get enc strategy_idx) (fun strategy =>
  let idx_param := where_label (y_train o) strategy_idx in
  rbind (attr (X_train o)) (fun X =>
  rbind (py_get idx_param 0) (fun i0 =>
  rbind (py_get X i0) (fun theta =>
  Ok (strategy, theta)))))).

(** Lines 355-361: the KKT matrix of the reduced problem of [strategy], with
    the chain and the inverse data of the reduction. *)
Definition kkt_of_strategy (p : Problem) (strategy : Strategy)
  : KKTMatrix * Chain * InvData :=
  let reduced_problem := _construct_reduced_problem p strategy in
  let '(data, full_chain, inv_data) := get_problem_data reduced_problem in
  (create_kkt_matrix data, full_chain, inv_data).

(** The body of the loop of [cache_factors] for one [strategy_idx]. *)
Definition cache_one (strategy_idx : nat) : Meth unit :=
  (w <- get ;;
   st <- lift (representative (self w) strategy_idx) ;;
   let '(strategy, theta) := st in
   update_self (fun o => set_problem (populate (_problem o) theta) o) ;;;
   update_self (fun o => set_problem (_relax_disc_var (_problem o)) o) ;;;
   w1 <- get ;;
   let '(KKT_mat, full_chain, inv_data) :=
     kkt_of_strategy (_problem (self w1)) strategy in
   solve_kkt <- lift (factorized KKT_mat) ;;
   let cache := {| factors := solve_kkt; inverse_data := inv_data;
                   chain := full_chain |} in
   update_self (fun o => set_solver_cache
                           (option_map (fun l => l ++ [cache]) (_solver_cache o)) o) ;;;
   update_self (fun o => set_problem (_restore_disc_var (_problem o)) o))%py.

Definition cache_factors : Meth unit :=
  (update_self (set_solver_cache (Some [])) ;;;
   n <- n_strategies ;;
   for_loop (fun strategy_idx (_ : unit) => cache_one strategy_idx) (seq 0 n) tt)%py.

(** *** [mlopt.utils] *)

(** [n_features(df)]: the columns are read off the first row. A frame is
    modelled by its rows: a frame without rows stands for one that has
    columns, on which [df[c].iloc[0]] raises IndexError; the frame with
    neither rows nor columns, for which the loop is not entered and 0 is
    returned, is not represented. *)
Definition n_features (df : list row) : res nat :=
  match df with
  | [] => Raise IndexError
  | r :: _ => Ok (fold_left (fun n c => match c with
                                        | Lst l => n + length l
                                        | Num _ => n + 1
                                        end) r 0)
  end.

Definition suboptimality (cost_pred cost_test : Q) : Q :=
  ((cost_pred - cost_test) / (Qabs cost_test + (1 # 10000000000)))%Q.

(** [a[i] = v] on a numpy array. *)
Fixpoint np_set {A} (a : list A) (i : nat) (v : A) : res (list A) :=
  match a, i with
  | [], _ => Raise IndexError
  | _ :: a', O => Ok (v :: a')
  | h :: a', S i' => rbind (np_set a' i' v) (fun a'' => Ok (h :: a''))
  end.

(** A loop over [l] whose body may raise, with loop state [s]. *)
Fixpoint rfor {S A} (body : A -> S -> res S) (l : list A) (s : S) : res S :=
  match l with
  | [] => Ok s
  | a :: l' => rbind (body a s) (fun s' => rfor body l' s')
  end.

Definition key {A} (k : string) (o : option A) : res A :=
  match o with
  | Some a => Ok a
  | None => Raise (KeyError k)
  end.

(** The body of the loop of [accuracy] at position [i]. *)
Definition accuracy_step (results_pred : list result)
    (results_test : list (full_result Strategy))
    (i : nat) (idx_correct : list Z) : res (list Z) :=
  rbind (py_get results_pred i) (fun r_pred =>
  rbind (py_get results_test i) (fun r_test =>
  rbind (key "strategy" (fr_strategy r_test)) (fun s_test =>
  if strategy_eqb (r_strategy r_pred) s_test
  then np_set idx_correct i 1%Z
  else if Qleb (r_infeasibility r_pred) INFEAS_TOL
       then let subopt := suboptimality (r_cost r_pred) (fr_cost r_test) in
            if Qleb subopt SUBOPT_TOL
            then np_set idx_correct i 1%Z
            else Ok idx_correct
       else Ok idx_correct))).

(** [np.sum] of an integer array. *)
Definition np_sum_int (a : list Z) : Z := fold_left Z.add a 0%Z.

(** [np.sum(idx) / n]: numpy's [nan] when [n] is 0. *)
Definition int_div (s : Z) (n : nat) : option Q :=
  if (n =? 0)%nat then None
  else Some (inject_Z s / inject_Z (Z.of_nat n))%Q.

Definition accuracy (results_pred : list result)
    (results_test : list (full_result Strategy)) : res (option Q * list Z) :=
  let n_points := length results_pred in
  if negb (n_points =? length results_test)%nat then Raise AssertionError
  else
    rbind (rfor (accuracy_step results_pred results_test)
                (seq 0 n_points) (repeat 0%Z n_points))
          (fun idx_correct =>
             Ok (int_div (np_sum_int idx_correct) n_points, idx_correct)).

(** *** [Optimizer.get_samples] and [Optimizer.train] *)

Definition is_some {A} (o : option A) : bool :=
  match o with
  | Some _ => true
  | None => false
  end.

Definition samples_present (o : Optimizer) : bool :=
  (is_some (X_train o) && is_some (y_train o) && is_some (encoding o))%bool.

Definition sample (sampling_fn : SamplingFn) (parallel : bool) : Meth unit :=
  (w <- get ;;
   let s := new_sampler_fn (_problem (self w)) sampling_fn in
   let '(s', (X, y, enc)) := sampler_sample s parallel in
   update_self (set_sampler (Some s')) ;;;
   update_self (set_samples (Some X) (Some y) (Some enc)))%py.

Definition filter_strategies (k_max_strategies : nat) (parallel : bool) : Meth unit :=
  (w <- get ;;
   update_self (set_full (encoding (self w)) (y_train (self w))) ;;;
   obj <- lift (attr (obj_train (self w))) ;;
   let f := new_filter (X_train (self w)) (y_train (self w)) obj
                       (encoding (self w)) (_problem (self w)) in
   let '(f', (y, enc)) := filter_run f k_max_strategies parallel in
   update_self (set_filter (Some f')) ;;;
   update_self (fun o => set_samples (X_train o) (Some y) (Some enc) o))%py.

(** Lines 226-261: the branch of [get_samples] taken when data [X] is passed. *)
Definition use_new_data (X : list row) (parallel : bool) : Meth unit :=
  (update_self (set_samples (Some X) None None) ;;;
   w <- get ;;
   let results := solve_parametric (_problem (self w)) X parallel in
   let not_feasible_points :=
     filter (fun r => negb (is_some (fr_strategy r))) results in
   if (0 <? length not_feasible_points)%nat
   then raise (ValueError (InfeasiblePoints (length not_feasible_points)))
   else
     update_self (set_obj_train (Some (map (@fr_cost _) results))) ;;;
     train_strategies <- lift (rmap (fun r => key "strategy" (fr_strategy r)) results) ;;
     (if forallb (@fr_solution_present _) results then ret tt
      else raise AssertionError) ;;;
     let '(y, enc) := encode_strategies train_strategies in
     update_self (set_samples (Some X) (Some y) (Some enc)) ;;;
     let s := new_sampler (_problem (self w)) (length X) in
     update_self (set_sampler (Some (compute_good_turing s (Some y)))))%py.

Definition get_samples (X : option (list row)) (sampling_fn : option SamplingFn)
    (parallel filter : bool) : Meth unit :=
  (w <- get ;;
   if (negb (is_some X) && negb (is_some sampling_fn)
       && negb (samples_present (self w)))%bool
   then raise (ValueError NotEnoughArguments)
   else if (is_some X && is_some sampling_fn)%bool
   then raise (ValueError OnlyOneOfXAndSamplingFn)
   else
     match X, sampling_fn with
     | Some X, _ => use_new_data X parallel
     | None, Some fn =>
         if negb (samples_present (self w)) then sample fn parallel else ret tt
     | None, None => ret tt
     end ;;;
     w' <- get ;;
     enc <- lift (not_none (encoding (self w'))) ;;
     if ((K_MAX_STRATEGIES <? length enc)%nat && filter)%bool
     then filter_strategies K_MAX_STRATEGIES true
     else ret tt)%py.

Definition train (X : option (list row)) (sampling_fn : option SamplingFn)
    (parallel : bool) (learner : string) (filter : bool)
    (learner_options : LearnerOptions) : Meth unit :=
  (get_samples X sampling_fn parallel filter ;;;
   w <- get ;;
   make <- lift (key learner (LEARNER_MAP learner)) ;;
   Xt <- lift (attr (X_train (self w))) ;;
   n_input <- lift (n_features Xt) ;;
   enc <- lift (not_none (encoding (self w))) ;;
   let l := make n_input (length enc) learner_options in
   update_self (set_learner (Some l)) ;;;
   update_self (set_learner (Some (learner_train l Xt (y_train (self w))))) ;;;
   if is_qp (_problem (self w)) then cache_factors else ret tt)%py.

(** *** [Optimizer.performance] *)

(** The entries of the returned summary that are computed from the times,
    the costs and the infeasibilities (the standard deviations, which are
    not rational, and the descriptive entries are left out). *)
Record summary : Type := {
  s_n_test : nat;
  s_good_turing : Q;
  s_good_turing_smooth : Q;
  s_n_correct : Z;
  s_accuracy : option Q;
  s_n_infeas : nat;
  s_avg_infeas : option Q;
  s_avg_subopt : option Q;
  s_max_infeas : Q;
  s_max_subopt : Q;
  s_mean_solve_time_pred : option Q;
  s_mean_pred_time_pred : option Q;
  s_mean_time_pred : option Q;
  s_mean_time_full : option Q;
  s_avg_time_improv : option Q;
  s_max_time_improv : Q
}.

(** The columns of the detailed frame, a row per test point. *)
Record detail : Type := {
  d_correct : list Z;
  d_infeas : list Q;
  d_subopt : list Q;
  d_solve_time_pred : list Q;
  d_pred_time_pred : list Q;
  d_time_pred : list Q;
  d_time_full : list Q;
  d_time_improvement : list Q
}.

(** Iterating a single dictionary yields its keys, and subscripting a key
    (a string) with ['time'] raises. *)
Definition iter_results (out : solve_output) : res (list result) :=
  match out with
  | Single _ => Raise TypeError
  | Many rs => Ok rs
  end.

Definition performance (theta : list row) (parallel use_cache : bool)
  : Meth (summary * detail) :=
  (w <- get ;;
   let results_test := solve_parametric (_problem (self w)) theta parallel in
   let time_test := map (@fr_time _) results_test in
   let cost_test := map (@fr_cost _) results_test in
   out <- solve (DataFrame theta) use_cache false ;;
   results_pred <- lift (iter_results out) ;;
   let time_pred := map r_time results_pred in
   solve_time_pred <- lift (rmap (fun r => key "solve_time" (r_solve_time r)) results_pred) ;;
   pred_time_pred <- lift (rmap (fun r => key "pred_time" (r_pred_time r)) results_pred) ;;
   let cost_pred := map r_cost results_pred in
   let infeas := map r_infeasibility results_pred in
   let n_test := length theta in
   w1 <- get ;;
   learner <- lift (attr (_learner (self w1))) ;;
   n_theta <- lift (n_features theta) ;;
   enc <- lift (not_none (encoding (self w1))) ;;
   time_comp <- lift (rmap (fun i => rbind (py_get time_test i) (fun t =>
                                     rbind (py_get time_pred i) (fun p =>
                                     Ok (t / p)%Q))) (seq 0 n_test)) ;;
   subopt <- lift (rmap (fun i => rbind (py_get cost_pred i) (fun cp =>
                                  rbind (py_get cost_test i) (fun ct =>
                                  Ok (suboptimality cp ct)))) (seq 0 n_test)) ;;
   acc <- lift (accuracy results_pred results_test) ;;
   let '(test_accuracy, idx_correct) := acc in
   let avg_time_improv := nan_div (np_mean time_test) (np_mean time_pred) in
   max_test <- lift (np_max time_test) ;;
   max_pred <- lift (np_max time_pred) ;;
   let max_time_improv := (max_test / max_pred)%Q in
   sampler <- lift (attr (_sampler (self w1))) ;;
   feas_subopt <- lift (np_take subopt
                          (np_where (map (fun v => Qleb v INFEAS_TOL) infeas))) ;;
   max_infeas <- lift (np_max infeas) ;;
   max_subopt <- lift (np_max subopt) ;;
   ret ({| s_n_test := n_test;
           s_good_turing := good_turing sampler;
           s_good_turing_smooth := good_turing_smooth sampler;
           s_n_correct := np_sum_int idx_correct;
           s_accuracy := option_map (Qmult 100) test_accuracy;
           s_n_infeas := length (np_where (map (fun v => Qleb INFEAS_TOL v) infeas));
           s_avg_infeas := np_mean infeas;
           s_avg_subopt := np_mean feas_subopt;
           s_max_infeas := max_infeas;
           s_max_subopt := max_subopt;
           s_mean_solve_time_pred := np_mean solve_time_pred;
           s_mean_pred_time_pred := np_mean pred_time_pred;
           s_mean_time_pred := np_mean time_pred;
           s_mean_time_full := np_mean time_test;
           s_avg_time_improv := avg_time_improv;
           s_max_time_improv := max_time_improv |},
        {| d_correct := idx_correct;
           d_infeas := infeas;
           d_subopt := subopt;
           d_solve_time_pred := solve_time_pred;
           d_pred_time_pred := pred_time_pred;
           d_time_pred := time_pred;
           d_time_full := time_test;
           d_time_improvement := time_comp |}))%py.

(** ** The statements of the specification, in its own words *)

(** Candidate [i] of [outs] is the one the selection rule designates:
    with [F] the candidates of infeasibility at most [INFEAS_TOL], the first
    member of [F] of minimum cost when [F] is not empty, and the first
    candidate of minimum infeasibility when it is. *)
Definition selected (outs : list (solve_result Sol)) (i : nat) : Prop :=
  exists oi, nth_error outs i = Some oi /\
    ((exists j oj, nth_error outs j = Some oj /\
                   (sr_infeasibility oj <= INFEAS_TOL)%Q) ->
       (sr_infeasibility oi <= INFEAS_TOL)%Q /\
       forall j oj, nth_error outs j = Some oj ->
                    (sr_infeasibility oj <= INFEAS_TOL)%Q ->
                    (sr_cost oi <= sr_cost oj)%Q /\
                    (j < i -> (sr_cost oi < sr_cost oj)%Q)) /\
    ((forall j oj, nth_error outs j = Some oj ->
                   ~ (sr_infeasibility oj <= INFEAS_TOL)%Q) ->
       forall j oj, nth_error outs j = Some oj ->
                    (sr_infeasibility oi <= sr_infeasibility oj)%Q /\
                    (j < i -> (sr_infeasibility oi < sr_infeasibility oj)%Q)).

(** The dictionary [choose_best] builds from candidate [i]. *)
Definition certified (strategies : list Strategy) (outs : list (solve_result Sol))
    (i : nat) (r : result) : Prop :=
  exists s o, nth_error strategies i = Some s /\ nth_error outs i = Some o /\
    r = {| r_x := sr_x o; r_time := np_sum (map (@sr_time _) outs);
           r_strategy := s; r_cost := sr_cost o;
           r_infeasibility := sr_infeasibility o;
           r_pred_time := None; r_solve_time := None |}.

(** A test point counts as correct. *)
Definition correct_point (r_pred : result) (s_test : Strategy) (cost_test : Q) : bool :=
  (strategy_eqb (r_strategy r_pred) s_test
   || (Qleb (r_infeasibility r_pred) INFEAS_TOL
       && Qleb ((r_cost r_pred - cost_test)
                / (Qabs cost_test + (1 # 10000000000)))%Q SUBOPT_TOL))%bool.

(** The outcomes of the candidate solves of one call of [choose_best], by
    rank: through [solve_with_strategy_ray], which is handed the whole list
    [cache], or through [solve_with_strategy], which is handed [cache[j]]. *)
Definition outcomes (p : Problem) (parallel : bool) (strategies : list Strategy)
    (cache : list (option kkt_cache)) : list (solve_result Sol) :=
  if parallel
  then map (fun s => solve_with_strategy_ray p s cache) strategies
  else map (fun sc => solve_with_strategy p (fst sc) (snd sc))
           (combine strategies cache).

(** The sum of the solve times of the candidates, one after the other. *)
Fixpoint total_time (outs : list (solve_result Sol)) : Q :=
  match outs with
  | [] => 0%Q
  | o :: outs' => (sr_time o + total_time outs')%Q
  end.

(** The problem object when point [i] of [X] is solved: rows [0..i] have
    been populated in turn. *)
Definition populated (p : Problem) (X : list row) (i : nat) : Problem :=
  fold_left populate (firstn (S i) X) p.

(** The four local lists of [choose_best] once the candidates of outcomes
    [outs] have been solved. *)
Definition unzip (outs : list (solve_result Sol)) : locals :=
  (map (@sr_x _) outs, map (@sr_time _) outs,
   map (@sr_infeasibility _) outs, map (@sr_cost _) outs).

(** The state [w] after the solver calls [cs]. *)
Definition extend (w : World) (cs : list solver_call) : World :=
  {| self := self w; calls := calls w ++ cs |}.

(** What a reduced solve attempted for one candidate comes to: a solution,
    or a failure (with whatever is reported of the point, the time and the
    cost). *)
Inductive attempt : Type :=
| Solved (o : solve_result Sol)
| Failed (x : Sol) (time cost : Q).

(** Modelled from the spec: the treatment of a failed solve inside
    [solve_with_strategy] and [solve_with_strategy_ray] (mlopt.problem, which
    is not under src/): "a per-candidate solve failure is treated as
    infeasible with a large sentinel infeasibility value, not as a fatal
    error for the whole call". *)
Definition treat_failure (sentinel : Q) (a : attempt) : solve_result Sol :=
  match a with
  | Solved o => o
  | Failed x t c => {| sr_x := x; sr_time := t;
                       sr_infeasibility := sentinel; sr_cost := c |}
  end.

(** The labels [choose_best] can be called with: as many as the learner's
    [n_best], at least one, each an id of the encoding and, when the cache
    is used, of the cache. *)
Definition valid_labels (o : Optimizer) (use_cache : bool) (labels : list Z) : Prop :=
  exists learner strategies cache,
    _learner o = Some learner /\
    labels <> [] /\
    length labels = learner_n_best learner /\
    decode_labels o labels = Ok strategies /\
    cache_for o labels use_cache (learner_n_best learner) = Ok cache.

(** The state in which [solve] calls [choose_best] for point [i] of [X], up
    to the record of solver calls. *)
Definition point_world (w : World) (verbose : bool) (X : list row) (i : nat) : World :=
  {| self := set_problem
               (populated (if verbose then set_verbose (_problem (self w))
                           else _problem (self w)) X i) (self w);
     calls := [] |}.

(** The result of [choose_best] for point [i] of [X], on the labels the
    learner predicts for it. *)
Definition point_result (w : World) (use_cache verbose : bool) (X : list row)
    (i : nat) : res result :=
  rbind (attr (_learner (self w))) (fun learner =>
  rbind (py_get (learner_predict learner X) i) (fun labels =>
  fst (choose_best labels false use_cache (point_world w verbose X i)))).

(** The average prediction time [solve] adds to every result. *)
Definition t_predict (learner : Learner) (X : list row) : Q :=
  (predict_elapsed learner X / inject_Z (Z.of_nat (length X)))%Q.

(** The test point made of a predicted and of a true result counts as
    correct; the true result must carry a strategy. *)
Definition correct_at (pt : result * full_result Strategy) : bool :=
  match fr_strategy (snd pt) with
  | Some s_test => correct_point (fst pt) s_test (fr_cost (snd pt))
  | None => false
  end.

(** The fraction of the test points that count as correct; undefined
    ([nan]) when there is no test point. *)
Definition fraction_correct (results_pred : list result)
    (results_test : list (full_result Strategy)) : option Q :=
  let n := length results_pred in
  let correct := filter correct_at (combine results_pred results_test) in
  if (n =? 0)%nat then None
  else Some (inject_Z (Z.of_nat (length correct)) / inject_Z (Z.of_nat n))%Q.

(** The KKT matrix that [cache_factors] hands to [factorized] for the
    strategy of id [strategy_idx], when its turn comes in the state [w]. *)
Definition kkt_at (w : World) (strategy_idx : nat) : res KKTMatrix :=
  rbind (representative (self w) strategy_idx) (fun st =>
  let p := _relax_disc_var (populate (_problem (self w)) (snd st)) in
  Ok (fst (fst (kkt_of_strategy p (fst st))))).

(** The state of [cache_factors] when the turn of the strategy of id [k]
    comes, the strategies before it having been cached. *)
Definition cached_up_to (w : World) (k : nat) : res unit * World :=
  for_loop (fun strategy_idx (_ : unit) => cache_one strategy_idx) (seq 0 k) tt
    {| self := set_solver_cache (Some []) (self w); calls := calls w |}.

(** The number of entries of the cache. *)
Definition cache_size (o : Optimizer) : nat :=
  match _solver_cache o with
  | Some l => length l
  | None => 0
  end.

(** ** Further notions used in the statements *)

(** The call went through ray. *)
Definition call_is_ray (c : solver_call) : bool :=
  match c with
  | CallSolve _ _ _ => false
  | CallSolveRay _ _ _ => true
  end.

(** [i] is an index of the Python list [l], counted from the start or,
    when negative, from the end. *)
Definition in_range {A} (l : list A) (i : Z) : Prop :=
  (- Z.of_nat (length l) <= i < Z.of_nat (length l))%Z.

(** The dictionaries in what [solve] returns. *)
Definition results_of (out : solve_output) : list result :=
  match out with
  | Single r => [r]
  | Many rs => rs
  end.

(** The two objects have the same factorization cache and the same
    learner. *)
Definition same_core (o o' : Optimizer) : Prop :=
  _solver_cache o' = _solver_cache o /\ _learner o' = _learner o.

(** The method [m], whether it returns or raises, changes neither the
    cache nor the learner of the object. *)
Definition keeps_core {A} (m : Meth A) : Prop :=
  forall w, same_core (self w) (self (snd (m w))).

(** The two objects have the same training data, the same encoding and
    the same learner. *)
Definition same_training (o o' : Optimizer) : Prop :=
  encoding o' = encoding o /\ X_train o' = X_train o /\
  y_train o' = y_train o /\ _learner o' = _learner o.

(** The method [m], whether it returns or raises, changes none of them. *)
Definition keeps_training {A} (m : Meth A) : Prop :=
  forall w, same_training (self w) (self (snd (m w))).

(** *** [mlopt.utils.pandas2array] *)

(** What [pandas2array] is given: a numpy array, or a frame. *)
Inductive array_like : Type :=
| Array (a : list (list Q))
| Frame (X : list row).

(** What [pandas2array] raises: an exception of Python, or the ValueError
    of [np.vstack] for rows of different lengths. *)
Inductive np_exn : Type :=
| Python (e : exn)
| DimensionMismatch.

(** Lines 54-59: the cells of one row, appended to [x_temp] in turn. *)
Definition unroll_row (x_data : row) : list Q :=
  fold_left (fun x_temp c => match c with
                             | Lst l => x_temp ++ l
                             | Num v => x_temp ++ [v]
                             end) x_data [].

(** [np.vstack((X_new, x_temp))] for [X_new] of [n] columns. *)
Definition np_vstack (n : nat) (X_new : list (list Q)) (x_temp : list Q)
  : np_exn + list (list Q) :=
  if (length x_temp =? n)%nat then inr (X_new ++ [x_temp])
  else inl DimensionMismatch.

(** Lines 53-60: the loop over the rows. *)
Fixpoint unroll_rows (n : nat) (rows : list row) (X_new : list (list Q))
  : np_exn + list (list Q) :=
  match rows with
  | [] => inr X_new
  | x_data :: rows' =>
      match np_vstack n X_new (unroll_row x_data) with
      | inl e => inl e
      | inr X_new' => unroll_rows n rows' X_new'
      end
  end.

Definition pandas2array (X : array_like) : np_exn + list (list Q) :=
  match X with
  | Array a => inr a
  | Frame X =>
      match n_features X with
      | Raise e => inl (Python e)
      | Ok n => unroll_rows n X []
      end
  end.

(** The numbers in a cell, and the width of a row: the count of the numbers
    in its cells. *)
Definition cell_values (c : cell) : list Q :=
  match c with
  | Lst l => l
  | Num v => [v]
  end.

Definition width (r : row) : nat := length (flat_map cell_values r).

(** *** Saving and loading

    [Optimizer.__init__], [save_training_data], [load_training_data],
    [save] and [from_file] (src/mlopt/optimizer.py, lines 31-66, 127-208
    and 521-635). The methods work on files: the disk maps a file name to
    what the file holds, [pickle] stores a dictionary and gives it back,
    an archive holds its members by name, and [input] reads the answers
    typed at the prompt, in turn. *)

(** What the four methods ask of the learner and of the problem. *)
Class Storage : Type := {
  learner_name : Learner -> string;                    (* Learner.name *)
  learner_options : Learner -> LearnerOptions;         (* Learner.options *)
  LearnerFile : Type;                                  (* what Learner.save writes *)
  learner_save : Learner -> LearnerFile;               (* Learner.save(path) *)
  learner_load : Learner -> option LearnerFile -> res Learner;  (* Learner.load(path) *)
  CvxpyProblem : Type;
  Objective : Type;
  Constraints : Type;
  cvxpy_problem : Problem -> CvxpyProblem;             (* Problem.cvxpy_problem *)
  objective : CvxpyProblem -> Objective;
  constraints : CvxpyProblem -> Constraints;
  new_problem : Objective -> Constraints -> Problem;   (* Problem(objective, constraints, ...) *)
  n_parameters : Problem -> nat                        (* Problem.n_parameters *)
}.

Context {St : Storage}.

(** Lines 31-66. The attributes [obj_train], [_sampler], [_filter],
    [encoding_full] and [y_train_full] are not set: they are absent. *)
Definition __init__ (obj : Objective) (cons : Constraints) (name0 : string)
    (parallel0 : bool) : Optimizer :=
  {| _problem := new_problem obj cons;
     _solver_cache := None;
     name := name0;
     _learner := None;
     encoding := None;
     X_train := None;
     y_train := None;
     parallel := parallel0;
     obj_train := None;
     _sampler := None;
     _filter := None;
     encoding_full := None;
     y_train_full := None |}.

(** The values the methods put in the dictionaries they pickle. *)
Inductive pyobj : Type :=
| PNone
| PStr (s : string)
| PProblem (p : Problem)
| PFrame (X : list row)
| PLabels (y : list Z)
| PCosts (c : list Q)
| PEncoding (enc : list Strategy)
| PCache (c : list kkt_cache)
| POptions (o : LearnerOptions)
| PFilter (f : Filter)
| PSampler (s : Sampler).

(** A dictionary with string keys, in insertion order. *)
Definition pydict : Type := list (string * pyobj).

(** A member of an archive, and what a file holds: a pickled dictionary, an
    archive, or nothing (a file opened for writing and closed). *)
Inductive member : Type :=
| MPickled (d : pydict)
| MLearner (f : LearnerFile).

Inductive file : Type :=
| Pickled (d : pydict)
| Archive (members : list (string * member))
| Blank.

Definition Disk : Type := string -> option file.

(** The exceptions of the four methods: those of the rest of the model,
    their own ValueErrors, and those of [input], [open], [tarfile] and
    [pickle]. [OutOfModel] marks a dictionary value of a type that the
    methods never store under the key read. *)
Inductive io_msg : Type :=
| FileDoesNotExist (file_name : string)   (* "File %s does not exist." *)
| NeedStrategies          (* "You need to get the strategies from the data first ..." *)
| SaveUntrained.          (* "You cannot save the optimizer without training it before." *)

Inductive io_exn : Type :=
| Py (e : exn)
| IOValueError (m : io_msg)
| EOFError
| FileNotFoundError
| ReadError
| UnpicklingError
| OutOfModel.

Inductive ires (A : Type) : Type :=
| IOk (a : A)
| IRaise (e : io_exn).

Arguments IOk {A} a.
Arguments IRaise {A} e.

Definition of_res {A} (r : res A) : ires A :=
  match r with
  | Ok a => IOk a
  | Raise e => IRaise (Py e)
  end.

Definition ibind {A B} (r : ires A) (f : A -> ires B) : ires B :=
  match r with
  | IOk a => f a
  | IRaise e => IRaise e
  end.

(** The state of a method that works on files: the object, the disk and the
    answers still to be typed. *)
Record Sys : Type := {
  sys_self : Optimizer;
  sys_disk : Disk;
  sys_stdin : list string
}.

Definition IO (A : Type) : Type := Sys -> ires A * Sys.

Definition io_ret {A} (a : A) : IO A := fun s => (IOk a, s).

Definition io_bind {A B} (m : IO A) (f : A -> IO B) : IO B :=
  fun s => match m s with
           | (IOk a, s') => f a s'
           | (IRaise e, s') => (IRaise e, s')
           end.

Definition io_raise {A} (e : io_exn) : IO A := fun s => (IRaise e, s).

Definition io_lift {A} (r : ires A) : IO A := fun s => (r, s).

Definition io_get : IO Sys := fun s => (IOk s, s).

Declare Scope io_scope.
Delimit Scope io_scope with io.
Notation "x <- m ;; k" := (io_bind m (fun x => k))
  (at level 61, m at next level, right associativity) : io_scope.
Notation "m ;;; k" := (io_bind m (fun _ => k))
  (at level 61, right associativity) : io_scope.

(** [self.<field> = ...] *)
Definition assign (f : Optimizer -> Optimizer) : IO unit :=
  fun s => (IOk tt, {| sys_self := f (sys_self s); sys_disk := sys_disk s;
                       sys_stdin := sys_stdin s |}).

(** [os.path.isfile], [os.remove], and writing a file. *)
Definition isfile (d : Disk) (file_name : string) : bool := is_some (d file_name).

Definition os_remove (file_name : string) : IO unit :=
  fun s => (IOk tt,
            {| sys_self := sys_self s;
               sys_disk := fun n => if String.eqb n file_name then None
                                    else sys_disk s n;
               sys_stdin := sys_stdin s |}).

Definition write_file (file_name : string) (f : file) : IO unit :=
  fun s => (IOk tt,
            {| sys_self := sys_self s;
               sys_disk := fun n => if String.eqb n file_name then Some f
                                    else sys_disk s n;
               sys_stdin := sys_stdin s |}).

(** The loop [while p not in ['y', 'n', 'N', '']: p = input(...)]. *)
Fixpoint prompt (answers : list string) : ires string * list string :=
  match answers with
  | [] => (IRaise EOFError, [])
  | p :: rest =>
      if existsb (String.eqb p) ["y"; "n"; "N"; ""]%string then (IOk p, rest)
      else prompt rest
  end.

Definition ask : IO string :=
  fun s => let '(r, rest) := prompt (sys_stdin s) in
           (r, {| sys_self := sys_self s; sys_disk := sys_disk s;
                  sys_stdin := rest |}).

(** Lines 142-152 and 545-555: what to do with a file of the same name;
    [false] when the method is to return without saving. *)
Definition make_room (file_name : string) (delete_existing : bool) : IO bool :=
  (s <- io_get ;;
   if isfile (sys_disk s) file_name
   then
     if negb delete_existing
     then p <- ask ;;
          if String.eqb p "y" then os_remove file_name ;;; io_ret true
          else io_ret false
     else os_remove file_name ;;; io_ret true
   else io_ret true)%io.

(** A field that holds [None] or a value, as a dictionary value. *)
Definition to_obj {A} (f : A -> pyobj) (o : option A) : pyobj :=
  match o with
  | Some a => f a
  | None => PNone
  end.

Definition save_training_data (file_name : string) (delete_existing : bool) : IO unit :=
  (go <- make_room file_name delete_existing ;;
   if negb go then io_ret tt
   else
     s <- io_get ;;
     if negb (samples_present (sys_self s))
     then io_raise (IOValueError NeedStrategies)
     else
       write_file file_name Blank ;;;
       obj <- io_lift (of_res (attr (obj_train (sys_self s)))) ;;
       let data_dict :=
         [("X_train", to_obj PFrame (X_train (sys_self s)));
          ("y_train", to_obj PLabels (y_train (sys_self s)));
          ("obj_train", PCosts obj);
          ("_problem", PProblem (_problem (sys_self s)));
          ("encoding", to_obj PEncoding (encoding (sys_self s)))]%string in
       let data_dict :=
         match _filter (sys_self s) with
         | Some f => data_dict ++ [("_filter"%string, PFilter f)]
         | None => data_dict
         end in
       write_file file_name (Pickled data_dict))%io.

(** [d[k]] and [k in d]. *)
Fixpoint dict_find (d : pydict) (k : string) : option pyobj :=
  match d with
  | [] => None
  | (k', v) :: d' => if String.eqb k k' then Some v else dict_find d' k
  end.

Definition dict_get (d : pydict) (k : string) : ires pyobj :=
  of_res (key k (dict_find d k)).

Definition dict_has (d : pydict) (k : string) : bool := is_some (dict_find d k).

(** [pkl.load] on an open file. *)
Definition pkl_load (f : file) : ires pydict :=
  match f with
  | Pickled d => IOk d
  | Blank => IRaise EOFError
  | Archive _ => IRaise UnpicklingError
  end.

(** A dictionary value as the content of a field. *)
Definition as_frame (v : pyobj) : ires (option (list row)) :=
  match v with
  | PFrame X => IOk (Some X)
  | PNone => IOk None
  | _ => IRaise OutOfModel
  end.

Definition as_labels (v : pyobj) : ires (option (list Z)) :=
  match v with
  | PLabels y => IOk (Some y)
  | PNone => IOk None
  | _ => IRaise OutOfModel
  end.

Definition as_costs (v : pyobj) : ires (list Q) :=
  match v with
  | PCosts c => IOk c
  | _ => IRaise OutOfModel
  end.

Definition as_problem (v : pyobj) : ires Problem :=
  match v with
  | PProblem p => IOk p
  | _ => IRaise OutOfModel
  end.

Definition as_encoding (v : pyobj) : ires (option (list Strategy)) :=
  match v with
  | PEncoding enc => IOk (Some enc)
  | PNone => IOk None
  | _ => IRaise OutOfModel
  end.

Definition as_filter (v : pyobj) : ires Filter :=
  match v with
  | PFilter f => IOk f
  | _ => IRaise OutOfModel
  end.

Definition as_sampler (v : pyobj) : ires Sampler :=
  match v with
  | PSampler s => IOk s
  | _ => IRaise OutOfModel
  end.

Definition as_str (v : pyobj) : ires string :=
  match v with
  | PStr s => IOk s
  | _ => IRaise OutOfModel
  end.

Definition as_options (v : pyobj) : ires LearnerOptions :=
  match v with
  | POptions o => IOk o
  | _ => IRaise OutOfModel
  end.

Definition load_training_data (file_name : string) : IO unit :=
  (s <- io_get ;;
   match sys_disk s file_name with
   | None => io_raise (IOValueError (FileDoesNotExist file_name))
   | Some f =>
       data_dict <- io_lift (pkl_load f) ;;
       X <- io_lift (ibind (dict_get data_dict "X_train") as_frame) ;;
       assign (fun o => set_samples X (y_train o) (encoding o) o) ;;;
       y <- io_lift (ibind (dict_get data_dict "y_train") as_labels) ;;
       assign (fun o => set_samples (X_train o) y (encoding o) o) ;;;
       obj <- io_lift (ibind (dict_get data_dict "obj_train") as_costs) ;;
       assign (set_obj_train (Some obj)) ;;;
       p <- io_lift (ibind (dict_get data_dict "_problem") as_problem) ;;
       assign (set_problem p) ;;;
       enc <- io_lift (ibind (dict_get data_dict "encoding") as_encoding) ;;
       assign (fun o => set_samples (X_train o) (y_train o) enc o) ;;;
       (if dict_has data_dict "_filter"
        then f <- io_lift (ibind (dict_get data_dict "_filter") as_filter) ;;
             assign (set_filter (Some f))
        else io_ret tt) ;;;
       s1 <- io_get ;;
       X1 <- io_lift (of_res (not_none (X_train (sys_self s1)))) ;;
       let sampler := new_sampler (_problem (sys_self s1)) (length X1) in
       assign (set_sampler (Some (compute_good_turing sampler
                                    (y_train (sys_self s1)))))
   end)%io.

(** [s.endswith(suffix)]. *)
Definition endswith (s suffix : string) : bool :=
  let n := String.length s in
  let m := String.length suffix in
  ((m <=? n)%nat && String.eqb (substring (n - m) m s) suffix)%bool.

(** Lines 538-539 and 591-592. *)
Definition archive_name (file_name : string) : string :=
  if endswith file_name ".tar.gz" then file_name
  else (file_name ++ ".tar.gz")%string.

Definition save (file_name : string) (delete_existing : bool) : IO unit :=
  (s <- io_get ;;
   match _learner (sys_self s) with
   | None => io_raise (IOValueError SaveUntrained)
   | Some learner =>
       let file_name := archive_name file_name in
       go <- make_room file_name delete_existing ;;
       if negb go then io_ret tt
       else
         let learner_file := learner_save learner in
         let file_dict :=
           [("_problem", PProblem (_problem (sys_self s)));
            ("_solver_cache", to_obj PCache (_solver_cache (sys_self s)));
            ("learner_name", PStr (learner_name learner));
            ("learner_options", POptions (learner_options learner));
            ("encoding", to_obj PEncoding (encoding (sys_self s)))]%string in
         write_file file_name
           (Archive [("learner", MLearner learner_file);
                     ("optimizer.pkl", MPickled file_dict)]%string)
   end)%io.

(** The members of an archive, by name. *)
Fixpoint member_find (members : list (string * member)) (k : string) : option member :=
  match members with
  | [] => None
  | (k', m) :: members' => if String.eqb k k' then Some m else member_find members' k
  end.

(** [tarfile.open(file_name)] and [extractall]. *)
Definition tar_extract (f : file) : ires (list (string * member)) :=
  match f with
  | Archive members => IOk members
  | _ => IRaise ReadError
  end.

(** [open(optimizer_file_name, "rb")] and [pkl.load(f)] in the directory the
    archive was extracted to. *)
Definition load_member (members : list (string * member)) (k : string) : ires pydict :=
  match member_find members k with
  | None => IRaise FileNotFoundError
  | Some (MPickled d) => IOk d
  | Some (MLearner _) => IRaise UnpicklingError
  end.

Definition learner_member (members : list (string * member)) : option LearnerFile :=
  match member_find members "learner" with
  | Some (MLearner f) => Some f
  | _ => None
  end.

(** [optimizer_dict['_problem'].cvxpy_problem]: only a problem has the
    attribute. *)
Definition get_cvxpy_problem (v : pyobj) : ires CvxpyProblem :=
  match v with
  | PProblem p => IOk (cvxpy_problem p)
  | _ => IRaise (Py AttributeError)
  end.

(** [from_file] reads the disk and builds an object of its own. The test
    of line 605 is on a path, a string that is not empty, and never
    raises. *)
Definition from_file (file_name : string) (d : Disk) : ires Optimizer :=
  let file_name := archive_name file_name in
  match d file_name with
  | None => IRaise (IOValueError (FileDoesNotExist file_name))
  | Some f =>
      ibind (tar_extract f) (fun members =>
      ibind (load_member members "optimizer.pkl") (fun optimizer_dict =>
      ibind (ibind (dict_get optimizer_dict "_problem") get_cvxpy_problem)
            (fun problem =>
      let obj := objective problem in
      let cons := constraints problem in
      ibind (ibind (dict_get optimizer_dict "name") as_str) (fun name0 =>
      let optimizer := __init__ obj cons name0 true in
      ibind (ibind (dict_get optimizer_dict "encoding") as_encoding) (fun enc =>
      let optimizer := set_samples (X_train optimizer) (y_train optimizer) enc
                         optimizer in
      ibind (ibind (dict_get optimizer_dict "_sampler") as_sampler) (fun sampler =>
      let optimizer := set_sampler (Some sampler) optimizer in
      ibind (ibind (dict_get optimizer_dict "learner_name") as_str)
            (fun learner_name0 =>
      ibind (ibind (dict_get optimizer_dict "learner_options") as_options)
            (fun learner_options0 =>
      ibind (of_res (key learner_name0 (LEARNER_MAP learner_name0))) (fun make =>
      let n_input := n_parameters (_problem optimizer) in
      ibind (of_res (not_none (encoding optimizer))) (fun enc' =>
      let learner := make n_input (length enc') learner_options0 in
      let optimizer := set_learner (Some learner) optimizer in
      ibind (of_res (learner_load learner (learner_member members)))
            (fun learner' =>
      let optimizer := set_learner (Some learner') optimizer in
      ibind (of_res (not_none (X_train optimizer))) (fun X =>
      let sampler' := new_sampler (_problem optimizer) (length X) in
      IOk (set_sampler (Some (compute_good_turing sampler' (y_train optimizer)))
             optimizer)))))))))))))
  end.
End Model.

Arguments IOk {A} a.
Arguments IRaise {A} e.

(** ** Candidate solves that can fail *)

Section Failures.

Context {E : External}.

Variable sentinel : Q.
Variable attempt_solve : Problem -> Strategy -> option kkt_cache -> attempt.
Variable attempt_solve_ray :
  Problem -> Strategy -> list (option kkt_cache) -> attempt.

(** Modelled from the spec: the solve entry point [solve_with_strategy] of
    mlopt.problem, which is not under src/, as the specification describes
    it: the reduced solve of the candidate is attempted
    ([attempt_solve]), and "a per-candidate solve failure is treated as
    infeasible with a large sentinel infeasibility value, not as a fatal
    error for the whole call". *)
Definition solve_or_sentinel (p : Problem) (s : Strategy) (c : option kkt_cache)
  : solve_result Sol :=
  treat_failure sentinel (attempt_solve p s c).

(** Modelled from the spec: the same for [solve_with_strategy_ray] of
    mlopt.problem, the entry point of the parallel path. *)
Definition solve_or_sentinel_ray (p : Problem) (s : Strategy)
    (c : list (option kkt_cache)) : solve_result Sol :=
  treat_failure sentinel (attempt_solve_ray p s c).

(** The collaborators [E], with these two entry points. *)
Definition with_failures : External :=
  {| Strategy := @Strategy E;
     strategy_eqb := strategy_eqb;
     encode_strategies := encode_strategies;
     Problem := @Problem E;
     Sol := @Sol E;
     ReducedProblem := @ReducedProblem E;
     ProblemData := @ProblemData E;
     Chain := @Chain E;
     InvData := @InvData E;
     populate := populate;
     set_verbose := set_verbose;
     is_qp := is_qp;
     _relax_disc_var := _relax_disc_var;
     _restore_disc_var := _restore_disc_var;
     _construct_reduced_problem := _construct_reduced_problem;
     get_problem_data := get_problem_data;
     solve_parametric := solve_parametric;
     KKTMatrix := @KKTMatrix E;
     Factor := @Factor E;
     create_kkt_matrix := create_kkt_matrix;
     factorized := factorized;
     solve_with_strategy := solve_or_sentinel;
     solve_with_strategy_ray := solve_or_sentinel_ray;
     INFEAS_TOL := INFEAS_TOL;
     SUBOPT_TOL := SUBOPT_TOL;
     K_MAX_STRATEGIES := K_MAX_STRATEGIES;
     DEFAULT_LEARNER := DEFAULT_LEARNER;
     Learner := @Learner E;
     LearnerOptions := @LearnerOptions E;
     LEARNER_MAP := LEARNER_MAP;
     learner_train := learner_train;
     learner_n_best := learner_n_best;
     learner_predict := learner_predict;
     predict_elapsed := predict_elapsed;
     learner_n_train := learner_n_train;
     Sampler := @Sampler E;
     SamplingFn := @SamplingFn E;
     new_sampler := new_sampler;
     new_sampler_fn := new_sampler_fn;
     compute_good_turing := compute_good_turing;
     good_turing := good_turing;
     good_turing_smooth := good_turing_smooth;
     sampler_sample := sampler_sample;
     Filter := @Filter E;
     new_filter := new_filter;
     filter_run := filter_run |}.

(** What is attempted for the candidates of one call of [choose_best], by
    rank. *)
Definition attempts (p : Problem) (parallel : bool) (strategies : list Strategy)
    (cache : list (option kkt_cache)) : list attempt :=
  if parallel
  then map (fun s => attempt_solve_ray p s cache) strategies
  else map (fun sc => attempt_solve p (fst sc) (snd sc)) (combine strategies cache).

End Failures.

(** ** A concrete set of collaborators

    Strategies are numbers; the reduced solve of strategy [s] has the
    outcome [outcome s] whatever the parameters (those of strategies 0, 1, 2
    are the outcomes of scenario C of the specification; from strategy 3 on
    the solve fails, which the solver reports as an infeasibility of 10^6);
    the KKT matrix of strategy 1 is singular; a row [[Num t]] of a frame is a point whose full solve takes
    time [t], any other row is a point that cannot be solved. *)
Module Demo.

Definition outcome (s : nat) : solve_result nat :=
  match s with
  | 0 => {| sr_x := 0; sr_time := 1%Q; sr_infeasibility := 0%Q; sr_cost := 5%Q |}
  | 1 => {| sr_x := 1; sr_time := 2%Q; sr_infeasibility := (1 # 5)%Q; sr_cost := 1%Q |}
  | 2 => {| sr_x := 2; sr_time := 3%Q; sr_infeasibility := 0%Q; sr_cost := 3%Q |}
  | _ => {| sr_x := 0; sr_time := 1%Q; sr_infeasibility := 1000000%Q; sr_cost := 0%Q |}
  end.

Definition full_solve (r : row) : full_result nat :=
  match r with
  | [Num t] => {| fr_strategy := Some 0; fr_cost := 3%Q; fr_time := t;
                  fr_solution_present := true |}
  | _ => {| fr_strategy := None; fr_cost := 0%Q; fr_time := 0%Q;
            fr_solution_present := false |}
  end.

(** Position of [s] in [enc]. *)
Fixpoint index_of (s : nat) (enc : list nat) : Z :=
  match enc with
  | [] => 0%Z
  | s' :: enc' => if Nat.eqb s s' then 0%Z else (1 + index_of s enc')%Z
  end.

Definition encode (l : list nat) : list Z * list nat :=
  let enc := rev (nodup Nat.eq_dec (rev l)) in
  (map (fun s => index_of s enc) l, enc).

(** The labels predicted for point [i]: [i], [i+1], ... modulo 3. *)
Definition predict (n_best : nat) (X : list row) : list (list Z) :=
  map (fun i => map (fun k => Z.of_nat ((i + k) mod 3)) (seq 0 n_best))
      (seq 0 (length X)).

Definition env : External :=
  {| Strategy := nat;
     strategy_eqb := Nat.eqb;
     encode_strategies := encode;
     Problem := list row;
     Sol := nat;
     ReducedProblem := nat;
     ProblemData := nat;
     Chain := unit;
     InvData := unit;
     populate := fun p r => p ++ [r];
     set_verbose := fun p => p;
     is_qp := fun _ => true;
     _relax_disc_var := fun p => p;
     _restore_disc_var := fun p => p;
     _construct_reduced_problem := fun _ s => s;
     get_problem_data := fun rp => (rp, tt, tt);
     solve_parametric := fun _ X _ => map full_solve X;
     KKTMatrix := nat;
     Factor := nat;
     create_kkt_matrix := fun d => d;
     factorized := fun k => if Nat.eqb k 1
                            then Raise (RuntimeError "Factor is exactly singular")
                            else Ok k;
     solve_with_strategy := fun _ s _ => outcome s;
     solve_with_strategy_ray := fun _ s _ => outcome s;
     INFEAS_TOL := (1 # 100)%Q;
     SUBOPT_TOL := (1 # 100)%Q;
     K_MAX_STRATEGIES := 100;
     DEFAULT_LEARNER := "pytorch";
     Learner := nat;
     LearnerOptions := nat;
     LEARNER_MAP := fun l => if String.eqb l "pytorch"
                             then Some (fun _ _ n_best => n_best) else None;
     learner_train := fun l _ _ => l;
     learner_n_best := fun l => l;
     learner_predict := predict;
     predict_elapsed := fun _ X => (inject_Z (Z.of_nat (length X)) / 10)%Q;
     learner_n_train := fun _ => 0;
     Sampler := unit;
     SamplingFn := unit;
     new_sampler := fun _ _ => tt;
     new_sampler_fn := fun _ _ => tt;
     compute_good_turing := fun s _ => s;
     good_turing := fun _ => 0%Q;
     good_turing_smooth := fun _ => 0%Q;
     sampler_sample := fun s _ => (s, ([], [], []));
     Filter := unit;
     new_filter := fun _ _ _ _ _ => tt;
     filter_run := fun f _ _ => (f, ([], [])) |}.

(** A trained optimizer over the strategies 0, 1, 2, 3 whose learner proposes
    [n_best] candidates, without a factorization cache. *)
Definition optimizer (n_best : nat) : @Optimizer env :=
  {| _problem := ([] : @Problem env);
     _solver_cache := None;
     name := "demo";
     _learner := Some n_best;
     encoding := Some [0; 1; 2; 3];
     X_train := Some [[Num 1%Q]; [Num 1%Q]; [Num 1%Q]; [Num 1%Q]];
     y_train := Some [0; 1; 2; 3]%Z;
     parallel := true;
     obj_train := None;
     _sampler := Some tt;
     _filter := None;
     encoding_full := None;
     y_train_full := None |}.

Definition world (n_best : nat) : @World env :=
  {| self := optimizer n_best; calls := [] |}.

(** An optimizer as [__init__] leaves it. *)
Definition fresh : @World env :=
  {| self := {| _problem := ([] : @Problem env);
                _solver_cache := None;
                name := "demo";
                _learner := None;
                encoding := None;
                X_train := None;
                y_train := None;
                parallel := true;
                obj_train := None;
                _sampler := None;
                _filter := None;
                encoding_full := None;
                y_train_full := None |};
     calls := [] |}.

(** The three candidates of scenario C, decoded, and the caches passed when
    no factorization cache is used. *)
Definition candidates : list (@Strategy env) := [0; 1; 2].
Definition no_cache : list (option (@kkt_cache env)) := [None; None; None].

(** Candidates of which the first fails. *)
Definition failing_candidates : list (@Strategy env) := [3; 1; 2].
Definition failing_attempts : list (@attempt env) :=
  [@Failed env 0 1%Q 0%Q; @Solved env (outcome 1); @Solved env (outcome 2)].

(** Three test points: the strategy is the true one; another strategy,
    feasible and of the true cost; another strategy, infeasible. *)
Definition predicted : list (@result env) :=
  [ @Build_result env 0 1%Q 0 3%Q 0%Q None None;
    @Build_result env 0 1%Q 1 3%Q 0%Q None None;
    @Build_result env 0 1%Q 2 3%Q (1 # 5)%Q None None ].

Definition truth : list (full_result (@Strategy env)) :=
  [full_solve [Num 1%Q]; full_solve [Num 1%Q]; full_solve [Num 1%Q]].

End Demo.

(** ** Further concrete cases

    A second set of collaborators: those of [Demo.env], except that the
    problem is not a QP, that a row [[Lst l]] is a point whose full solve
    reports a strategy with a status outside [SOLUTION_PRESENT], that the
    sampler draws two points of strategies 0 and 2, and that more than one
    strategy is more than [K_MAX_STRATEGIES]. *)
Module Cases.

Definition full_solve (r : row) : full_result nat :=
  match r with
  | [Lst _] => {| fr_strategy := Some 1; fr_cost := 0%Q; fr_time := 0%Q;
                  fr_solution_present := false |}
  | _ => Demo.full_solve r
  end.

Definition env : External :=
  {| Strategy := nat;
     strategy_eqb := Nat.eqb;
     encode_strategies := Demo.encode;
     Problem := list row;
     Sol := nat;
     ReducedProblem := nat;
     ProblemData := nat;
     Chain := unit;
     InvData := unit;
     populate := fun p r => p ++ [r];
     set_verbose := fun p => p;
     is_qp := fun _ => false;
     _relax_disc_var := fun p => p;
     _restore_disc_var := fun p => p;
     _construct_reduced_problem := fun _ s => s;
     get_problem_data := fun rp => (rp, tt, tt);
     solve_parametric := fun _ X _ => map full_solve X;
     KKTMatrix := nat;
     Factor := nat;
     create_kkt_matrix := fun d => d;
     factorized := fun k => if Nat.eqb k 1
                            then Raise (RuntimeError "Factor is exactly singular")
                            else Ok k;
     solve_with_strategy := fun _ s _ => Demo.outcome s;
     solve_with_strategy_ray := fun _ s _ => Demo.outcome s;
     INFEAS_TOL := (1 # 100)%Q;
     SUBOPT_TOL := (1 # 100)%Q;
     K_MAX_STRATEGIES := 1;
     DEFAULT_LEARNER := "pytorch";
     Learner := nat;
     LearnerOptions := nat;
     LEARNER_MAP := fun l => if String.eqb l "pytorch"
                             then Some (fun _ _ n_best => n_best) else None;
     learner_train := fun l _ _ => l;
     learner_n_best := fun l => l;
     learner_predict := Demo.predict;
     predict_elapsed := fun _ X => (inject_Z (Z.of_nat (length X)) / 10)%Q;
     learner_n_train := fun _ => 0;
     Sampler := unit;
     SamplingFn := unit;
     new_sampler := fun _ _ => tt;
     new_sampler_fn := fun _ _ => tt;
     compute_good_turing := fun s _ => s;
     good_turing := fun _ => 0%Q;
     good_turing_smooth := fun _ => 0%Q;
     sampler_sample := fun s _ => (s, ([[Num 1%Q]; [Num 2%Q]], [0; 1]%Z, [0; 2]));
     Filter := unit;
     new_filter := fun _ _ _ _ _ => tt;
     filter_run := fun f _ _ => (f, ([], [])) |}.

(** An optimizer over [env] as [__init__] leaves it. *)
Definition fresh : @World env :=
  {| self := {| _problem := ([] : @Problem env);
                _solver_cache := None;
                name := "cases";
                _learner := None;
                encoding := None;
                X_train := None;
                y_train := None;
                parallel := true;
                obj_train := None;
                _sampler := None;
                _filter := None;
                encoding_full := None;
                y_train_full := None |};
     calls := [] |}.

(** A trained optimizer over the strategies 0 and 2 of [Demo.env], both of
    which have a KKT matrix that factorizes, without a cache. *)
Definition factorable : @World Demo.env :=
  {| self := {| _problem := ([] : @Problem Demo.env);
                _solver_cache := None;
                name := "cases";
                _learner := Some 2;
                encoding := Some [0; 2];
                X_train := Some [[Num 1%Q]; [Num 2%Q]; [Num 3%Q]];
                y_train := Some [1; 0; 1]%Z;
                parallel := true;
                obj_train := None;
                _sampler := Some tt;
                _filter := None;
                encoding_full := None;
                y_train_full := None |};
     calls := [] |}.

(** Two test points whose predictions count as correct: the true strategy,
    and another strategy that is feasible and of the true cost. *)
Definition predicted : list (@result Demo.env) := firstn 2 Demo.predicted.
Definition truth : list (full_result (@Strategy Demo.env)) := firstn 2 Demo.truth.

(** What [Demo.env] stores: the learner as its number of candidates, the
    problem as its rows. *)
Definition storage : @Storage Demo.env :=
  {| learner_name := fun _ : @Learner Demo.env => "pytorch"%string;
     learner_options := fun l => l;
     LearnerFile := nat;
     learner_save := fun l => l;
     learner_load := fun l _ => Ok l;
     CvxpyProblem := list row;
     Objective := list row;
     Constraints := unit;
     cvxpy_problem := fun p => p;
     objective := fun p => p;
     constraints := fun _ => tt;
     new_problem := fun o _ => o;
     n_parameters := fun _ => 1 |}.

Definition no_file : @Disk Demo.env storage := fun _ => None.

(** An optimizer with the samples of two points, and a trained one, each
    before an empty disk and with nothing typed. *)
Definition sampled : @Sys Demo.env storage :=
  {| sys_self := self (snd (get_samples (Some [[Num 1%Q]; [Num 2%Q]]) None true true
                              Demo.fresh));
     sys_disk := no_file;
     sys_stdin := [] |}.

Definition trained : @Sys Demo.env storage :=
  {| sys_self := Demo.optimizer 3;
     sys_disk := no_file;
     sys_stdin := [] |}.

(** The reduced solves attempted for the candidates of [Demo.env]: that of
    a strategy from 3 on fails, and the entry points of the specification
    report it with the infeasibility 10^6. *)
Definition attempt_solve (s : nat) : @attempt Demo.env :=
  if (s <? 3)%nat then @Solved Demo.env (Demo.outcome s)
  else @Failed Demo.env 0 1%Q 0%Q.

Definition failing : External :=
  @with_failures Demo.env 1000000%Q (fun _ s _ => attempt_solve s)
    (fun _ s _ => attempt_solve s).

(** The trained optimizer of [Demo], with these entry points. *)
Definition failing_world (n_best : nat) : @World failing :=
  {| self := {| _problem := ([] : @Problem failing);
                _solver_cache := None;
                name := "demo";
                _learner := Some n_best;
                encoding := Some [0; 1; 2; 3];
                X_train := Some [[Num 1%Q]; [Num 1%Q]; [Num 1%Q]; [Num 1%Q]];
                y_train := Some [0; 1; 2; 3]%Z;
                parallel := true;
                obj_train := None;
                _sampler := Some tt;
                _filter := None;
                encoding_full := None;
                y_train_full := None |};
     calls := [] |}.

End Cases.

(** * Proofs *)

Unset Implicit Arguments.

Section Proofs.

Context {E : External}.

(** ** Results and the method monad *)

Lemma rmap_length {A B} (f : A -> res B) (l : list A) (bs : list B) :
  rmap f l = Ok bs -> length bs = length l.
Proof.
  revert bs; induction l as [|a l IH]; intros bs H; simpl in H.
  - now inversion H.
  - destruct (f a) as [b|e]; simpl in H; [|discriminate].
    destruct (rmap f l) as [bs'|e]; simpl in H; [|discriminate].
    inversion H; subst; simpl; f_equal; now apply IH.
Qed.

Lemma rmap_nth {A B} (f : A -> res B) (l : list A) (bs : list B) :
  rmap f l = Ok bs ->
  forall m a, nth_error l m = Some a ->
              exists b, f a = Ok b /\ nth_error bs m = Some b.
Proof.
  revert bs; induction l as [|a0 l IH]; intros bs H m a Hm; simpl in H.
  - destruct m; discriminate.
  - destruct (f a0) as [b0|e] eqn:Hf; simpl in H; [|discriminate].
    destruct (rmap f l) as [bs'|e]; simpl in H; [|discriminate].
    inversion H; subst; clear H.
    destruct m as [|m]; simpl in *.
    + inversion Hm; subst; eauto.
    + now apply IH.
Qed.

Lemma rmap_total {A B} (f : A -> res B) (l : list A) :
  (forall a, In a l -> exists b, f a = Ok b) -> exists bs, rmap f l = Ok bs.
Proof.
  induction l as [|a l IH]; intros H; simpl.
  - eauto.
  - destruct (H a (or_introl eq_refl)) as [b Hb]; rewrite Hb; simpl.
    destruct IH as [bs Hbs]; [intros; apply H; now right|].
    rewrite Hbs; simpl; eauto.
Qed.

Lemma bind_ok {W A B} (m : M W A) (f : A -> M W B) (w : W) (a : A) (w' : W) :
  m w = (Ok a, w') -> bind m f w = f a w'.
Proof. intros H; unfold bind; now rewrite H. Qed.

Lemma bind_raise {W A B} (m : M W A) (f : A -> M W B) (w : W) (e : exn) (w' : W) :
  m w = (Raise e, w') -> bind m f w = (Raise e, w').
Proof. intros H; unfold bind; now rewrite H. Qed.

Lemma py_get_ok {A} (l : list A) (i : nat) (a : A) :
  py_get l i = Ok a <-> nth_error l i = Some a.
Proof.
  unfold py_get; destruct (nth_error l i); split; intros H;
    inversion H; subst; reflexivity.
Qed.

Lemma py_get_lt {A} (l : list A) (i : nat) :
  i < length l -> exists a, py_get l i = Ok a /\ nth_error l i = Some a.
Proof.
  intros H; unfold py_get.
  destruct (nth_error l i) as [a|] eqn:Hn; [eauto|].
  apply nth_error_None in Hn; lia.
Qed.

(** ** Comparisons *)

Lemma Qleb_le (a b : Q) : Qleb a b = true <-> (a <= b)%Q.
Proof. apply Qle_bool_iff. Qed.

Lemma Qltb_lt (a b : Q) : Qltb a b = true <-> (a < b)%Q.
Proof.
  unfold Qltb; rewrite negb_true_iff; split; intros H.
  - apply Qnot_le_lt; intros Hle; apply Qle_bool_iff in Hle; congruence.
  - destruct (Qle_bool b a) eqn:Hb; [|reflexivity].
    apply Qle_bool_iff in Hb; exfalso; now apply (Qlt_not_le a b).
Qed.

Lemma Qltb_ge (a b : Q) : Qltb a b = false <-> (b <= a)%Q.
Proof.
  unfold Qltb; rewrite negb_false_iff; apply Qle_bool_iff.
Qed.

(** ** [np.argmin] returns the first minimum *)

Lemma argmin_scan_first (pre l : list Q) (best : Q) (best_i : nat) :
  nth_error pre best_i = Some best ->
  (forall j v, nth_error pre j = Some v ->
               (best <= v)%Q /\ (j < best_i -> (best < v)%Q)) ->
  let k := argmin_scan l (length pre) best best_i in
  exists v, nth_error (pre ++ l) k = Some v /\
    forall j vj, nth_error (pre ++ l) j = Some vj ->
                 (v <= vj)%Q /\ (j < k -> (v < vj)%Q).
Proof.
  revert pre best best_i; induction l as [|x l IH]; intros pre best best_i Hb Hinv; simpl.
  - rewrite app_nil_r; eauto.
  - assert (Hlen : length (pre ++ [x]) = S (length pre))
      by (rewrite length_app; simpl; lia).
    assert (Hx : nth_error (pre ++ [x]) (length pre) = Some x)
      by (rewrite nth_error_app2, Nat.sub_diag; [reflexivity|lia]).
    assert (Hbi : best_i < length pre)
      by (apply nth_error_Some; congruence).
    destruct (Qltb x best) eqn:Hlt.
    + apply Qltb_lt in Hlt.
      specialize (IH (pre ++ [x]) x (length pre)).
      rewrite Hlen, <- app_assoc in IH; simpl in IH.
      apply IH; [exact Hx|].
      intros j v Hj.
      destruct (Nat.lt_ge_cases j (length pre)) as [Hjl|Hjl].
      * rewrite nth_error_app1 in Hj by exact Hjl.
        destruct (Hinv j v Hj) as [H1 _].
        split; [apply Qlt_le_weak|intros _]; now apply Qlt_le_trans with best.
      * rewrite nth_error_app2 in Hj by exact Hjl.
        destruct (j - length pre) as [|d] eqn:Hd; simpl in Hj;
          [|destruct d; discriminate].
        inversion Hj; subst v; split; [apply Qle_refl|lia].
    + apply Qltb_ge in Hlt.
      specialize (IH (pre ++ [x]) best best_i).
      rewrite Hlen, <- app_assoc in IH; simpl in IH.
      apply IH; [rewrite nth_error_app1 by exact Hbi; exact Hb|].
      intros j v Hj.
      destruct (Nat.lt_ge_cases j (length pre)) as [Hjl|Hjl].
      * rewrite nth_error_app1 in Hj by exact Hjl. now apply Hinv.
      * rewrite nth_error_app2 in Hj by exact Hjl.
        destruct (j - length pre) as [|d] eqn:Hd; simpl in Hj;
          [|destruct d; discriminate].
        inversion Hj; subst v; split; [exact Hlt|lia].
Qed.

Lemma np_argmin_first (a : list Q) :
  a <> [] ->
  exists k v, np_argmin a = Ok k /\ nth_error a k = Some v /\
    forall j vj, nth_error a j = Some vj ->
                 (v <= vj)%Q /\ (j < k -> (v < vj)%Q).
Proof.
  destruct a as [|x a]; [congruence|intros _]; simpl.
  destruct (argmin_scan_first [x] a x 0) as [v [Hv Hmin]].
  - reflexivity.
  - intros [|[|j]] v Hj; simpl in Hj; try discriminate.
    inversion Hj; subst; split; [apply Qle_refl|lia].
  - simpl in Hv, Hmin; eauto.
Qed.

(** ** [np.where] lists the positions of the mask, in increasing order *)

Lemma np_where_from_In (mask : list bool) (i k : nat) :
  In k (np_where_from i mask) <->
  i <= k /\ nth_error mask (k - i) = Some true.
Proof.
  revert i; induction mask as [|b mask IH]; intros i; simpl.
  - split; [tauto|]. intros [_ H]; destruct (k - i); discriminate.
  - assert (Hstep : forall t, (S i <= k /\ nth_error mask (k - S i) = Some t)
                        <-> (i <= k /\ k <> i /\ nth_error (b :: mask) (k - i) = Some t)).
    { intros t; split.
      - intros [H1 H2]; replace (k - i) with (S (k - S i)) by lia; simpl.
        repeat split; [lia|lia|exact H2].
      - intros [H1 [H2 H3]]. replace (k - i) with (S (k - S i)) in H3 by lia.
        simpl in H3; split; [lia|exact H3]. }
    destruct b; simpl; rewrite IH, Hstep.
    + split.
      * intros [H| [H1 [H2 H3]]]; [subst; rewrite Nat.sub_diag; split; [lia|reflexivity]|].
        split; [exact H1|exact H3].
      * intros [H1 H2]. destruct (Nat.eq_dec k i) as [->|Hne]; [now left|right].
        repeat split; assumption.
    + split.
      * intros [H1 [H2 H3]]; split; assumption.
      * intros [H1 H2]. destruct (Nat.eq_dec k i) as [->|Hne].
        -- rewrite Nat.sub_diag in H2; discriminate.
        -- repeat split; assumption.
Qed.

Lemma np_where_In (mask : list bool) (k : nat) :
  In k (np_where mask) <-> nth_error mask k = Some true.
Proof.
  unfold np_where; rewrite np_where_from_In, Nat.sub_0_r.
  split; [tauto|split; [lia|assumption]].
Qed.

Lemma np_where_from_increasing (mask : list bool) (i : nat) :
  forall m m' a b,
    nth_error (np_where_from i mask) m = Some a ->
    nth_error (np_where_from i mask) m' = Some b ->
    m < m' -> a < b.
Proof.
  revert i; induction mask as [|c mask IH]; intros i m m' a b Ha Hb Hlt; simpl in *.
  - destruct m; discriminate.
  - destruct c.
    + destruct m' as [|m']; [lia|]. simpl in Hb.
      destruct m as [|m]; simpl in Ha.
      * inversion Ha; subst a.
        apply nth_error_In, np_where_from_In in Hb; lia.
      * apply (IH (S i) m m'); [assumption|assumption|lia].
    + now apply (IH (S i) m m').
Qed.

(** ** The selection rule of [choose_best] *)

Lemma nth_error_map_Some {A B} (f : A -> B) (l : list A) (i : nat) (b : B) :
  nth_error (map f l) i = Some b <->
  exists a, nth_error l i = Some a /\ b = f a.
Proof.
  rewrite nth_error_map; destruct (nth_error l i) as [a|]; simpl; split.
  - intros H; inversion H; eauto.
  - intros [a' [H1 H2]]; inversion H1; subst; reflexivity.
  - discriminate.
  - intros [a' [H1 _]]; discriminate.
Qed.

Lemma feasible_In_where (outs : list (solve_result Sol)) (j : nat) :
  In j (np_where (map (fun v => Qleb v INFEAS_TOL)
                      (map (@sr_infeasibility _) outs))) <->
  exists oj, nth_error outs j = Some oj /\ (sr_infeasibility oj <= INFEAS_TOL)%Q.
Proof.
  rewrite np_where_In, map_map, nth_error_map.
  destruct (nth_error outs j) as [o|]; simpl; split.
  - intros H; inversion H as [H1]; apply Qleb_le in H1; eauto.
  - intros [oj [H1 H2]]; inversion H1; subst; f_equal; now apply Qleb_le.
  - discriminate.
  - intros [oj [H1 _]]; discriminate.
Qed.

Lemma pick_best_selected (outs : list (solve_result Sol)) :
  outs <> [] ->
  exists i, pick_best (map (@sr_infeasibility _) outs) (map (@sr_cost _) outs) = Ok i
            /\ selected outs i.
Proof.
  intros Hne; unfold pick_best.
  set (idx := np_where (map (fun v => Qleb v INFEAS_TOL)
                            (map (@sr_infeasibility _) outs))).
  assert (HIn : forall j, In j idx <->
            exists oj, nth_error outs j = Some oj
                       /\ (sr_infeasibility oj <= INFEAS_TOL)%Q)
    by (intros j; apply feasible_In_where).
  destruct (0 <? length idx) eqn:Hlen.
  - (* some candidate is feasible *)
    apply Nat.ltb_lt in Hlen.
    destruct (rmap_total (py_get (map (@sr_cost _) outs)) idx) as [cost_f Hcf].
    { intros k Hk; apply HIn in Hk; destruct Hk as [ok [Hk _]].
      exists (sr_cost ok); apply py_get_ok, nth_error_map_Some; eauto. }
    unfold np_take; rewrite Hcf; simpl.
    pose proof (rmap_length _ _ _ Hcf) as Hl.
    destruct (np_argmin_first cost_f) as [m [v [Hm [Hv Hmin]]]].
    { intros ->; simpl in Hl; lia. }
    rewrite Hm; simpl.
    assert (Hmlt : m < length idx)
      by (rewrite <- Hl; apply nth_error_Some; congruence).
    destruct (py_get_lt idx m Hmlt) as [i [Hgi Hi]].
    exists i; split; [exact Hgi|].
    destruct (rmap_nth _ _ _ Hcf _ _ Hi) as [v' [Hv'1 Hv'2]].
    rewrite Hv in Hv'2; inversion Hv'2; subst v'; clear Hv'2.
    apply py_get_ok, nth_error_map_Some in Hv'1; destruct Hv'1 as [oi [Hoi Hvi]].
    exists oi; split; [exact Hoi|]; split.
    + intros _.
      assert (Hfi : In i idx) by (eapply nth_error_In; eauto).
      apply HIn in Hfi; destruct Hfi as [oi' [Hoi' Hfi]].
      rewrite Hoi in Hoi'; inversion Hoi'; subst oi'.
      split; [exact Hfi|].
      intros j oj Hoj Hfj.
      assert (Hj : In j idx) by (apply HIn; eauto).
      apply In_nth_error in Hj; destruct Hj as [m' Hm'].
      destruct (rmap_nth _ _ _ Hcf _ _ Hm') as [vj [Hvj1 Hvj2]].
      apply py_get_ok, nth_error_map_Some in Hvj1; destruct Hvj1 as [oj' [Hoj' Hvj]].
      rewrite Hoj in Hoj'; inversion Hoj'; subst oj'; clear Hoj'.
      destruct (Hmin _ _ Hvj2) as [Hle Hstrict].
      rewrite <- Hvi, <- Hvj; split; [exact Hle|].
      intros Hji; apply Hstrict.
      destruct (Nat.lt_trichotomy m' m) as [H|[H|H]]; [exact H| |].
      * subst m'; rewrite Hi in Hm'; inversion Hm'; lia.
      * pose proof (np_where_from_increasing _ _ _ _ _ _ Hi Hm' H); lia.
    + intros Hnone; exfalso.
      assert (Hfi : In i idx) by (eapply nth_error_In; eauto).
      apply HIn in Hfi; destruct Hfi as [oi' [Hoi' Hfi]].
      exact (Hnone _ _ Hoi' Hfi).
  - (* no candidate is feasible *)
    apply Nat.ltb_ge in Hlen.
    assert (Hidx : idx = []) by (destruct idx; [reflexivity|simpl in Hlen; lia]).
    destruct (np_argmin_first (map (@sr_infeasibility _) outs))
      as [k [v [Hk [Hv Hmin]]]].
    { destruct outs; [congruence|discriminate]. }
    exists k; split; [exact Hk|].
    apply nth_error_map_Some in Hv; destruct Hv as [ok [Hok Hvk]].
    exists ok; split; [exact Hok|]; split.
    + intros [j [oj [Hoj Hfj]]]; exfalso.
      assert (Hj : In j idx) by (apply HIn; eauto).
      rewrite Hidx in Hj; exact Hj.
    + intros _ j oj Hoj.
      assert (Hvj : nth_error (map (@sr_infeasibility _) outs) j
                    = Some (sr_infeasibility oj))
        by (apply nth_error_map_Some; eauto).
      destruct (Hmin _ _ Hvj) as [H1 H2]; rewrite <- Hvk; split; assumption.
Qed.

(** [store_best] on the lists of the candidates' values. *)
Lemma store_best_certified (strategies : list Strategy)
    (outs : list (solve_result Sol)) :
  outs <> [] -> length strategies = length outs ->
  exists i r,
    store_best strategies (unzip outs) = Ok r
    /\ certified strategies outs i r /\ selected outs i.
Proof.
  intros Hne Hlen; unfold store_best, unzip.
  destruct (pick_best_selected outs Hne) as [i [Hi Hsel]]; rewrite Hi; simpl.
  pose proof Hsel as [oi [Hoi _]].
  assert (Hilt : i < length strategies)
    by (rewrite Hlen; apply nth_error_Some; congruence).
  destruct (py_get_lt strategies i Hilt) as [s [Hs1 Hs2]].
  assert (Hg : forall (B : Type) (f : solve_result Sol -> B),
             py_get (map f outs) i = Ok (f oi))
    by (intros; apply py_get_ok, nth_error_map_Some; eauto).
  rewrite (Hg _ (@sr_x _)); simpl. rewrite Hs1; simpl.
  rewrite (Hg _ (@sr_cost _)); simpl. rewrite (Hg _ (@sr_infeasibility _)); simpl.
  exists i; eexists; split; [reflexivity|]; split; [|exact Hsel].
  exists s, oi; repeat split; assumption.
Qed.

(** ** Running [choose_best] *)

Lemma extend_nil (w : World) : extend w [] = w.
Proof. destruct w; unfold extend; simpl; now rewrite app_nil_r. Qed.

Lemma fold_append_result (outs : list (solve_result Sol)) (x : list Sol)
    (t i c : list Q) :
  fold_left append_result outs (x, t, i, c) =
  (x ++ map (@sr_x _) outs, t ++ map (@sr_time _) outs,
   i ++ map (@sr_infeasibility _) outs, c ++ map (@sr_cost _) outs).
Proof.
  revert x t i c; induction outs as [|o outs IH]; intros x t i c; simpl.
  - now rewrite !app_nil_r.
  - rewrite IH, <- !app_assoc; reflexivity.
Qed.

Lemma evaluate_parallel (p : Problem) (strategies : list Strategy)
    (cache : list (option kkt_cache)) (n_best : nat) (w : World) :
  evaluate p strategies cache true n_best w =
  (Ok (unzip (outcomes p true strategies cache)),
   extend w (map (fun s => CallSolveRay p s cache) strategies)).
Proof.
  unfold evaluate, outcomes, bind.
  assert (H : forall w, for_each (fun s => call_solve_ray p s cache) strategies w =
            (Ok (map (fun s => solve_with_strategy_ray p s cache) strategies),
             extend w (map (fun s => CallSolveRay p s cache) strategies))).
  { clear w; induction strategies as [|s ss IH]; intros w; simpl.
    - unfold ret; now rewrite extend_nil.
    - unfold bind, call_solve_ray; rewrite IH; unfold ret, extend; simpl.
      now rewrite <- app_assoc. }
  rewrite H; reflexivity.
Qed.

Lemma sequential_loop (p : Problem) (ps ss : list Strategy)
    (pc cs : list (option kkt_cache)) (acc : locals) (w : World) :
  length ps = length pc -> length ss = length cs ->
  for_loop (fun j l =>
      bind (lift (py_get (ps ++ ss) j)) (fun s =>
      bind (lift (py_get (pc ++ cs) j)) (fun c =>
      bind (call_solve p s c) (fun res => ret (append_result l res)))))
    (seq (length ps) (length ss)) acc w =
  (Ok (fold_left append_result
         (map (fun sc => solve_with_strategy p (fst sc) (snd sc)) (combine ss cs)) acc),
   extend w (map (fun sc => CallSolve p (fst sc) (snd sc)) (combine ss cs))).
Proof.
  revert ps pc cs acc w; induction ss as [|s ss IH]; intros ps pc cs acc w Hp Hs.
  - simpl; unfold ret; now rewrite extend_nil.
  - destruct cs as [|c cs]; [discriminate|]; simpl in Hs.
    simpl seq; simpl for_loop.
    unfold bind at 1; unfold bind at 1; unfold lift at 1.
    assert (Hgs : py_get (ps ++ s :: ss) (length ps) = Ok s)
      by (apply py_get_ok; rewrite nth_error_app2, Nat.sub_diag; [reflexivity|lia]).
    assert (Hgc : py_get (pc ++ c :: cs) (length ps) = Ok c)
      by (apply py_get_ok; rewrite Hp, nth_error_app2, Nat.sub_diag; [reflexivity|lia]).
    rewrite Hgs.
    unfold bind at 1; unfold lift at 1; rewrite Hgc.
    unfold bind at 1; unfold call_solve at 1; unfold ret at 1.
    specialize (IH (ps ++ [s]) (pc ++ [c]) cs).
    rewrite <- !app_assoc in IH; simpl in IH.
    rewrite length_app in IH; simpl in IH; rewrite Nat.add_1_r in IH.
    rewrite IH.
    + unfold extend; simpl; now rewrite <- app_assoc.
    + rewrite !length_app; simpl; lia.
    + lia.
Qed.

Lemma evaluate_sequential (p : Problem) (strategies : list Strategy)
    (cache : list (option kkt_cache)) (w : World) :
  length strategies = length cache ->
  evaluate p strategies cache false (length strategies) w =
  (Ok (unzip (outcomes p false strategies cache)),
   extend w (map (fun sc => CallSolve p (fst sc) (snd sc))
                 (combine strategies cache))).
Proof.
  intros Hlen; unfold evaluate, outcomes.
  pose proof (sequential_loop p [] strategies [] cache ([], [], [], []) w
                eq_refl Hlen) as H.
  simpl in H; unfold Meth, locals in *; rewrite H, fold_append_result; reflexivity.
Qed.

Lemma cache_for_length (o : Optimizer) (labels : list Z) (use_cache : bool)
    (cache : list (option kkt_cache)) :
  cache_for o labels use_cache (length labels) = Ok cache ->
  length cache = length labels.
Proof.
  unfold cache_for; destruct (truthy _ && use_cache)%bool; intros H.
  - now apply rmap_length in H.
  - inversion H; apply repeat_length.
Qed.

Lemma outcomes_length (p : Problem) (parallel : bool)
    (strategies : list Strategy) (cache : list (option kkt_cache)) :
  length strategies = length cache ->
  length (outcomes p parallel strategies cache) = length strategies.
Proof.
  intros H; unfold outcomes; destruct parallel.
  - apply length_map.
  - rewrite length_map, length_combine; lia.
Qed.

(** With as many labels as the learner's [n_best], all of them ids of the
    encoding (and of the cache, when it is used), [choose_best] solves every
    candidate and stores the best of the outcomes; the object is unchanged. *)
Lemma choose_best_run (w : World) (labels : list Z) (parallel use_cache : bool)
    (learner : Learner) (strategies : list Strategy) (cache : list (option kkt_cache)) :
  _learner (self w) = Some learner ->
  length labels = learner_n_best learner ->
  decode_labels (self w) labels = Ok strategies ->
  cache_for (self w) labels use_cache (learner_n_best learner) = Ok cache ->
  exists cs,
    choose_best labels parallel use_cache w =
    (store_best strategies
       (unzip (outcomes (_problem (self w)) parallel strategies cache)),
     extend w cs).
Proof.
  intros Hl Hn Hd Hc.
  assert (Hls : length strategies = length labels)
    by (apply rmap_length in Hd; exact Hd).
  assert (Hlc : length cache = length labels)
    by (rewrite <- Hn in Hc; now apply cache_for_length in Hc).
  unfold choose_best, bind, get, lift; rewrite Hl; simpl.
  rewrite Hd, Hc; destruct parallel.
  - rewrite evaluate_parallel; eexists; reflexivity.
  - rewrite <- Hn, <- Hls, evaluate_sequential by congruence.
    eexists; reflexivity.
Qed.

Lemma choose_best_certified (w : World) (labels : list Z)
    (parallel use_cache : bool) (learner : Learner)
    (strategies : list Strategy) (cache : list (option kkt_cache)) :
  _learner (self w) = Some learner ->
  labels <> [] ->
  length labels = learner_n_best learner ->
  decode_labels (self w) labels = Ok strategies ->
  cache_for (self w) labels use_cache (learner_n_best learner) = Ok cache ->
  exists i r cs,
    choose_best labels parallel use_cache w = (Ok r, extend w cs) /\
    length (outcomes (_problem (self w)) parallel strategies cache)
      = length labels /\
    certified strategies
      (outcomes (_problem (self w)) parallel strategies cache) i r /\
    selected (outcomes (_problem (self w)) parallel strategies cache) i.
Proof.
  intros Hl Hne Hn Hd Hc.
  destruct (choose_best_run w labels parallel use_cache learner strategies cache
              Hl Hn Hd Hc) as [cs Hrun].
  assert (Hls : length strategies = length labels) by (now apply rmap_length in Hd).
  assert (Hlc : length cache = length labels)
    by (rewrite <- Hn in Hc; now apply cache_for_length in Hc).
  set (outs := outcomes (_problem (self w)) parallel strategies cache) in *.
  assert (Hlo : length outs = length strategies)
    by (apply outcomes_length; congruence).
  destruct (store_best_certified strategies outs) as [i [r [Hr [Hcert Hsel]]]].
  - intros Ho; rewrite Ho in Hlo; simpl in Hlo.
    destruct labels; [congruence|simpl in Hls; lia].
  - congruence.
  - exists i, r, cs; rewrite Hrun, Hr; repeat split; try assumption; congruence.
Qed.

(** ** Claims on [choose_best] *)

Lemma np_sum_total_time (outs : list (solve_result Sol)) :
  (np_sum (map (@sr_time _) outs) == total_time outs)%Q.
Proof.
  unfold np_sum.
  assert (H : forall a, (fold_left Qplus (map (@sr_time _) outs) a
                         == a + total_time outs)%Q).
  { induction outs as [|o outs IH]; intros a; simpl.
    - now rewrite Qplus_0_r.
    - rewrite IH, Qplus_assoc; reflexivity. }
  rewrite H; apply Qplus_0_l.
Qed.

(** C1. With a non-empty ranked list of [n_best] candidate labels, all of
    them ids of the encoding, [choose_best] returns the values of a candidate
    [i] such that: when some candidate has infeasibility at most [INFEAS_TOL],
    [i] is such a candidate, of minimum cost among them, and every such
    candidate of lower rank has a strictly greater cost; when none has,
    [i] has minimum infeasibility, and every candidate of lower rank has a
    strictly greater infeasibility. *)
Theorem choose_best_selection (w : World) (labels : list Z)
    (parallel use_cache : bool) (learner : Learner)
    (strategies : list Strategy) (cache : list (option kkt_cache)) :
  _learner (self w) = Some learner ->
  labels <> [] ->
  length labels = learner_n_best learner ->
  decode_labels (self w) labels = Ok strategies ->
  cache_for (self w) labels use_cache (learner_n_best learner) = Ok cache ->
  exists i r,
    fst (choose_best labels parallel use_cache w) = Ok r /\
    certified strategies
      (outcomes (_problem (self w)) parallel strategies cache) i r /\
    selected (outcomes (_problem (self w)) parallel strategies cache) i.
Proof.
  intros Hl Hne Hn Hd Hc.
  destruct (choose_best_certified w labels parallel use_cache learner strategies
              cache Hl Hne Hn Hd Hc) as [i [r [cs [Hrun [_ [Hcert Hsel]]]]]].
  exists i, r; rewrite Hrun; auto.
Qed.

(** C2. With [n_best >= 1] candidates, the time of the result is the sum of
    the solve times of all the [n_best] candidates. *)
Theorem choose_best_total_time (w : World) (labels : list Z)
    (parallel use_cache : bool) (learner : Learner)
    (strategies : list Strategy) (cache : list (option kkt_cache)) :
  _learner (self w) = Some learner ->
  1 <= learner_n_best learner ->
  length labels = learner_n_best learner ->
  decode_labels (self w) labels = Ok strategies ->
  cache_for (self w) labels use_cache (learner_n_best learner) = Ok cache ->
  let outs := outcomes (_problem (self w)) parallel strategies cache in
  exists r,
    fst (choose_best labels parallel use_cache w) = Ok r /\
    length outs = learner_n_best learner /\
    r_time r = np_sum (map (@sr_time _) outs) /\
    (r_time r == total_time outs)%Q.
Proof.
  intros Hl Hn1 Hn Hd Hc outs.
  assert (Hne : labels <> []) by (intros ->; simpl in Hn; lia).
  destruct (choose_best_certified w labels parallel use_cache learner strategies
              cache Hl Hne Hn Hd Hc) as [i [r [cs [Hrun [Hlen [Hcert _]]]]]].
  exists r; rewrite Hrun; split; [reflexivity|].
  destruct Hcert as [s [o [_ [_ ->]]]]; cbn [r_time].
  split; [unfold outs; congruence|].
  split; [reflexivity|apply np_sum_total_time].
Qed.

Lemma outcomes_agree (p : Problem) (strategies : list Strategy)
    (cache : list (option kkt_cache)) :
  length strategies = length cache ->
  (forall j s c, nth_error strategies j = Some s -> nth_error cache j = Some c ->
                 solve_with_strategy_ray p s cache = solve_with_strategy p s c) ->
  outcomes p true strategies cache = outcomes p false strategies cache.
Proof.
  intros Hlen H; unfold outcomes.
  assert (Hgen : forall whole ss (cs : list (option kkt_cache)),
             length ss = length cs ->
             (forall j s c, nth_error ss j = Some s -> nth_error cs j = Some c ->
                            solve_with_strategy_ray p s whole = solve_with_strategy p s c) ->
             map (fun s => solve_with_strategy_ray p s whole) ss =
             map (fun sc => solve_with_strategy p (fst sc) (snd sc)) (combine ss cs)).
  { intros whole ss; induction ss as [|s ss IH]; intros cs Hl Hs;
      destruct cs as [|c cs]; try discriminate; simpl.
    - reflexivity.
    - f_equal.
      + apply (Hs 0); reflexivity.
      + apply IH; [simpl in Hl; lia|].
        intros j s' c' Hs' Hc'; apply (Hs (S j)); assumption. }
  now apply Hgen.
Qed.

(** With as many labels as the learner's [n_best], [choose_best] makes the
    calls of its path, one per candidate, and stores the best outcome. *)
Lemma choose_best_run_calls (w : World) (labels : list Z) (parallel use_cache : bool)
    (learner : Learner) (strategies : list Strategy) (cache : list (option kkt_cache)) :
  _learner (self w) = Some learner ->
  length labels = learner_n_best learner ->
  decode_labels (self w) labels = Ok strategies ->
  cache_for (self w) labels use_cache (learner_n_best learner) = Ok cache ->
  choose_best labels parallel use_cache w =
  (store_best strategies
     (unzip (outcomes (_problem (self w)) parallel strategies cache)),
   extend w (if parallel
             then map (fun s => CallSolveRay (_problem (self w)) s cache) strategies
             else map (fun sc => CallSolve (_problem (self w)) (fst sc) (snd sc))
                      (combine strategies cache))).
Proof.
  intros Hl Hn Hd Hc.
  assert (Hls : length strategies = length labels)
    by (apply rmap_length in Hd; exact Hd).
  assert (Hlc : length cache = length labels)
    by (rewrite <- Hn in Hc; now apply cache_for_length in Hc).
  unfold choose_best, bind, get, lift; rewrite Hl; simpl.
  rewrite Hd, Hc; destruct parallel.
  - rewrite evaluate_parallel; reflexivity.
  - rewrite <- Hn, <- Hls, evaluate_sequential by congruence.
    reflexivity.
Qed.

(** On a non-empty list of exactly [n_best] valid labels, when the solve of
    every candidate has the same outcome through ray (which is handed the
    whole list of caches) as in the sequential loop (which is handed the
    cache of the candidate), the two paths of [choose_best] return the same
    result: the values of the candidate that the selection rule designates
    among the outcomes, after one solver call per candidate on either
    path. *)
Theorem choose_best_paths_agree (w : World) (labels : list Z)
    (use_cache : bool) (learner : Learner)
    (strategies : list Strategy) (cache : list (option kkt_cache)) :
  _learner (self w) = Some learner ->
  labels <> [] ->
  length labels = learner_n_best learner ->
  decode_labels (self w) labels = Ok strategies ->
  cache_for (self w) labels use_cache (learner_n_best learner) = Ok cache ->
  (forall j s c, nth_error strategies j = Some s -> nth_error cache j = Some c ->
                 solve_with_strategy_ray (_problem (self w)) s cache =
                 solve_with_strategy (_problem (self w)) s c) ->
  exists i r,
    fst (choose_best labels true use_cache w) = Ok r /\
    fst (choose_best labels false use_cache w) = Ok r /\
    certified strategies
      (outcomes (_problem (self w)) false strategies cache) i r /\
    selected (outcomes (_problem (self w)) false strategies cache) i /\
    length (calls (snd (choose_best labels true use_cache w)))
      = length (calls w) + learner_n_best learner /\
    length (calls (snd (choose_best labels false use_cache w)))
      = length (calls w) + learner_n_best learner.
Proof.
  intros Hl Hne Hn Hd Hc Hsame.
  assert (Hls : length strategies = length labels)
    by (apply rmap_length in Hd; exact Hd).
  assert (Hlc : length cache = length labels)
    by (rewrite <- Hn in Hc; now apply cache_for_length in Hc).
  destruct (choose_best_certified w labels false use_cache learner strategies
              cache Hl Hne Hn Hd Hc) as [i [r [cs [Hrun [_ [Hcert Hsel]]]]]].
  pose proof (choose_best_run_calls w labels true use_cache learner strategies
                cache Hl Hn Hd Hc) as Hpar.
  pose proof (choose_best_run_calls w labels false use_cache learner strategies
                cache Hl Hn Hd Hc) as Hseq.
  rewrite (outcomes_agree (_problem (self w)) strategies cache) in Hpar
    by (congruence || exact Hsame).
  assert (Hr : store_best strategies
                 (unzip (outcomes (_problem (self w)) false strategies cache)) = Ok r)
    by (rewrite Hseq in Hrun; now inversion Hrun).
  exists i, r; rewrite Hpar, Hseq, Hr; cbn [fst snd extend calls].
  repeat split; try assumption.
  - rewrite length_app, length_map; congruence.
  - rewrite length_app, length_map, length_combine; lia.
Qed.

Lemma choose_best_empty (w : World) (parallel use_cache : bool) (learner : Learner) :
  _learner (self w) = Some learner ->
  fst (choose_best [] parallel use_cache w) =
  Raise (if (parallel || (learner_n_best learner =? 0))%bool
         then ValueError EmptySequence else IndexError).
Proof.
  intros Hl; unfold choose_best, bind, get, lift; rewrite Hl; simpl.
  assert (Hc : exists cache, cache_for (self w) [] use_cache (learner_n_best learner)
                             = Ok cache).
  { unfold cache_for; destruct (truthy _ && use_cache)%bool; simpl; eauto. }
  destruct Hc as [cache Hc]; rewrite Hc.
  destruct parallel; simpl; [reflexivity|].
  destruct (learner_n_best learner) as [|n]; reflexivity.
Qed.

(** ** Claims on [solve] *)

Lemma valid_labels_set_problem (o : Optimizer) (p : Problem) (use_cache : bool)
    (labels : list Z) :
  valid_labels o use_cache labels -> valid_labels (set_problem p o) use_cache labels.
Proof.
  intros [learner [strategies [cache [H1 [H2 [H3 [H4 H5]]]]]]].
  exists learner, strategies, cache; repeat split; assumption.
Qed.

Lemma valid_choose_best (w : World) (use_cache : bool) (labels : list Z) :
  valid_labels (self w) use_cache labels ->
  exists r cs, choose_best labels false use_cache w = (Ok r, extend w cs).
Proof.
  intros [learner [strategies [cache [Hl [Hne [Hn [Hd Hc]]]]]]].
  destruct (choose_best_certified w labels false use_cache learner strategies
              cache Hl Hne Hn Hd Hc) as [i [r [cs [Hrun _]]]].
  eauto.
Qed.

Lemma choose_best_same_self (w w' : World) (use_cache : bool) (labels : list Z) :
  self w = self w' ->
  valid_labels (self w) use_cache labels ->
  fst (choose_best labels false use_cache w) =
  fst (choose_best labels false use_cache w').
Proof.
  intros Hs [learner [strategies [cache [Hl [Hne [Hn [Hd Hc]]]]]]].
  destruct (choose_best_run w labels false use_cache learner strategies cache
              Hl Hn Hd Hc) as [cs Hrun].
  rewrite Hs in Hl, Hd, Hc.
  destruct (choose_best_run w' labels false use_cache learner strategies cache
              Hl Hn Hd Hc) as [cs' Hrun'].
  rewrite Hrun, Hrun', Hs; reflexivity.
Qed.

Lemma firstn_snoc {A} (l : list A) (k : nat) (a : A) :
  nth_error l k = Some a -> firstn (S k) l = firstn k l ++ [a].
Proof.
  revert k; induction l as [|x l IH]; intros [|k] H; simpl in *; try discriminate.
  - now inversion H.
  - f_equal; now apply IH.
Qed.

Lemma problem_set_problem (p : Problem) (o : Optimizer) :
  _problem (set_problem p o) = p.
Proof. reflexivity. Qed.

Lemma set_problem_twice (p p' : Problem) (o : Optimizer) :
  set_problem p' (set_problem p o) = set_problem p' o.
Proof. reflexivity. Qed.

Lemma solve_loop (w0 : World) (use_cache : bool) (X : list row)
    (classes : list (list Z)) (p0 : Problem) :
  (forall i, i < length X ->
     exists labels, nth_error classes i = Some labels /\
                    valid_labels (self w0) use_cache labels) ->
  forall n k (w : World),
    k + n = length X ->
    self w = set_problem (fold_left populate (firstn k X) p0) (self w0) ->
    exists rs w',
      for_each (solve_point X classes use_cache) (seq k n) w = (Ok rs, w') /\
      length rs = n /\
      forall j, j < n ->
        exists labels r,
          nth_error classes (k + j) = Some labels /\
          fst (choose_best labels false use_cache
                 {| self := set_problem (populated p0 X (k + j)) (self w0);
                    calls := [] |}) = Ok r /\
          nth_error rs j = Some r.
Proof.
  intros Hvalid n; induction n as [|n IH]; intros k w Hk Hself.
  - exists [], w; split; [reflexivity|split; [reflexivity|intros j Hj; lia]].
  - assert (Hklt : k < length X) by lia.
    destruct (py_get_lt X k Hklt) as [theta [Hg Hnth]].
    destruct (Hvalid k Hklt) as [labels [Hlab Hval]].
    set (wa := {| self := set_problem (populate (_problem (self w)) theta) (self w);
                  calls := calls w |}).
    assert (Hwa : self wa = set_problem (populated p0 X k) (self w0)).
    { unfold wa; cbn [self]; rewrite Hself.
      rewrite problem_set_problem, set_problem_twice; unfold populated.
      rewrite (firstn_snoc X k theta Hnth), fold_left_app; reflexivity. }
    assert (Hvala : valid_labels (self wa) use_cache labels)
      by (rewrite Hwa; now apply valid_labels_set_problem).
    destruct (valid_choose_best wa use_cache labels Hvala) as [r [cs Hr]].
    assert (Hk' : S k + n = length X) by lia.
    assert (Hself' : self (extend wa cs)
                     = set_problem (fold_left populate (firstn (S k) X) p0) (self w0))
      by (unfold extend; cbn [self]; rewrite Hwa; reflexivity).
    destruct (IH (S k) (extend wa cs) Hk' Hself') as [rs [w' [Hrs [Hlen Hall]]]].
    exists (r :: rs), w'; split; [|split].
    + simpl seq; simpl for_each. unfold bind at 1.
      unfold solve_point at 1, bind at 1, lift at 1; rewrite Hg.
      unfold bind at 1, update_self at 1, modify at 1; fold wa.
      unfold bind at 1, lift at 1.
      replace (py_get classes k) with (Ok labels : res (list Z))
        by (symmetry; now apply py_get_ok).
      rewrite Hr. unfold bind at 1; rewrite Hrs; reflexivity.
    + simpl; now rewrite Hlen.
    + intros [|j] Hj.
      * exists labels, r; rewrite Nat.add_0_r; repeat split; [exact Hlab| ].
        rewrite <- (choose_best_same_self wa _ use_cache labels);
          [rewrite Hr; reflexivity|exact Hwa|exact Hvala].
      * destruct (Hall j) as [labels' [r' [H1 [H2 H3]]]]; [lia|].
        exists labels', r'; rewrite Nat.add_succ_r; auto.
Qed.

(** C10. Called with [use_cache=True] while [_solver_cache] is [None] or
    empty, [solve] raises the ValueError of line 486, whatever the learner
    and the data; no solver call has been made, and the object is as it
    was. *)
Theorem solve_cache_not_built (X : frame) (verbose : bool) (w : World) :
  _solver_cache (self w) = None \/ _solver_cache (self w) = Some [] ->
  fst (solve X true verbose w) = Raise (ValueError CacheNotComputed) /\
  calls (snd (solve X true verbose w)) = calls w /\
  snd (solve X true verbose w) = w.
Proof.
  intros H; unfold solve, bind, get; simpl.
  destruct H as [H|H]; rewrite H; simpl; auto.
Qed.

(** C9. When the learner is trained, the cache is built if it is used, and
    the labels predicted for every point are valid, [solve] on a frame of
    exactly one point (a Series, or a DataFrame of one row) returns the
    result dictionary of that point, not a list; on more than one point it
    returns the list of the result dictionaries of the points, in the order
    of the rows, each with the prediction time added. *)
Theorem solve_single_or_list (X : frame) (use_cache verbose : bool) (w : World)
    (learner : Learner) :
  (use_cache = true -> truthy (_solver_cache (self w)) = true) ->
  _learner (self w) = Some learner ->
  (forall i, i < length (frame_rows X) ->
     exists labels,
       nth_error (learner_predict learner (frame_rows X)) i = Some labels /\
       valid_labels (self w) use_cache labels) ->
  1 <= length (frame_rows X) ->
  exists rs,
    length rs = length (frame_rows X) /\
    (forall i, i < length (frame_rows X) ->
       exists r, point_result w use_cache verbose (frame_rows X) i = Ok r /\
                 nth_error rs i
                 = Some (append_predict_time (t_predict learner (frame_rows X)) r)) /\
    (length (frame_rows X) = 1 ->
       exists r, rs = [r] /\ fst (solve X use_cache verbose w) = Ok (Single r)) /\
    (1 < length (frame_rows X) ->
       fst (solve X use_cache verbose w) = Ok (Many rs)).
Proof.
  intros Hguard Hl Hvalid Hn.
  set (rows := frame_rows X) in *.
  set (p0 := if verbose then set_verbose (_problem (self w)) else _problem (self w)).
  set (w1 := {| self := set_problem p0 (self w); calls := calls w |}).
  destruct (solve_loop w use_cache rows (learner_predict learner rows) p0 Hvalid
              (length rows) 0 w1 eq_refl eq_refl) as [rs0 [w' [Hloop [Hlen Hall]]]].
  assert (Hrun : solve X use_cache verbose w =
                 (Ok (if (length (map (append_predict_time (t_predict learner rows)) rs0)
                          =? 1)%nat
                      then match map (append_predict_time (t_predict learner rows)) rs0 with
                           | r :: _ => Single r
                           | [] => Many []
                           end
                      else Many (map (append_predict_time (t_predict learner rows)) rs0)),
                  w')).
  { unfold solve; fold rows.
    rewrite (bind_ok get _ w w w eq_refl).
    replace (use_cache && negb (truthy (_solver_cache (self w))))%bool with false
      by (destruct use_cache; [rewrite Hguard; reflexivity|reflexivity]).
    cbv iota.
    assert (Hloop' : for_each (solve_point rows (learner_predict learner rows) use_cache)
                       (seq 0 (length rows)) (if verbose then w1 else w)
                     = (Ok rs0, w')).
    { destruct verbose; [exact Hloop|].
      rewrite <- Hloop; unfold w1, p0; destruct w as [o cs]; destruct o; reflexivity. }
    rewrite (bind_ok _ _ w tt (if verbose then w1 else w))
      by (unfold w1, p0; destruct verbose; reflexivity).
    rewrite (bind_ok _ _ _ learner (if verbose then w1 else w))
      by (unfold lift; rewrite Hl; reflexivity).
    cbv beta zeta.
    rewrite (bind_ok _ _ _ (t_predict learner rows) (if verbose then w1 else w))
      by (unfold lift; destruct (length rows =? 0) eqn:Hz;
          [apply Nat.eqb_eq in Hz; lia|reflexivity]).
    rewrite (bind_ok _ _ _ rs0 w' Hloop').
    destruct (length (map (append_predict_time (t_predict learner rows)) rs0) =? 1)
      eqn:H1; [|reflexivity].
    destruct (map (append_predict_time (t_predict learner rows)) rs0) as [|r l];
      [discriminate|reflexivity]. }
  exists (map (append_predict_time (t_predict learner rows)) rs0).
  split; [rewrite length_map; exact Hlen|]; split; [|split].
  - intros i Hi. destruct (Hall i Hi) as [labels [r [H1 [H2 H3]]]].
    exists r; split.
    + unfold point_result; rewrite Hl; simpl.
      replace (py_get (learner_predict learner rows) i) with (Ok labels : res (list Z))
        by (symmetry; now apply py_get_ok).
      simpl; exact H2.
    + rewrite nth_error_map, H3; reflexivity.
  - intros H1. rewrite Hrun, length_map, Hlen, H1; simpl.
    destruct rs0 as [|r [|r' l]]; simpl in Hlen; try lia.
    exists (append_predict_time (t_predict learner rows) r); split; reflexivity.
  - intros H1. rewrite Hrun, length_map, Hlen.
    destruct (length rows =? 1) eqn:He; [apply Nat.eqb_eq in He; lia|reflexivity].
Qed.

(** ** Claim on [accuracy] *)

Lemma np_set_app {A} (done rest : list A) (x v : A) :
  np_set (done ++ x :: rest) (length done) v = Ok (done ++ v :: rest).
Proof.
  induction done as [|d done IH]; simpl; [reflexivity|].
  now rewrite IH.
Qed.

Lemma accuracy_loop (pp ps : list result) (tp ts : list (full_result Strategy))
    (done : list Z) :
  length pp = length tp -> length done = length pp -> length ps = length ts ->
  (forall t, In t ts -> fr_strategy t <> None) ->
  rfor (accuracy_step (pp ++ ps) (tp ++ ts)) (seq (length pp) (length ps))
       (done ++ repeat 0%Z (length ps)) =
  Ok (done ++ map (fun pt => if correct_at pt then 1%Z else 0%Z) (combine ps ts)).
Proof.
  revert pp tp ts done; induction ps as [|p ps IH]; intros pp tp ts done Hp Hd Hs Hstrat.
  - simpl; reflexivity.
  - destruct ts as [|t ts]; [discriminate|]; simpl in Hs.
    simpl seq; simpl rfor; simpl repeat.
    unfold accuracy_step at 1.
    replace (py_get (pp ++ p :: ps) (length pp)) with (Ok p : res result)
      by (symmetry; apply py_get_ok; rewrite nth_error_app2, Nat.sub_diag;
          [reflexivity|lia]).
    replace (py_get (tp ++ t :: ts) (length pp)) with (Ok t : res (full_result Strategy))
      by (symmetry; apply py_get_ok; rewrite Hp, nth_error_app2, Nat.sub_diag;
          [reflexivity|lia]).
    cbn [rbind].
    destruct (fr_strategy t) as [s_test|] eqn:Hst;
      [|exfalso; apply (Hstrat t); [now left|exact Hst]].
    cbn [key rbind].
    assert (Hstep :
      (if strategy_eqb (r_strategy p) s_test
       then np_set (done ++ 0%Z :: repeat 0%Z (length ps)) (length pp) 1%Z
       else if Qleb (r_infeasibility p) INFEAS_TOL
            then if Qleb (suboptimality (r_cost p) (fr_cost t)) SUBOPT_TOL
                 then np_set (done ++ 0%Z :: repeat 0%Z (length ps)) (length pp) 1%Z
                 else Ok (done ++ 0%Z :: repeat 0%Z (length ps))
            else Ok (done ++ 0%Z :: repeat 0%Z (length ps)))
      = Ok ((done ++ [if correct_at (p, t) then 1%Z else 0%Z])
              ++ repeat 0%Z (length ps))).
    { rewrite <- Hd, np_set_app, <- app_assoc; simpl.
      unfold correct_at, correct_point; simpl; rewrite Hst.
      fold (suboptimality (r_cost p) (fr_cost t)).
      destruct (strategy_eqb (r_strategy p) s_test); simpl; [reflexivity|].
      destruct (Qleb (r_infeasibility p) INFEAS_TOL); simpl; [|reflexivity].
      destruct (Qleb (suboptimality (r_cost p) (fr_cost t)) SUBOPT_TOL); reflexivity. }
    cbv zeta; rewrite Hstep; cbn [rbind].
    specialize (IH (pp ++ [p]) (tp ++ [t]) ts
                   (done ++ [if correct_at (p, t) then 1%Z else 0%Z])).
    rewrite <- !app_assoc in IH; simpl in IH.
    rewrite length_app in IH; simpl in IH; rewrite Nat.add_1_r in IH.
    rewrite <- app_assoc; simpl.
    apply IH.
    + rewrite !length_app; simpl; lia.
    + rewrite !length_app; simpl; lia.
    + lia.
    + intros t' Ht'; apply Hstrat; now right.
Qed.

Lemma np_sum_int_flags {A} (f : A -> bool) (l : list A) :
  np_sum_int (map (fun a => if f a then 1%Z else 0%Z) l)
  = Z.of_nat (length (filter f l)).
Proof.
  unfold np_sum_int.
  assert (H : forall a, fold_left Z.add (map (fun a => if f a then 1%Z else 0%Z) l) a
                        = (a + Z.of_nat (length (filter f l)))%Z).
  { induction l as [|x l IH]; intros a; simpl; [lia|].
    rewrite IH; destruct (f x); simpl length; lia. }
  rewrite H; lia.
Qed.

(** C6. For predicted and true results of the same length, the true ones
    carrying their strategy, the accuracy computed is the fraction of the
    test points at which the predicted strategy equals the true one, or the
    predicted infeasibility is at most [INFEAS_TOL] and
    (cost_pred - cost_true) / (|cost_true| + 1e-10) is at most [SUBOPT_TOL]
    (numpy's nan when there is no test point); the vector returned with it
    flags these points. *)
Theorem accuracy_is_fraction_correct (results_pred : list result)
    (results_test : list (full_result Strategy)) :
  length results_pred = length results_test ->
  (forall t, In t results_test -> fr_strategy t <> None) ->
  accuracy results_pred results_test =
  Ok (fraction_correct results_pred results_test,
      map (fun pt => if correct_at pt then 1%Z else 0%Z)
          (combine results_pred results_test)).
Proof.
  intros Hlen Hstrat; unfold accuracy.
  rewrite Hlen, Nat.eqb_refl; cbn [negb].
  pose proof (accuracy_loop [] results_pred [] results_test [] eq_refl eq_refl
                Hlen Hstrat) as H.
  simpl in H; rewrite <- Hlen, H; cbn [rbind].
  unfold int_div, fraction_correct; rewrite np_sum_int_flags; reflexivity.
Qed.

(** ** Claim on [cache_factors] *)

Lemma for_loop_app {W S A} (body : A -> S -> M W S) (l1 l2 : list A) (s : S) (w : W) :
  for_loop body (l1 ++ l2) s w =
  bind (for_loop body l1 s) (fun s' => for_loop body l2 s') w.
Proof.
  revert s w; induction l1 as [|a l1 IH]; intros s w; simpl.
  - reflexivity.
  - unfold bind; destruct (body a s w) as [[s'|e] w']; [|reflexivity].
    rewrite IH; reflexivity.
Qed.

Lemma bind_update_self {A} (f : Optimizer -> Optimizer) (k : unit -> Meth A)
    (w : World) :
  bind (update_self f) k w = k tt {| self := f (self w); calls := calls w |}.
Proof. reflexivity. Qed.

Lemma bind_get {A} (k : World -> Meth A) (w : World) : bind get k w = k w w.
Proof. reflexivity. Qed.

Lemma bind_lift_ok {A B} (r : res A) (k : A -> Meth B) (w : World) (a : A) :
  r = Ok a -> bind (lift r) k w = k a w.
Proof. intros ->; reflexivity. Qed.

Lemma bind_lift_raise {A B} (r : res A) (k : A -> Meth B) (w : World) (e : exn) :
  r = Raise e -> bind (lift r) k w = (Raise e, w).
Proof. intros ->; reflexivity. Qed.

(** One turn of the loop, once the strategy and its training point are
    found. *)
Lemma cache_one_run (idx : nat) (w : World) (strategy : Strategy) (theta : row)
    (K : KKTMatrix) (ch : Chain) (inv : InvData) :
  representative (self w) idx = Ok (strategy, theta) ->
  kkt_of_strategy (_relax_disc_var (populate (_problem (self w)) theta)) strategy
    = (K, ch, inv) ->
  cache_one idx w =
  match factorized K with
  | Ok f =>
      (Ok tt,
       {| self := set_problem
                    (_restore_disc_var
                       (_relax_disc_var (populate (_problem (self w)) theta)))
                    (set_solver_cache
                       (option_map
                          (fun l => l ++ [{| factors := f; inverse_data := inv;
                                             chain := ch |}])
                          (_solver_cache (self w)))
                       (self w));
          calls := calls w |})
  | Raise e =>
      (Raise e,
       {| self := set_problem
                    (_relax_disc_var (populate (_problem (self w)) theta)) (self w);
          calls := calls w |})
  end.
Proof.
  intros Hrep HK; unfold cache_one.
  rewrite bind_get, (bind_lift_ok _ _ _ _ Hrep); cbv beta iota.
  rewrite !bind_update_self, bind_get; cbn [self calls].
  rewrite problem_set_problem, set_problem_twice, problem_set_problem, HK.
  cbv beta iota.
  destruct (factorized K) as [f|e] eqn:Hf.
  - rewrite (bind_lift_ok _ _ _ _ eq_refl), !bind_update_self; reflexivity.
  - rewrite (bind_lift_raise _ _ _ _ eq_refl); reflexivity.
Qed.

(** One turn of the loop: it raises and leaves the cache as it is, or it
    appends one entry. *)
Lemma cache_one_cases (idx : nat) (w : World) :
  _solver_cache (self w) <> None ->
  (exists e w', cache_one idx w = (Raise e, w') /\
                _solver_cache (self w') = _solver_cache (self w)) \/
  (exists w', cache_one idx w = (Ok tt, w') /\
              _solver_cache (self w') <> None /\
              cache_size (self w') = S (cache_size (self w))).
Proof.
  intros Hc.
  destruct (representative (self w) idx) as [[strategy theta]|e] eqn:Hrep.
  - destruct (kkt_of_strategy
                (_relax_disc_var (populate (_problem (self w)) theta)) strategy)
      as [[K ch] inv] eqn:HK.
    rewrite (cache_one_run idx w strategy theta K ch inv Hrep HK).
    destruct (factorized K) as [f|e].
    + right; eexists; split; [reflexivity|]. cbn [self].
      unfold cache_size; simpl.
      destruct (_solver_cache (self w)) as [l|]; [|congruence]; simpl.
      split; [discriminate|rewrite length_app, Nat.add_1_r; reflexivity].
    + left; eexists; eexists; split; reflexivity.
  - left; exists e, w; split; [|reflexivity].
    unfold cache_one; rewrite bind_get; now apply bind_lift_raise.
Qed.

Lemma cache_loop_size (l : list nat) (w w' : World) :
  _solver_cache (self w) <> None ->
  for_loop (fun strategy_idx (_ : unit) => cache_one strategy_idx) l tt w = (Ok tt, w') ->
  _solver_cache (self w') <> None /\
  cache_size (self w') = cache_size (self w) + length l.
Proof.
  revert w; induction l as [|i l IH]; intros w Hc H; simpl in H.
  - inversion H; subst; split; [assumption|simpl; lia].
  - destruct (cache_one_cases i w Hc) as [[e [w1 [H1 _]]]|[w1 [H1 [Hc1 Hs1]]]].
    + rewrite (bind_raise _ _ w e w1 H1) in H; discriminate.
    + rewrite (bind_ok _ _ w tt w1 H1) in H.
      destruct (IH w1 Hc1 H) as [Hc' Hs']; split; [assumption|].
      rewrite Hs', Hs1; simpl; lia.
Qed.

Lemma cache_one_factorization_fails (k : nat) (w : World) (K : KKTMatrix) (e : exn) :
  kkt_at w k = Ok K -> factorized K = Raise e ->
  exists w', cache_one k w = (Raise e, w') /\
             _solver_cache (self w') = _solver_cache (self w).
Proof.
  unfold kkt_at; intros HK Hf.
  destruct (representative (self w) k) as [[strategy theta]|e'] eqn:Hrep;
    [|discriminate].
  cbn [rbind fst snd] in HK.
  destruct (kkt_of_strategy
              (_relax_disc_var (populate (_problem (self w)) theta)) strategy)
    as [[K' ch] inv] eqn:HK'.
  cbn [fst] in HK; inversion HK; subst K'.
  rewrite (cache_one_run k w strategy theta K ch inv Hrep HK'), Hf.
  eexists; split; reflexivity.
Qed.

(** C7 (amended). [cache_factors] builds the entries strategy after
    strategy. When the factorization of the KKT matrix of the strategy of id
    [k] raises, the strategies before it having been cached, the exception
    goes through [cache_factors] unchanged: the cache is left with the [k]
    entries of the strategies before [k], and no entry is built for the
    strategies after it. *)
Theorem cache_factors_stops_at_failure (w wk : World) (enc : list Strategy)
    (k : nat) (K : KKTMatrix) (e : exn) :
  encoding (self w) = Some enc ->
  k < length enc ->
  cached_up_to w k = (Ok tt, wk) ->
  kkt_at wk k = Ok K ->
  factorized K = Raise e ->
  fst (cache_factors w) = Raise e /\
  cache_size (self (snd (cache_factors w))) = k /\
  cache_size (self (snd (cache_factors w))) < length enc.
Proof.
  intros Henc Hk Hup HK Hf.
  assert (Hc0 : _solver_cache
                  (self {| self := set_solver_cache (Some []) (self w);
                           calls := calls w |}) <> None) by discriminate.
  destruct (cache_loop_size _ _ _ Hc0 Hup) as [Hck Hsk].
  destruct (cache_one_factorization_fails k wk K e HK Hf) as [w' [Hone Hsame]].
  assert (Hrun : cache_factors w = (Raise e, w')).
  { unfold cache_factors.
    unfold bind at 1, update_self at 1, modify at 1.
    unfold bind at 1, n_strategies at 1, bind at 1, get at 1.
    cbn [self calls]. 
    replace (encoding (set_solver_cache (Some []) (self w))) with (Some enc)
      by (symmetry; exact Henc).
    unfold ret at 1.
    replace (length enc) with (k + S (length enc - S k)) by lia.
    rewrite seq_app, for_loop_app.
    unfold cached_up_to in Hup; rewrite (bind_ok _ _ _ tt wk Hup).
    simpl seq; simpl for_loop.
    now rewrite (bind_raise _ _ wk e w' Hone). }
  rewrite Hrun; cbn [fst snd].
  assert (Hsize : cache_size (self w') = k).
  { unfold cache_size in *; rewrite Hsame, Hsk; simpl; now rewrite length_seq. }
  repeat split; [exact Hsize|lia].
Qed.

(** ** Claim on [get_samples] and [train] *)

Lemma filter_nonempty {A} (f : A -> bool) (l : list A) (a : A) :
  In a l -> f a = true -> (0 <? length (filter f l)) = true.
Proof.
  intros Hin Hf; apply Nat.ltb_lt.
  assert (H : In a (filter f l)) by (apply filter_In; auto).
  destruct (filter f l); [destruct H|simpl; lia].
Qed.

(** C8. When the full solve of one of the training points passed as data
    yields no strategy, [get_samples] raises (the ValueError that counts the
    infeasible points, or, when a sampling function is passed as well, the
    one that refuses both) before any strategy is encoded; [train] raises the
    same and leaves the object without a learner of its making and without
    labels or encoding. *)
Theorem infeasible_training_point_aborts (X : list row)
    (sampling_fn : option SamplingFn) (parallel filter_flag : bool)
    (learner : string) (learner_options : LearnerOptions) (w : World) :
  (exists r, In r (solve_parametric (_problem (self w)) X parallel) /\
             fr_strategy r = None) ->
  exists m w',
    get_samples (Some X) sampling_fn parallel filter_flag w
      = (Raise (ValueError m), w') /\
    train (Some X) sampling_fn parallel learner filter_flag learner_options w
      = (Raise (ValueError m), w') /\
    _learner (self w') = _learner (self w) /\
    _solver_cache (self w') = _solver_cache (self w) /\
    (sampling_fn = None ->
     m = InfeasiblePoints
           (length (filter (fun r => negb (is_some (fr_strategy r)))
                           (solve_parametric (_problem (self w)) X parallel))) /\
     X_train (self w') = Some X /\
     y_train (self w') = None /\
     encoding (self w') = None /\
     samples_present (self w') = false).
Proof.
  intros [r [Hin Hr]].
  assert (Hbad : (0 <? length (filter (fun r => negb (is_some (fr_strategy r)))
                                 (solve_parametric (_problem (self w)) X parallel)))
                 = true)
    by (apply (filter_nonempty _ _ r Hin); rewrite Hr; reflexivity).
  destruct sampling_fn as [fn|].
  - (* both X and sampling_fn *)
    exists OnlyOneOfXAndSamplingFn, w.
    assert (Hg : get_samples (Some X) (Some fn) parallel filter_flag w
                 = (Raise (ValueError OnlyOneOfXAndSamplingFn), w)) by reflexivity.
    split; [exact Hg|]. split.
    + unfold train; now rewrite (bind_raise _ _ _ _ _ Hg).
    + split; [reflexivity|]. split; [reflexivity|]. intros H; discriminate.
  - set (n_bad := length (filter (fun r => negb (is_some (fr_strategy r)))
                                 (solve_parametric (_problem (self w)) X parallel))).
    set (w' := {| self := set_samples (Some X) None None (self w);
                  calls := calls w |}).
    exists (InfeasiblePoints n_bad), w'.
    assert (Hu : use_new_data X parallel w
                 = (Raise (ValueError (InfeasiblePoints n_bad)), w')).
    { unfold use_new_data.
      rewrite bind_update_self, bind_get; fold w'; cbv zeta.
      change (_problem (self w')) with (_problem (self w)).
      rewrite Hbad; reflexivity. }
    assert (Hg : get_samples (Some X) None parallel filter_flag w
                 = (Raise (ValueError (InfeasiblePoints n_bad)), w')).
    { unfold get_samples; rewrite bind_get; cbn [is_some negb andb].
      now rewrite (bind_raise _ _ _ _ _ Hu). }
    split; [exact Hg|]. split.
    + unfold train; now rewrite (bind_raise _ _ _ _ _ Hg).
    + split; [reflexivity|]. split; [reflexivity|]. intros _.
      repeat split; reflexivity.
Qed.

(** ** Claim on [performance] *)

Lemma bind_inv {W A B} (m : M W A) (f : A -> M W B) (w : W) (b : B) (w' : W) :
  bind m f w = (Ok b, w') ->
  exists a w1, m w = (Ok a, w1) /\ f a w1 = (Ok b, w').
Proof.
  unfold bind; destruct (m w) as [[a|e] w1]; intros H; [eauto|discriminate].
Qed.

Lemma bind_lift_inv {W A B} (r : res A) (f : A -> M W B) (w : W) (b : B) (w' : W) :
  bind (lift r) f w = (Ok b, w') ->
  exists a, r = Ok a /\ f a w = (Ok b, w').
Proof.
  intros H; apply bind_inv in H; destruct H as [a [w1 [H1 H2]]].
  unfold lift in H1; inversion H1; subst; eauto.
Qed.

(** Take the next statement of a method that returned: [x] is its value,
    [Hx] says so. *)
Ltac next_lift H x Hx :=
  apply bind_lift_inv in H; destruct H as [x [Hx H]].

(** What [solve] returns, when it returns a list, is a list of results to
    which lines 511-514 have been applied. *)
Lemma solve_many_inv (X : frame) (use_cache verbose : bool) (w w' : World)
    (out : solve_output) (rs : list result) :
  solve X use_cache verbose w = (Ok out, w') ->
  iter_results out = Ok rs ->
  exists t rs0, rs = map (append_predict_time t) rs0.
Proof.
  unfold solve; intros H Hit.
  rewrite bind_get in H.
  destruct (use_cache && negb (truthy (_solver_cache (self w))))%bool;
    [discriminate|].
  apply bind_inv in H; destruct H as [u [w1 [_ H]]].
  next_lift H learner Hl. cbv zeta in H.
  next_lift H t Ht.
  apply bind_inv in H; destruct H as [rs0 [w2 [_ H]]].
  exists t, rs0.
  destruct (length (map (append_predict_time t) rs0) =? 1).
  - next_lift H r Hr. inversion H; subst out; discriminate.
  - inversion H; subst out; simpl in Hit; now inversion Hit.
Qed.

Lemma rmap_seq_nth {B} (f : nat -> res B) (n : nat) (bs : list B) :
  rmap f (seq 0 n) = Ok bs ->
  forall i, i < n -> exists b, f i = Ok b /\ nth_error bs i = Some b.
Proof.
  intros H i Hi.
  apply (rmap_nth _ _ _ H i i).
  rewrite nth_error_seq; apply Nat.ltb_lt in Hi; now rewrite Hi.
Qed.

(** C5 (amended). Whenever [performance] returns, its headline speedup
    metrics are the mean of the true solve times over the mean of the
    predicted total times, and the maximum of the true solve times over the
    maximum of the predicted total times, the predicted total time of a point
    being its prediction time plus its solve time; the ratio
    true time / predicted total time of each point is computed too, and is
    reported point by point in the detail frame only. *)
Theorem performance_time_improvement (theta : list row) (parallel use_cache : bool)
    (w : World) (s : summary) (d : detail) :
  fst (performance theta parallel use_cache w) = Ok (s, d) ->
  d_time_full d
    = map (@fr_time _) (solve_parametric (_problem (self w)) theta parallel) /\
  (forall i p, nth_error (d_time_pred d) i = Some p ->
     exists pt st, nth_error (d_pred_time_pred d) i = Some pt /\
                   nth_error (d_solve_time_pred d) i = Some st /\
                   p = (pt + st)%Q) /\
  s_avg_time_improv s
    = nan_div (np_mean (d_time_full d)) (np_mean (d_time_pred d)) /\
  (exists a b, np_max (d_time_full d) = Ok a /\ np_max (d_time_pred d) = Ok b /\
               s_max_time_improv s = (a / b)%Q) /\
  (forall i, i < length theta ->
     exists t p, nth_error (d_time_full d) i = Some t /\
                 nth_error (d_time_pred d) i = Some p /\
                 nth_error (d_time_improvement d) i = Some (t / p)%Q).
Proof.
  destruct (performance theta parallel use_cache w) as [res w'] eqn:H.
  cbn [fst]; intros ->.
  unfold performance in H; rewrite bind_get in H; cbv zeta in H.
  apply bind_inv in H; destruct H as [out [w1 [Hsolve H]]].
  next_lift H results_pred Hit.
  next_lift H solve_time_pred Hst.
  next_lift H pred_time_pred Hpt.
  rewrite bind_get in H.
  next_lift H learner Hl.
  next_lift H n_theta Hnt.
  next_lift H enc Henc.
  next_lift H time_comp Htc.
  next_lift H subopt Hsub.
  next_lift H acc Hacc.
  destruct acc as [test_accuracy idx_correct].
  next_lift H max_test Hmt.
  next_lift H max_pred Hmp.
  next_lift H sampler Hsam.
  next_lift H feas_subopt Hfs.
  next_lift H max_infeas Hmi.
  next_lift H max_subopt Hms.
  unfold ret in H; inversion H; subst s d w'; clear H; cbn.
  split; [reflexivity|]. split; [|split; [reflexivity|split]].
  - (* the predicted total time *)
    destruct (solve_many_inv _ _ _ _ _ _ _ Hsolve Hit) as [t [rs0 ->]].
    intros i p Hp.
    rewrite map_map in Hp; apply nth_error_map_Some in Hp.
    destruct Hp as [r0 [Hr0 ->]].
    assert (Hr : nth_error (map (append_predict_time t) rs0) i
                 = Some (append_predict_time t r0))
      by (apply nth_error_map_Some; eauto).
    destruct (rmap_nth _ _ _ Hpt _ _ Hr) as [pt [Hpt1 Hpt2]].
    destruct (rmap_nth _ _ _ Hst _ _ Hr) as [st [Hst1 Hst2]].
    simpl in Hpt1, Hst1; inversion Hpt1; inversion Hst1; subst.
    do 2 eexists; split; [eassumption|split; [eassumption|reflexivity]].
  - exists max_test, max_pred; auto.
  - intros i Hi.
    destruct (rmap_seq_nth _ _ _ Htc i Hi) as [q [Hq1 Hq2]].
    destruct (py_get _ i) as [t|] eqn:Ht in Hq1; [|discriminate].
    cbn [rbind] in Hq1.
    destruct (py_get (map r_time results_pred) i) as [p|] eqn:Hp in Hq1;
      [|discriminate].
    cbn [rbind] in Hq1; inversion Hq1; subst q.
    apply py_get_ok in Ht, Hp; eauto.
Qed.

(** ** Further properties of [choose_best] *)

Lemma set_problem_same (o : Optimizer) : set_problem (_problem o) o = o.
Proof. destruct o; reflexivity. Qed.

Lemma py_index_in_range {A} (l : list A) (i : Z) :
  in_range l i -> exists a, py_index l i = Ok a.
Proof.
  unfold in_range, py_index; intros H.
  destruct (i <? 0)%Z eqn:Hneg;
    [apply Z.ltb_lt in Hneg|apply Z.ltb_ge in Hneg];
    (destruct (_ && _)%bool eqn:Hb;
     [apply andb_true_iff in Hb; destruct Hb as [H1 H2];
      apply Z.leb_le in H1; apply Z.ltb_lt in H2;
      destruct (nth_error l _) eqn:Hn; [eauto|apply nth_error_None in Hn; lia]
     |apply andb_false_iff in Hb; destruct Hb as [Hb|Hb];
      [apply Z.leb_gt in Hb|apply Z.ltb_ge in Hb]; lia]).
Qed.

Lemma py_index_out_of_range {A} (l : list A) (i : Z) :
  ~ in_range l i -> py_index l i = Raise IndexError.
Proof.
  unfold in_range, py_index; intros H.
  destruct (i <? 0)%Z eqn:Hneg;
    [apply Z.ltb_lt in Hneg|apply Z.ltb_ge in Hneg];
    (destruct (_ && _)%bool eqn:Hb; [|reflexivity];
     apply andb_true_iff in Hb; destruct Hb as [H1 H2];
     apply Z.leb_le in H1; apply Z.ltb_lt in H2; lia).
Qed.

Lemma py_index_cases {A} (l : list A) (i : Z) :
  (exists a, py_index l i = Ok a) \/ py_index l i = Raise IndexError.
Proof.
  unfold py_index.
  destruct (_ && _)%bool; [|now right].
  destruct (nth_error l _); [left; eauto|now right].
Qed.

(** A comprehension over indexings raises [IndexError] as soon as one index
    is out of range. *)
Lemma rmap_py_index_bad {A} (l : list A) (idx : list Z) :
  (exists i, In i idx /\ ~ in_range l i) ->
  rmap (py_index l) idx = Raise IndexError.
Proof.
  induction idx as [|i idx IH]; intros [j [Hj Hbad]]; [destruct Hj|].
  simpl. destruct (py_index_cases l i) as [[a Ha]|Ha]; rewrite Ha; simpl;
    [|reflexivity].
  destruct Hj as [->|Hj].
  - rewrite (py_index_out_of_range l j Hbad) in Ha; discriminate.
  - rewrite IH by eauto; reflexivity.
Qed.

Lemma rmap_py_index_good {A} (l : list A) (idx : list Z) :
  (forall i, In i idx -> in_range l i) ->
  exists vs, rmap (py_index l) idx = Ok vs.
Proof.
  intros H; apply rmap_total; intros i Hi; now apply py_index_in_range, H.
Qed.

Lemma rmap_ok_in_range {A} (l : list A) (idx : list Z) (vs : list A) :
  rmap (py_index l) idx = Ok vs -> forall i, In i idx -> in_range l i.
Proof.
  intros H i Hi.
  destruct (Z_le_dec (- Z.of_nat (length l)) i) as [H1|H1];
    [destruct (Z_lt_dec i (Z.of_nat (length l))) as [H2|H2]|].
  - split; assumption.
  - rewrite rmap_py_index_bad in H; [discriminate|].
    exists i; split; [exact Hi|unfold in_range; lia].
  - rewrite rmap_py_index_bad in H; [discriminate|].
    exists i; split; [exact Hi|unfold in_range; lia].
Qed.

(** The sequential loop, whatever the lists: every call it makes is a plain
    call, and it makes at most one for each strategy from [k] on. *)
Lemma sequential_loop_calls (p : Problem) (strategies : list Strategy)
    (cache : list (option kkt_cache)) (n k : nat) (acc : locals) (w : World) :
  exists r cs,
    for_loop (fun j l =>
        bind (lift (py_get strategies j)) (fun s =>
        bind (lift (py_get cache j)) (fun c =>
        bind (call_solve p s c) (fun res => ret (append_result l res)))))
      (seq k n) acc w = (r, extend w cs) /\
    length cs <= length strategies - k /\
    Forall (fun c => call_is_ray c = false) cs.
Proof.
  revert k acc w; induction n as [|n IH]; intros k acc w.
  - exists (Ok acc), []; rewrite extend_nil; repeat split; [simpl; lia|constructor].
  - simpl seq; simpl for_loop.
    destruct (py_get strategies k) as [s|e] eqn:Hs.
    + assert (Hk : k < length strategies)
        by (apply py_get_ok in Hs; apply nth_error_Some; congruence).
      destruct (py_get cache k) as [c|e] eqn:Hc.
      * destruct (IH (S k) (append_result acc (solve_with_strategy p s c))
                     (extend w [CallSolve p s c])) as [r [cs [Hr [Hlen Hall]]]].
        exists r, (CallSolve p s c :: cs); split; [|split].
        -- rewrite (bind_ok _ _ w (append_result acc (solve_with_strategy p s c))
                      (extend w [CallSolve p s c])).
           ++ rewrite Hr; unfold extend; simpl; now rewrite <- app_assoc.
           ++ rewrite (bind_lift_ok (Ok s) _ _ s eq_refl).
              rewrite (bind_lift_ok (Ok c) _ _ c eq_refl).
              reflexivity.
        -- simpl; lia.
        -- constructor; [reflexivity|exact Hall].
      * exists (Raise e), []; rewrite extend_nil; split; [|split].
        -- apply bind_raise.
           rewrite (bind_lift_ok (Ok s) _ _ s eq_refl).
           apply (bind_lift_raise (Raise e) _ _ e eq_refl).
        -- simpl; lia.
        -- constructor.
    + exists (Raise e), []; rewrite extend_nil; split; [|split].
      * apply bind_raise; apply (bind_lift_raise (Raise e) _ _ e eq_refl).
      * simpl; lia.
      * constructor.
Qed.

Lemma rmap_ext {A B} (f g : A -> res B) (l : list A) :
  (forall a, In a l -> f a = g a) -> rmap f l = rmap g l.
Proof.
  induction l as [|a l IH]; intros H; simpl; [reflexivity|].
  rewrite (H a (or_introl eq_refl)), IH; [reflexivity|].
  intros; apply H; now right.
Qed.

Lemma decode_labels_encoding (o : Optimizer) (enc : list Strategy) (labels : list Z) :
  encoding o = Some enc -> decode_labels o labels = rmap (py_index enc) labels.
Proof.
  intros H; unfold decode_labels; apply rmap_ext; intros l _; now rewrite H.
Qed.

Lemma snd_bind_lift {A B} (m : Meth A) (g : A -> res B) (w : World) :
  snd (bind m (fun a => lift (g a)) w) = snd (m w).
Proof.
  unfold bind, lift; destruct (m w) as [[a|e] w']; reflexivity.
Qed.

Lemma evaluate_calls (p : Problem) (strategies : list Strategy)
    (cache : list (option kkt_cache)) (parallel : bool) (n_best : nat) (w : World) :
  exists r cs,
    evaluate p strategies cache parallel n_best w = (r, extend w cs) /\
    length cs <= length strategies /\
    Forall (fun c => call_is_ray c = parallel) cs.
Proof.
  destruct parallel.
  - rewrite evaluate_parallel; eexists; eexists; split; [reflexivity|split].
    + rewrite length_map; lia.
    + apply Forall_forall; intros c Hc; apply in_map_iff in Hc.
      destruct Hc as [s [<- _]]; reflexivity.
  - unfold evaluate.
    destruct (sequential_loop_calls p strategies cache n_best 0 ([], [], [], []) w)
      as [r [cs [Hr [Hlen Hall]]]].
    exists r, cs; split; [exact Hr|split; [lia|exact Hall]].
Qed.

(** X1. Whatever its arguments and whether it returns or raises,
    [choose_best] assigns no field of the optimizer object (the problem it
    hands to the solver is the only one that can have changed); it makes at
    most one solver call for each label, all through ray when [parallel] is
    set and none through ray when it is not. *)
Theorem choose_best_leaves_object (labels : list Z) (parallel use_cache : bool)
    (w : World) :
  (exists p, self (snd (choose_best labels parallel use_cache w))
             = set_problem p (self w)) /\
  exists cs,
    calls (snd (choose_best labels parallel use_cache w)) = calls w ++ cs /\
    length cs <= length labels /\
    Forall (fun c => call_is_ray c = parallel) cs.
Proof.
  assert (Hstay : forall r : res result,
             (exists p, self (snd (r, w)) = set_problem p (self w)) /\
             exists cs, calls (snd (r, w)) = calls w ++ cs /\
                        length cs <= length labels /\
                        Forall (fun c => call_is_ray c = parallel) cs).
  { intros r; split.
    - exists (_problem (self w)); cbn [snd]; now rewrite set_problem_same.
    - exists []; simpl; rewrite app_nil_r; repeat split; [lia|constructor]. }
  unfold choose_best; rewrite bind_get.
  destruct (_learner (self w)) as [learner|].
  - rewrite (bind_lift_ok (attr (Some learner)) _ _ learner eq_refl); cbv zeta.
    destruct (decode_labels (self w) labels) as [strategies|e] eqn:Hd.
    + rewrite (bind_lift_ok (Ok strategies) _ _ strategies eq_refl).
      destruct (cache_for (self w) labels use_cache (learner_n_best learner))
        as [cache|e].
      * rewrite (bind_lift_ok (Ok cache) _ _ cache eq_refl).
        rewrite snd_bind_lift.
        destruct (evaluate_calls (_problem (self w)) strategies cache parallel
                    (learner_n_best learner) w) as [r [cs [Hr [Hlen Hall]]]].
        rewrite Hr; split.
        -- exists (_problem (self w)); cbn [snd extend self].
           now rewrite set_problem_same.
        -- exists cs; repeat split; [|exact Hall].
           apply rmap_length in Hd; lia.
      * rewrite (bind_lift_raise (Raise e) _ _ e eq_refl); apply Hstay.
    + rewrite (bind_lift_raise (Raise e) _ _ e eq_refl); apply Hstay.
  - rewrite (bind_lift_raise (attr None) _ _ AttributeError eq_refl); apply Hstay.
Qed.

(** X2. When the learner is trained and one of the labels is not an index of
    the encoding (neither from the start nor, negative, from the end),
    [choose_best] raises IndexError before any candidate is solved: the
    state, solver calls included, is the initial one. *)
Theorem choose_best_invalid_label (labels : list Z) (parallel use_cache : bool)
    (w : World) (learner : Learner) (enc : list Strategy) :
  _learner (self w) = Some learner ->
  encoding (self w) = Some enc ->
  (exists l, In l labels /\ ~ in_range enc l) ->
  choose_best labels parallel use_cache w = (Raise IndexError, w).
Proof.
  intros Hl Henc Hbad; unfold choose_best; rewrite bind_get.
  rewrite (bind_lift_ok _ _ _ learner) by (now rewrite Hl); cbv zeta.
  apply bind_lift_raise.
  rewrite (decode_labels_encoding _ enc labels Henc).
  now apply rmap_py_index_bad.
Qed.

(** *** More or fewer labels than [n_best] *)

Lemma for_loop_ext {W S A} (body body' : A -> S -> M W S) (l : list A) (s : S) (w : W) :
  (forall a s w, In a l -> body a s w = body' a s w) ->
  for_loop body l s w = for_loop body' l s w.
Proof.
  revert s w; induction l as [|a l IH]; intros s w H; simpl; [reflexivity|].
  unfold bind; rewrite (H a s w (or_introl eq_refl)).
  destruct (body' a s w) as [[s'|e] w']; [|reflexivity].
  apply IH; intros; apply H; now right.
Qed.

Lemma py_get_firstn {A} (l : list A) (n j : nat) :
  j < n -> py_get (firstn n l) j = py_get l j.
Proof.
  intros H; unfold py_get.
  replace (nth_error (firstn n l) j) with (nth_error l j); [reflexivity|].
  revert n j H; induction l as [|a l IH]; intros [|n] [|j] H; simpl;
    try reflexivity; try lia.
  apply IH; lia.
Qed.

Lemma rmap_firstn {A B} (f : A -> res B) (l : list A) (bs : list B) (n : nat) :
  rmap f l = Ok bs -> rmap f (firstn n l) = Ok (firstn n bs).
Proof.
  revert bs n; induction l as [|a l IH]; intros bs n H; simpl in H.
  - inversion H; destruct n; reflexivity.
  - destruct (f a) as [b|e] eqn:Hf; simpl in H; [|discriminate].
    destruct (rmap f l) as [bs'|e]; simpl in H; [|discriminate].
    inversion H; subst bs; destruct n as [|n]; simpl; [reflexivity|].
    rewrite Hf; simpl; rewrite (IH bs' n eq_refl); reflexivity.
Qed.

Lemma evaluate_sequential_firstn (p : Problem) (strategies : list Strategy)
    (cache : list (option kkt_cache)) (n : nat) (w : World) :
  evaluate p strategies cache false n w =
  evaluate p (firstn n strategies) (firstn n cache) false n w.
Proof.
  unfold evaluate; apply for_loop_ext; intros j l w' Hj.
  apply in_seq in Hj.
  rewrite !py_get_firstn by lia; reflexivity.
Qed.

Lemma store_best_firstn (strategies : list Strategy)
    (outs : list (solve_result Sol)) :
  store_best strategies (unzip outs) =
  store_best (firstn (length outs) strategies) (unzip outs).
Proof.
  unfold store_best, unzip.
  destruct (pick_best _ _) as [idx|e]; [|reflexivity]; cbn [rbind].
  destruct (py_get (map (@sr_x _) outs) idx) as [rx|e] eqn:Hx; [|reflexivity].
  cbn [rbind].
  assert (Hlt : idx < length outs).
  { apply py_get_ok in Hx.
    rewrite <- (length_map (@sr_x _) outs); apply nth_error_Some; congruence. }
  rewrite (py_get_firstn strategies (length outs) idx Hlt); reflexivity.
Qed.

Lemma cache_for_firstn (o : Optimizer) (labels : list Z) (use_cache : bool)
    (n : nat) (cache : list (option kkt_cache)) :
  cache_for o labels use_cache n = Ok cache ->
  cache_for o (firstn n labels) use_cache n = Ok (firstn n cache).
Proof.
  unfold cache_for; destruct (truthy _ && use_cache)%bool; intros H.
  - now apply rmap_firstn.
  - inversion H. rewrite firstn_all2 by (rewrite repeat_length; lia); reflexivity.
Qed.

Lemma cache_for_long (o : Optimizer) (labels : list Z) (use_cache : bool)
    (n : nat) (cache : list (option kkt_cache)) :
  cache_for o labels use_cache n = Ok cache ->
  length cache = length labels \/ length cache = n.
Proof.
  unfold cache_for; destruct (truthy _ && use_cache)%bool; intros H.
  - left; now apply rmap_length in H.
  - right; inversion H; apply repeat_length.
Qed.

(** The sequential path on at least [n_best] labels. *)
Lemma choose_best_sequential_long (w : World) (labels : list Z) (use_cache : bool)
    (learner : Learner) (strategies : list Strategy)
    (cache : list (option kkt_cache)) :
  _learner (self w) = Some learner ->
  learner_n_best learner <= length labels ->
  decode_labels (self w) labels = Ok strategies ->
  cache_for (self w) labels use_cache (learner_n_best learner) = Ok cache ->
  choose_best labels false use_cache w =
  (store_best (firstn (learner_n_best learner) strategies)
     (unzip (outcomes (_problem (self w)) false
               (firstn (learner_n_best learner) strategies)
               (firstn (learner_n_best learner) cache))),
   extend w (map (fun sc => CallSolve (_problem (self w)) (fst sc) (snd sc))
               (combine (firstn (learner_n_best learner) strategies)
                        (firstn (learner_n_best learner) cache)))).
Proof.
  intros Hl Hn Hd Hc.
  set (n := learner_n_best learner) in *.
  assert (Hls : length strategies = length labels) by (now apply rmap_length in Hd).
  assert (Hfs : length (firstn n strategies) = n)
    by (rewrite length_firstn; lia).
  assert (Hfc : length (firstn n cache) = n)
    by (rewrite length_firstn; destruct (cache_for_long _ _ _ _ _ Hc); lia).
  unfold choose_best; rewrite bind_get.
  rewrite (bind_lift_ok _ _ _ learner) by (now rewrite Hl); cbv zeta; fold n.
  rewrite (bind_lift_ok _ _ _ strategies Hd), (bind_lift_ok _ _ _ cache Hc).
  rewrite (bind_ok _ _ w
             (unzip (outcomes (_problem (self w)) false (firstn n strategies)
                       (firstn n cache)))
             (extend w (map (fun sc => CallSolve (_problem (self w)) (fst sc) (snd sc))
                          (combine (firstn n strategies) (firstn n cache))))).
  - unfold lift; f_equal.
    rewrite (store_best_firstn strategies).
    rewrite outcomes_length by congruence; now rewrite Hfs.
  - rewrite evaluate_sequential_firstn.
    rewrite <- Hfs at 3.
    apply evaluate_sequential; congruence.
Qed.

(** X3. Given more labels than the learner's [n_best], all of them valid,
    the sequential path solves the candidates of the first [n_best] labels
    only and returns what it returns on these labels alone, whereas the
    parallel path solves the candidate of every label. *)
Theorem sequential_ignores_extra_labels (w : World) (labels : list Z)
    (use_cache : bool) (learner : Learner) (strategies : list Strategy)
    (cache : list (option kkt_cache)) :
  _learner (self w) = Some learner ->
  learner_n_best learner <= length labels ->
  decode_labels (self w) labels = Ok strategies ->
  cache_for (self w) labels use_cache (learner_n_best learner) = Ok cache ->
  fst (choose_best labels false use_cache w) =
    fst (choose_best (firstn (learner_n_best learner) labels) false use_cache w) /\
  length (calls (snd (choose_best labels false use_cache w)))
    = length (calls w) + learner_n_best learner /\
  length (calls (snd (choose_best labels true use_cache w)))
    = length (calls w) + length labels.
Proof.
  intros Hl Hn Hd Hc.
  set (n := learner_n_best learner) in *.
  assert (Hls : length strategies = length labels) by (now apply rmap_length in Hd).
  assert (Hfl : length (firstn n labels) = n) by (rewrite length_firstn; lia).
  assert (Hfs : length (firstn n strategies) = n) by (rewrite length_firstn; lia).
  assert (Hfc : length (firstn n cache) = n)
    by (rewrite length_firstn; destruct (cache_for_long _ _ _ _ _ Hc); lia).
  rewrite (choose_best_sequential_long w labels use_cache learner strategies cache
             Hl Hn Hd Hc); fold n.
  destruct (choose_best_run w (firstn n labels) false use_cache learner
              (firstn n strategies) (firstn n cache) Hl Hfl
              (rmap_firstn _ _ _ n Hd) (cache_for_firstn _ _ _ _ _ Hc))
    as [cs Hrun].
  rewrite Hrun; cbn [fst snd]; split; [reflexivity|split].
  - unfold extend; cbn [calls].
    rewrite length_app, length_map, length_combine; lia.
  - unfold choose_best; rewrite bind_get.
    rewrite (bind_lift_ok _ _ _ learner) by (now rewrite Hl); cbv zeta; fold n.
    rewrite (bind_lift_ok _ _ _ strategies Hd), (bind_lift_ok _ _ _ cache Hc).
    rewrite snd_bind_lift, evaluate_parallel; unfold extend; cbn [snd calls].
    rewrite length_app, length_map; lia.
Qed.

Lemma evaluate_sequential_short (p : Problem) (strategies : list Strategy)
    (cache : list (option kkt_cache)) (n : nat) (w : World) :
  length strategies < n ->
  length strategies <= length cache ->
  evaluate p strategies cache false n w =
  (Raise IndexError,
   extend w (map (fun sc => CallSolve p (fst sc) (snd sc))
               (combine strategies (firstn (length strategies) cache)))).
Proof.
  intros Hlt Hle.
  set (m := length strategies) in *.
  assert (Hfirst : evaluate p strategies cache false m w =
            (Ok (unzip (outcomes p false strategies (firstn m cache))),
             extend w (map (fun sc => CallSolve p (fst sc) (snd sc))
                         (combine strategies (firstn m cache))))).
  { rewrite evaluate_sequential_firstn.
    unfold m at 1; rewrite firstn_all; fold m.
    apply evaluate_sequential; rewrite length_firstn; lia. }
  unfold evaluate in *.
  replace n with (m + S (n - S m)) by lia.
  rewrite seq_app, for_loop_app, (bind_ok _ _ _ _ _ Hfirst).
  simpl seq; simpl for_loop.
  apply bind_raise, bind_lift_raise.
  unfold py_get.
  replace (nth_error strategies m) with (@None Strategy);
    [reflexivity|symmetry; apply nth_error_None; unfold m; lia].
Qed.

(** X4. Given fewer labels than the learner's [n_best], all of them valid,
    the sequential path solves the candidate of every label and then raises
    IndexError at the first missing one, whereas the parallel path, given at
    least one label, returns a result. *)
Theorem sequential_too_few_labels (w : World) (labels : list Z)
    (use_cache : bool) (learner : Learner) (strategies : list Strategy)
    (cache : list (option kkt_cache)) :
  _learner (self w) = Some learner ->
  length labels < learner_n_best learner ->
  decode_labels (self w) labels = Ok strategies ->
  cache_for (self w) labels use_cache (learner_n_best learner) = Ok cache ->
  fst (choose_best labels false use_cache w) = Raise IndexError /\
  length (calls (snd (choose_best labels false use_cache w)))
    = length (calls w) + length labels /\
  (labels <> [] -> exists r, fst (choose_best labels true use_cache w) = Ok r).
Proof.
  intros Hl Hn Hd Hc.
  set (n := learner_n_best learner) in *.
  assert (Hls : length strategies = length labels) by (now apply rmap_length in Hd).
  assert (Hlc : length strategies <= length cache)
    by (destruct (cache_for_long _ _ _ _ _ Hc); lia).
  assert (Hseq : choose_best labels false use_cache w =
            (Raise IndexError,
             extend w (map (fun sc => CallSolve (_problem (self w)) (fst sc) (snd sc))
                         (combine strategies (firstn (length strategies) cache))))).
  { unfold choose_best; rewrite bind_get.
    rewrite (bind_lift_ok _ _ _ learner) by (now rewrite Hl); cbv zeta; fold n.
    rewrite (bind_lift_ok _ _ _ strategies Hd), (bind_lift_ok _ _ _ cache Hc).
    apply bind_raise, evaluate_sequential_short; lia. }
  rewrite Hseq; cbn [fst snd]; split; [reflexivity|split].
  - unfold extend; cbn [calls].
    rewrite length_app, length_map, length_combine, length_firstn; lia.
  - intros Hne.
    assert (Hpar : choose_best labels true use_cache w =
              (store_best strategies
                 (unzip (outcomes (_problem (self w)) true strategies cache)),
               extend w (map (fun s => CallSolveRay (_problem (self w)) s cache)
                           strategies))).
    { unfold choose_best; rewrite bind_get.
      rewrite (bind_lift_ok _ _ _ learner) by (now rewrite Hl); cbv zeta; fold n.
      rewrite (bind_lift_ok _ _ _ strategies Hd), (bind_lift_ok _ _ _ cache Hc).
      rewrite (bind_ok _ _ _ _ _ (evaluate_parallel _ _ _ _ _)); reflexivity. }
    rewrite Hpar; cbn [fst].
    destruct (store_best_certified strategies
                (outcomes (_problem (self w)) true strategies cache))
      as [i [r [Hr _]]].
    + unfold outcomes; destruct strategies; [|discriminate].
      destruct labels; [congruence|discriminate].
    + unfold outcomes; now rewrite length_map.
    + eauto.
Qed.

(** ** Further properties of [solve] *)

Lemma for_each_length {W A B} (f : A -> M W B) (l : list A) (w w' : W) (bs : list B) :
  for_each f l w = (Ok bs, w') -> length bs = length l.
Proof.
  revert w bs; induction l as [|a l IH]; intros w bs H; simpl in H.
  - inversion H; reflexivity.
  - apply bind_inv in H; destruct H as [b [w1 [_ H]]].
    apply bind_inv in H; destruct H as [bs' [w2 [H1 H]]].
    inversion H; subst; simpl; f_equal; now apply (IH w1).
Qed.

(** X5. On a frame without rows, [solve] raises ZeroDivisionError (the
    average prediction time divides by the number of points) once the guard
    on the cache is passed and the learner has predicted; no candidate is
    solved. *)
Theorem solve_empty_frame (use_cache verbose : bool) (w : World) (learner : Learner) :
  (use_cache = true -> truthy (_solver_cache (self w)) = true) ->
  _learner (self w) = Some learner ->
  fst (solve (DataFrame []) use_cache verbose w) = Raise ZeroDivisionError /\
  calls (snd (solve (DataFrame []) use_cache verbose w)) = calls w.
Proof.
  intros Hguard Hl; unfold solve; rewrite bind_get.
  replace (use_cache && negb (truthy (_solver_cache (self w))))%bool with false
    by (destruct use_cache; [rewrite Hguard; reflexivity|reflexivity]).
  cbv iota.
  destruct verbose.
  - rewrite bind_update_self.
    rewrite (bind_lift_ok _ _ _ learner) by (now rewrite Hl).
    split; reflexivity.
  - rewrite (bind_ok _ _ w tt w eq_refl).
    rewrite (bind_lift_ok _ _ _ learner) by (now rewrite Hl).
    split; reflexivity.
Qed.

(** What [solve] returns, when it returns. *)
Lemma solve_returns_shape (X : frame) (use_cache verbose : bool)
    (w w' : World) (out : solve_output) :
  solve X use_cache verbose w = (Ok out, w') ->
  exists learner,
    _learner (self w) = Some learner /\
    1 <= length (frame_rows X) /\
    length (results_of out) = length (frame_rows X) /\
    match out with
    | Single _ => length (frame_rows X) = 1
    | Many _ => length (frame_rows X) <> 1
    end /\
    forall r, In r (results_of out) ->
      r_pred_time r = Some (t_predict learner (frame_rows X)) /\
      exists st, r_solve_time r = Some st /\
                 r_time r = (t_predict learner (frame_rows X) + st)%Q.
Proof.
  unfold solve; intros H.
  set (rows := frame_rows X) in *.
  rewrite bind_get in H.
  destruct (use_cache && negb (truthy (_solver_cache (self w))))%bool;
    [discriminate|].
  apply bind_inv in H; destruct H as [u [w1 [_ H]]].
  next_lift H learner Hl. cbv zeta in H.
  next_lift H t Ht.
  apply bind_inv in H; destruct H as [rs0 [w2 [Hloop H]]].
  apply for_each_length in Hloop; rewrite length_seq in Hloop.
  exists learner.
  assert (Hlearner : _learner (self w) = Some learner)
    by (destruct (_learner (self w)); inversion Hl; reflexivity).
  destruct (length rows =? 0) eqn:Hz; [discriminate|].
  apply Nat.eqb_neq in Hz.
  inversion Ht; subst t; clear Ht. fold (t_predict learner rows) in *.
  assert (Htimes : forall r,
             In r (map (append_predict_time (t_predict learner rows)) rs0) ->
             r_pred_time r = Some (t_predict learner rows) /\
             exists st, r_solve_time r = Some st /\
                        r_time r = (t_predict learner rows + st)%Q).
  { intros r Hr; apply in_map_iff in Hr; destruct Hr as [r0 [<- _]].
    split; [reflexivity|]; exists (r_time r0); split; reflexivity. }
  split; [exact Hlearner|]; split; [lia|].
  rewrite length_map in H.
  destruct (length rs0 =? 1) eqn:H1.
  - apply Nat.eqb_eq in H1.
    next_lift H r Hr; inversion H; subst out w'; clear H.
    cbn [results_of length]; split; [lia|]. split; [lia|].
    intros r' [<-|[]]; apply Htimes.
    apply py_get_ok in Hr; eapply nth_error_In; eauto.
  - apply Nat.eqb_neq in H1.
    inversion H; subst out w'; clear H.
    cbn [results_of]; rewrite length_map; split; [lia|]. split; [lia|].
    exact Htimes.
Qed.

(** X6. Whenever [solve] returns, there was at least one point and there is
    one result for each point; what is returned is a single dictionary
    exactly when there was one point; every result carries the same
    prediction time, the time of the learner's prediction divided by the
    number of points, its own solve time, and as time the sum of the two. *)
Theorem solve_output_shape_and_times (X : frame) (use_cache verbose : bool)
    (w w' : World) (out : solve_output) :
  solve X use_cache verbose w = (Ok out, w') ->
  exists learner,
    _learner (self w) = Some learner /\
    1 <= length (frame_rows X) /\
    length (results_of out) = length (frame_rows X) /\
    match out with
    | Single _ => length (frame_rows X) = 1
    | Many _ => length (frame_rows X) <> 1
    end /\
    forall r, In r (results_of out) ->
      r_pred_time r = Some (t_predict learner (frame_rows X)) /\
      exists st, r_solve_time r = Some st /\
                 r_time r = (t_predict learner (frame_rows X) + st)%Q.
Proof. apply solve_returns_shape. Qed.

Lemma sequential_loop_ok_calls (p : Problem) (strategies : list Strategy)
    (cache : list (option kkt_cache)) (n k : nat) (acc acc' : locals) (w w' : World) :
  for_loop (fun j l =>
      bind (lift (py_get strategies j)) (fun s =>
      bind (lift (py_get cache j)) (fun c =>
      bind (call_solve p s c) (fun res => ret (append_result l res)))))
    (seq k n) acc w = (Ok acc', w') ->
  exists cs, w' = extend w cs /\ length cs = n /\
             Forall (fun c => call_is_ray c = false) cs.
Proof.
  revert k acc w; induction n as [|n IH]; intros k acc w H.
  - simpl in H; inversion H; subst; exists []; rewrite extend_nil.
    repeat split; constructor.
  - simpl seq in H; simpl for_loop in H.
    apply bind_inv in H; destruct H as [a [w1 [Hbody H]]].
    next_lift Hbody s Hs. next_lift Hbody c Hc.
    apply bind_inv in Hbody; destruct Hbody as [res [w2 [Hcall Hret]]].
    unfold call_solve in Hcall; inversion Hcall; subst res w2; clear Hcall.
    unfold ret in Hret; inversion Hret; subst a w1; clear Hret.
    destruct (IH _ _ _ H) as [cs [-> [Hlen Hall]]].
    exists (CallSolve p s c :: cs); split; [|split].
    + unfold extend; simpl; now rewrite <- app_assoc.
    + simpl; now rewrite Hlen.
    + constructor; [reflexivity|exact Hall].
Qed.

Lemma choose_best_ok_calls (labels : list Z) (use_cache : bool) (w w' : World)
    (r : result) :
  choose_best labels false use_cache w = (Ok r, w') ->
  exists learner cs,
    _learner (self w) = Some learner /\ w' = extend w cs /\
    length cs = learner_n_best learner /\
    Forall (fun c => call_is_ray c = false) cs.
Proof.
  unfold choose_best; intros H; rewrite bind_get in H.
  next_lift H learner Hl; cbv zeta in H.
  next_lift H strategies Hd. next_lift H cache Hc.
  apply bind_inv in H; destruct H as [l [w1 [Hev H]]].
  unfold lift in H; inversion H; subst w1; clear H.
  unfold evaluate in Hev.
  destruct (sequential_loop_ok_calls _ _ _ _ _ _ _ _ _ Hev) as [cs [Hw [Hlen Hall]]].
  exists learner, cs; repeat split; try assumption.
  destruct (_learner (self w)); inversion Hl; reflexivity.
Qed.

Lemma skipn_nth_error {A} (l : list A) (k : nat) (a : A) :
  nth_error l k = Some a -> skipn k l = a :: skipn (S k) l.
Proof.
  revert k; induction l as [|x l IH]; intros [|k] H; simpl in *; try discriminate.
  - now inversion H.
  - now apply IH.
Qed.

Lemma solve_loop_calls (X : list row) (classes : list (list Z)) (use_cache : bool)
    (learner : Learner) (n k : nat) (w w' : World) (rs : list result) :
  _learner (self w) = Some learner ->
  for_each (solve_point X classes use_cache) (seq k n) w = (Ok rs, w') ->
  exists cs,
    calls w' = calls w ++ cs /\
    length cs = n * learner_n_best learner /\
    Forall (fun c => call_is_ray c = false) cs /\
    self w' = set_problem
                (fold_left populate (firstn n (skipn k X)) (_problem (self w)))
                (self w).
Proof.
  revert k w rs; induction n as [|n IH]; intros k w rs Hl H.
  - simpl in H; inversion H; subst; exists []; rewrite app_nil_r.
    repeat split; [constructor|simpl; now rewrite set_problem_same].
  - simpl seq in H; simpl for_each in H.
    apply bind_inv in H; destruct H as [r [w1 [Hpoint H]]].
    apply bind_inv in H; destruct H as [rs' [w2 [Hrest H]]].
    unfold ret in H; inversion H; subst rs w2; clear H.
    unfold solve_point in Hpoint.
    next_lift Hpoint theta Hth. rewrite bind_update_self in Hpoint.
    next_lift Hpoint labels Hlab.
    destruct (choose_best_ok_calls _ _ _ _ _ Hpoint)
      as [learner' [cs1 [Hl' [-> [Hlen1 Hall1]]]]].
    change (_learner (self w) = Some learner') in Hl'.
    rewrite Hl in Hl'; inversion Hl'; subst learner'; clear Hl'.
    apply py_get_ok in Hth.
    assert (Hl1 : _learner
                    (self (extend
                             {| self := set_problem (populate (_problem (self w)) theta)
                                          (self w);
                                calls := calls w |} cs1)) = Some learner)
      by exact Hl.
    destruct (IH _ _ _ Hl1 Hrest) as [cs2 [Hc2 [Hlen2 [Hall2 Hself2]]]].
    exists (cs1 ++ cs2); split; [|split; [|split]].
    + rewrite Hc2; unfold extend; cbn [calls]; now rewrite app_assoc.
    + rewrite length_app, Hlen1, Hlen2; simpl; lia.
    + apply Forall_app; split; assumption.
    + rewrite Hself2; unfold extend; cbn [self].
      rewrite problem_set_problem, set_problem_twice.
      rewrite (skipn_nth_error X k theta Hth); reflexivity.
Qed.

(** X7. Whenever [solve] returns, it has made exactly [n_best] solver calls
    for each point, none of them through ray, and the problem is the only
    field of the object that can have changed. *)
Theorem solve_calls_and_state (X : frame) (use_cache verbose : bool)
    (w w' : World) (out : solve_output) :
  solve X use_cache verbose w = (Ok out, w') ->
  exists learner cs,
    _learner (self w) = Some learner /\
    calls w' = calls w ++ cs /\
    length cs = length (frame_rows X) * learner_n_best learner /\
    Forall (fun c => call_is_ray c = false) cs /\
    exists p, self w' = set_problem p (self w).
Proof.
  unfold solve; intros H.
  set (rows := frame_rows X) in *.
  rewrite bind_get in H.
  destruct (use_cache && negb (truthy (_solver_cache (self w))))%bool;
    [discriminate|].
  set (p0 := if verbose then set_verbose (_problem (self w)) else _problem (self w)).
  assert (Hv : exists w1,
             (if verbose
              then update_self (fun o => set_problem (set_verbose (_problem o)) o)
              else ret tt) w = (Ok tt, w1) /\
             calls w1 = calls w /\ self w1 = set_problem p0 (self w)).
  { unfold p0; destruct verbose; eexists; split; try reflexivity.
    - split; reflexivity.
    - split; [reflexivity|]; cbn [self]; now rewrite set_problem_same. }
  destruct Hv as [w1 [Hv [Hc1 Hs1]]].
  rewrite (bind_ok _ _ w tt w1 Hv) in H.
  next_lift H learner Hl. cbv zeta in H.
  next_lift H t Ht.
  apply bind_inv in H; destruct H as [rs0 [w2 [Hloop H]]].
  assert (Hlearner : _learner (self w) = Some learner)
    by (destruct (_learner (self w)); inversion Hl; reflexivity).
  assert (Hl1 : _learner (self w1) = Some learner) by (rewrite Hs1; exact Hlearner).
  destruct (solve_loop_calls _ _ _ learner _ _ _ _ _ Hl1 Hloop)
    as [cs [Hc [Hlen [Hall Hself]]]].
  assert (Hw' : w' = w2).
  { destruct (length (map (append_predict_time t) rs0) =? 1).
    - next_lift H r Hr; inversion H; reflexivity.
    - inversion H; reflexivity. }
  subst w'; exists learner, cs; repeat split; try assumption.
  - now rewrite Hc, Hc1.
  - eexists; rewrite Hself, Hs1, set_problem_twice; reflexivity.
Qed.

(** ** Further properties of [cache_factors] *)


(** The entries built so far are those of the first strategies, each the
    factorization of the KKT matrix of its strategy for the problem populated
    with the first training point of that strategy. *)
Local Notation "'entries_of' w entries" :=
  (forall i entry, nth_error entries i = Some entry ->
     exists s theta p K,
       representative (self w) i = Ok (s, theta) /\
       kkt_of_strategy (_relax_disc_var (populate p theta)) s
         = (K, chain entry, inverse_data entry) /\
       factorized K = Ok (factors entry))
  (at level 10, w at level 9, entries at level 9).



Lemma rmap_then_map {A B C} (f : A -> res B) (g : B -> C) (l : list A) :
  rmap (fun a => rbind (f a) (fun b => Ok (g b))) l
  = match rmap f l with
    | Ok bs => Ok (map g bs)
    | Raise e => Raise e
    end.
Proof.
  induction l as [|a l IH]; simpl; [reflexivity|].
  destruct (f a) as [b|e]; simpl; [|reflexivity].
  rewrite IH; destruct (rmap f l); reflexivity.
Qed.

Lemma combine_map_Some {A B} (f : A -> option B -> solver_call)
    (l : list A) (es : list B) :
  map (fun sc => f (fst sc) (snd sc)) (combine l (map Some es))
  = map (fun se => f (fst se) (Some (snd se))) (combine l es).
Proof.
  revert es; induction l as [|a l IH]; intros [|e es]; simpl; try reflexivity.
  now rewrite IH.
Qed.

(** The list of caches that [choose_best] builds from a cache with one
    entry per strategy: the entries at the labels. *)
Lemma aligned_cache_for (o : Optimizer) (enc : list Strategy)
    (entries : list kkt_cache) (labels : list Z) (strategies : list Strategy)
    (n_best : nat) :
  encoding o = Some enc ->
  _solver_cache o = Some entries ->
  length entries = length enc ->
  labels <> [] ->
  decode_labels o labels = Ok strategies ->
  exists es,
    rmap (py_index entries) labels = Ok es /\
    cache_for o labels true n_best = Ok (map Some es).
Proof.
  intros Henc Hc Hlen Hne Hd.
  rewrite (decode_labels_encoding o enc labels Henc) in Hd.
  pose proof (rmap_ok_in_range _ _ _ Hd) as Hrange.
  destruct (rmap_py_index_good entries labels) as [es Hes].
  { intros l Hl; specialize (Hrange l Hl); unfold in_range in *; lia. }
  exists es; split; [exact Hes|].
  assert (Ht : truthy (_solver_cache o) = true).
  { rewrite Hc; destruct entries as [|e entries]; [|reflexivity].
    destruct labels as [|l labels]; [congruence|].
    specialize (Hrange l (or_introl eq_refl)); unfold in_range in Hrange.
    simpl in Hlen; lia. }
  unfold cache_for; rewrite Ht, Hc; cbn [andb not_none rbind].
  rewrite (rmap_then_map (py_index entries) Some labels), Hes; reflexivity.
Qed.

(** X9. With a cache of one entry per strategy of the encoding and
    [use_cache] set, [choose_best] on a list of [n_best] valid labels
    returns after these solver calls: on the sequential path one call per
    candidate, in rank order, with the strategy and the cache entry at the
    label of the candidate; on the parallel path one call per candidate
    with its strategy and, each time, the whole list of these entries. *)
Theorem aligned_cache_lookup (w : World) (enc : list Strategy)
    (entries : list kkt_cache) (labels : list Z) (strategies : list Strategy)
    (parallel : bool) (learner : Learner) :
  _learner (self w) = Some learner ->
  encoding (self w) = Some enc ->
  _solver_cache (self w) = Some entries ->
  length entries = length enc ->
  labels <> [] ->
  length labels = learner_n_best learner ->
  decode_labels (self w) labels = Ok strategies ->
  exists es r,
    rmap (py_index enc) labels = Ok strategies /\
    rmap (py_index entries) labels = Ok es /\
    choose_best labels parallel true w =
    (Ok r,
     extend w
       (if parallel
        then map (fun s => CallSolveRay (_problem (self w)) s (map Some es))
                 strategies
        else map (fun se => CallSolve (_problem (self w)) (fst se) (Some (snd se)))
                 (combine strategies es))).
Proof.
  intros Hl Henc Hc Hlen Hne Hn Hd.
  destruct (aligned_cache_for (self w) enc entries labels strategies
              (learner_n_best learner) Henc Hc Hlen Hne Hd) as [es [Hes Hcache]].
  destruct (choose_best_certified w labels parallel true learner strategies
              (map Some es) Hl Hne Hn Hd Hcache) as [i [r [cs [Hrun _]]]].
  pose proof (choose_best_run_calls w labels parallel true learner strategies
                (map Some es) Hl Hn Hd Hcache) as Hcalls.
  assert (Hr : store_best strategies
                 (unzip (outcomes (_problem (self w)) parallel strategies
                           (map Some es))) = Ok r)
    by (rewrite Hcalls in Hrun; now inversion Hrun).
  exists es, r.
  split; [now rewrite <- (decode_labels_encoding (self w) enc labels Henc)|].
  split; [exact Hes|].
  rewrite Hcalls, Hr; destruct parallel; [reflexivity|].
  now rewrite (combine_map_Some (CallSolve (_problem (self w)))).
Qed.

(** ** Further properties of [get_samples] and [train] *)

Lemma same_core_refl (o : Optimizer) : same_core o o.
Proof. repeat split. Qed.

Lemma keeps_ret {A} (a : A) : keeps_core (ret a : Meth A).
Proof. intros w; apply same_core_refl. Qed.

Lemma keeps_raise {A} (e : exn) : keeps_core (raise e : Meth A).
Proof. intros w; apply same_core_refl. Qed.

Lemma keeps_lift {A} (r : res A) : keeps_core (lift r : Meth A).
Proof. intros w; apply same_core_refl. Qed.

Lemma keeps_update (f : Optimizer -> Optimizer) :
  (forall o, same_core o (f o)) -> keeps_core (update_self f).
Proof. intros H w; apply H. Qed.

Lemma keeps_bind {A B} (m : Meth A) (f : A -> Meth B) :
  keeps_core m -> (forall a, keeps_core (f a)) -> keeps_core (bind m f).
Proof.
  intros Hm Hf w; specialize (Hm w); unfold bind.
  destruct (m w) as [[a|e] w1]; cbn [snd] in *; [|exact Hm].
  specialize (Hf a w1).
  destruct Hm as [H1 H2], Hf as [H3 H4].
  split; congruence.
Qed.

Lemma keeps_bind_get {A} (f : World -> Meth A) :
  (forall w, keeps_core (f w)) -> keeps_core (bind get f).
Proof. intros H w; rewrite bind_get; apply H. Qed.

Lemma keeps_sample (fn : SamplingFn) (parallel : bool) :
  keeps_core (sample fn parallel).
Proof.
  unfold sample; apply keeps_bind_get; intros w.
  destruct (sampler_sample _ _) as [s' [[X y] enc]].
  apply keeps_bind; [|intros _]; apply keeps_update; intros o; repeat split.
Qed.

Lemma keeps_filter_strategies (k : nat) (parallel : bool) :
  keeps_core (filter_strategies k parallel).
Proof.
  unfold filter_strategies; apply keeps_bind_get; intros w.
  apply keeps_bind; [apply keeps_update; intros o; repeat split|intros _].
  apply keeps_bind; [apply keeps_lift|intros obj].
  destruct (filter_run _ _ _) as [f' [y enc]].
  apply keeps_bind; [|intros _]; apply keeps_update; intros o; repeat split.
Qed.

Lemma keeps_use_new_data (X : list row) (parallel : bool) :
  keeps_core (use_new_data X parallel).
Proof.
  unfold use_new_data.
  apply keeps_bind; [apply keeps_update; intros o; repeat split|intros _].
  apply keeps_bind_get; intros w; cbv zeta.
  destruct (0 <? _); [apply keeps_raise|].
  apply keeps_bind; [apply keeps_update; intros o; repeat split|intros _].
  apply keeps_bind; [apply keeps_lift|intros strategies].
  apply keeps_bind;
    [destruct (forallb _ _); [apply keeps_ret|apply keeps_raise]|intros _].
  destruct (encode_strategies strategies) as [y enc].
  apply keeps_bind; [|intros _]; apply keeps_update; intros o; repeat split.
Qed.

Lemma keeps_get_samples (X : option (list row))
    (sampling_fn : option SamplingFn) (parallel filter_flag : bool) :
  keeps_core (get_samples X sampling_fn parallel filter_flag).
Proof.
  unfold get_samples; apply keeps_bind_get; intros w0.
  destruct (_ && _ && _)%bool; [apply keeps_raise|].
  destruct (_ && _)%bool; [apply keeps_raise|].
  apply keeps_bind.
  - destruct X as [X|]; [apply keeps_use_new_data|].
    destruct sampling_fn as [fn|]; [|apply keeps_ret].
    destruct (negb _); [apply keeps_sample|apply keeps_ret].
  - intros _; apply keeps_bind_get; intros w1.
    apply keeps_bind; [apply keeps_lift|intros enc].
    destruct (_ && _)%bool; [apply keeps_filter_strategies|apply keeps_ret].
Qed.

(** X10. Whatever its arguments and whether it returns or raises,
    [get_samples] changes neither the factorization cache nor the learner of
    the object: a cache built for an earlier encoding stays in place when the
    data, and with them the encoding, are replaced. *)
Theorem get_samples_keeps_cache_and_learner (X : option (list row))
    (sampling_fn : option SamplingFn) (parallel filter_flag : bool) (w : World) :
  _solver_cache (self (snd (get_samples X sampling_fn parallel filter_flag w)))
    = _solver_cache (self w) /\
  _learner (self (snd (get_samples X sampling_fn parallel filter_flag w)))
    = _learner (self w).
Proof. apply keeps_get_samples. Qed.

(** X11. When the problem is not QP-representable, [train] builds no
    factorization cache; an optimizer that had none then raises, from [solve]
    called with [use_cache=True] (its default), the ValueError of the missing
    cache, on any data. *)
Theorem train_without_cache_then_solve (X : option (list row))
    (sampling_fn : option SamplingFn) (parallel filter_flag : bool)
    (learner : string) (learner_options : LearnerOptions) (w w' : World)
    (data : frame) (verbose : bool) :
  train X sampling_fn parallel learner filter_flag learner_options w = (Ok tt, w') ->
  is_qp (_problem (self (snd (get_samples X sampling_fn parallel filter_flag w))))
    = false ->
  _solver_cache (self w) = None ->
  _solver_cache (self w') = None /\
  solve data true verbose w' = (Raise (ValueError CacheNotComputed), w').
Proof.
  intros H Hqp Hnone.
  assert (Hc : _solver_cache (self w') = None).
  { unfold train in H.
    apply bind_inv in H; destruct H as [u [w1 [Hg H]]].
    pose proof (keeps_get_samples X sampling_fn parallel filter_flag w) as [Hk _].
    rewrite Hg in Hk, Hqp; cbn [snd] in Hk, Hqp.
    rewrite bind_get in H.
    next_lift H make Hm. next_lift H Xt HX. next_lift H n_input Hn.
    next_lift H enc He. cbv zeta in H.
    rewrite !bind_update_self in H; cbn [self calls] in H.
    rewrite Hqp in H; unfold ret in H; inversion H; subst w'; clear H.
    cbn [self]; change (_solver_cache (self w1) = None); congruence. }
  split; [exact Hc|].
  unfold solve; rewrite bind_get, Hc; reflexivity.
Qed.

Lemma rmap_key_strategies (results : list (full_result Strategy))
    (strategies : list Strategy) :
  map (@fr_strategy _) results = map Some strategies ->
  rmap (fun r => key "strategy" (fr_strategy r)) results = Ok strategies.
Proof.
  revert strategies; induction results as [|r results IH];
    intros [|s strategies] H; simpl in H; try discriminate; [reflexivity|].
  inversion H as [[H1 H2]]; simpl; rewrite H1; simpl.
  rewrite (IH strategies H2); reflexivity.
Qed.

Lemma no_infeasible_point (results : list (full_result Strategy))
    (strategies : list Strategy) :
  map (@fr_strategy _) results = map Some strategies ->
  filter (fun r => negb (is_some (fr_strategy r))) results = [].
Proof.
  revert strategies; induction results as [|r results IH];
    intros [|s strategies] H; simpl in H; try discriminate; [reflexivity|].
  inversion H as [[H1 H2]]; simpl; rewrite H1; simpl; now apply (IH strategies).
Qed.

(** The state [use_new_data] leaves when every point is feasible. *)
Lemma use_new_data_feasible (X : list row) (parallel : bool) (w : World)
    (strategies : list Strategy) (y : list Z) (enc : list Strategy) :
  map (@fr_strategy _) (solve_parametric (_problem (self w)) X parallel)
    = map Some strategies ->
  forallb (@fr_solution_present _) (solve_parametric (_problem (self w)) X parallel)
    = true ->
  encode_strategies strategies = (y, enc) ->
  use_new_data X parallel w =
  (Ok tt,
   {| self := set_sampler
                (Some (compute_good_turing
                         (new_sampler (_problem (self w)) (length X)) (Some y)))
                (set_samples (Some X) (Some y) (Some enc)
                   (set_obj_train
                      (Some (map (@fr_cost _)
                               (solve_parametric (_problem (self w)) X parallel)))
                      (set_samples (Some X) None None (self w))));
      calls := calls w |}).
Proof.
  intros Hs Hp He; unfold use_new_data.
  rewrite bind_update_self, bind_get; cbn [self calls]; cbv zeta.
  change (_problem (set_samples (Some X) None None (self w)))
    with (_problem (self w)).
  rewrite (no_infeasible_point _ _ Hs); cbn [length Nat.ltb Nat.leb].
  rewrite bind_update_self; cbn [self calls].
  rewrite (bind_lift_ok _ _ _ strategies (rmap_key_strategies _ _ Hs)).
  rewrite Hp; cbv iota.
  rewrite (bind_ok (ret tt) _ _ tt _ eq_refl), He; cbv beta iota.
  rewrite !bind_update_self; reflexivity.
Qed.

(** X12. When the full solve of every point of the data yields a strategy
    and a solution, [get_samples] returns; the object holds the data, the
    costs of the points in the order of the data, and the labels and the
    encoding that [encode_strategies] gives for their strategies; when the
    encoding has more than [K_MAX_STRATEGIES] strategies and filtering is
    asked for, these labels and encoding are kept as the full ones and
    replaced by those the filter returns. *)
Theorem get_samples_feasible (X : list row) (parallel filter_flag : bool)
    (w : World) (strategies : list Strategy) :
  map (@fr_strategy _) (solve_parametric (_problem (self w)) X parallel)
    = map Some strategies ->
  forallb (@fr_solution_present _) (solve_parametric (_problem (self w)) X parallel)
    = true ->
  exists w',
    get_samples (Some X) None parallel filter_flag w = (Ok tt, w') /\
    X_train (self w') = Some X /\
    obj_train (self w')
      = Some (map (@fr_cost _) (solve_parametric (_problem (self w)) X parallel)) /\
    if ((K_MAX_STRATEGIES <? length (snd (encode_strategies strategies)))%nat
        && filter_flag)%bool
    then
      y_train_full (self w') = Some (fst (encode_strategies strategies)) /\
      encoding_full (self w') = Some (snd (encode_strategies strategies)) /\
      exists f y' enc',
        filter_run
          (new_filter (Some X) (Some (fst (encode_strategies strategies)))
             (map (@fr_cost _) (solve_parametric (_problem (self w)) X parallel))
             (Some (snd (encode_strategies strategies))) (_problem (self w)))
          K_MAX_STRATEGIES true = (f, (y', enc')) /\
        y_train (self w') = Some y' /\ encoding (self w') = Some enc' /\
        _filter (self w') = Some f
    else
      y_train (self w') = Some (fst (encode_strategies strategies)) /\
      encoding (self w') = Some (snd (encode_strategies strategies)) /\
      encoding_full (self w') = encoding_full (self w).
Proof.
  intros Hs Hp.
  destruct (encode_strategies strategies) as [y enc] eqn:He; cbn [fst snd].
  pose proof (use_new_data_feasible X parallel w strategies y enc Hs Hp He) as Hu.
  unfold get_samples; rewrite bind_get; cbn [is_some negb andb].
  rewrite (bind_ok _ _ _ _ _ Hu), bind_get; cbn [self].
  rewrite (bind_lift_ok _ _ _ enc eq_refl).
  destruct ((K_MAX_STRATEGIES <? length enc)%nat && filter_flag)%bool.
  - unfold filter_strategies; rewrite bind_get, bind_update_self; cbn [self calls].
    cbn [obj_train X_train y_train encoding _problem set_sampler set_samples
         set_obj_train set_full attr].
    rewrite (bind_lift_ok (Ok _) _ _ _ eq_refl).
    destruct (filter_run _ _ _) as [f [y' enc']] eqn:Hf.
    rewrite !bind_update_self; cbn [self calls].
    eexists; split; [reflexivity|]; cbn [self].
    repeat split; try reflexivity.
    exists f, y', enc'; repeat split; exact Hf.
  - eexists; split; [reflexivity|]; repeat split; reflexivity.
Qed.

(** X13. When every point of the data has a strategy but the status of one
    of them is not a solution status, [get_samples] raises AssertionError
    after the costs have been stored: the object is left with the new data
    and costs, and without labels or encoding. *)
Theorem get_samples_status_assertion (X : list row) (parallel filter_flag : bool)
    (w : World) (strategies : list Strategy) :
  map (@fr_strategy _) (solve_parametric (_problem (self w)) X parallel)
    = map Some strategies ->
  forallb (@fr_solution_present _) (solve_parametric (_problem (self w)) X parallel)
    = false ->
  exists w',
    get_samples (Some X) None parallel filter_flag w = (Raise AssertionError, w') /\
    X_train (self w') = Some X /\
    obj_train (self w')
      = Some (map (@fr_cost _) (solve_parametric (_problem (self w)) X parallel)) /\
    y_train (self w') = None /\ encoding (self w') = None.
Proof.
  intros Hs Hp.
  eexists; split.
  - unfold get_samples; rewrite bind_get; cbn [is_some negb andb].
    apply bind_raise.
    unfold use_new_data.
    rewrite bind_update_self, bind_get; cbn [self calls]; cbv zeta.
    change (_problem (set_samples (Some X) None None (self w)))
      with (_problem (self w)).
    rewrite (no_infeasible_point _ _ Hs); cbn [length Nat.ltb Nat.leb].
    rewrite bind_update_self; cbn [self calls].
    rewrite (bind_lift_ok _ _ _ strategies (rmap_key_strategies _ _ Hs)).
    rewrite Hp; apply bind_raise; reflexivity.
  - repeat split; reflexivity.
Qed.

(** ** Further properties of [accuracy] and [suboptimality] *)

Lemma accuracy_step_at (pp ps : list result) (tp ts : list (full_result Strategy))
    (p : result) (t : full_result Strategy) (done rest : list Z) :
  length pp = length tp -> length done = length pp ->
  accuracy_step (pp ++ p :: ps) (tp ++ t :: ts) (length pp) (done ++ 0%Z :: rest) =
  match fr_strategy t with
  | Some _ => Ok (done ++ (if correct_at (p, t) then 1%Z else 0%Z) :: rest)
  | None => Raise (KeyError "strategy")
  end.
Proof.
  intros Hp Hd; unfold accuracy_step.
  replace (py_get (pp ++ p :: ps) (length pp)) with (Ok p : res result)
    by (symmetry; apply py_get_ok; rewrite nth_error_app2, Nat.sub_diag;
        [reflexivity|lia]).
  replace (py_get (tp ++ t :: ts) (length pp)) with (Ok t : res (full_result Strategy))
    by (symmetry; apply py_get_ok; rewrite Hp, nth_error_app2, Nat.sub_diag;
        [reflexivity|lia]).
  cbn [rbind]; unfold correct_at, correct_point; cbn [fst snd].
  destruct (fr_strategy t) as [s_test|]; [|reflexivity]; cbn [key rbind].
  rewrite <- Hd, np_set_app.
  fold (suboptimality (r_cost p) (fr_cost t)).
  destruct (strategy_eqb (r_strategy p) s_test); simpl; [reflexivity|].
  destruct (Qleb (r_infeasibility p) INFEAS_TOL); simpl; [|reflexivity].
  destruct (Qleb (suboptimality (r_cost p) (fr_cost t)) SUBOPT_TOL); reflexivity.
Qed.

Lemma accuracy_loop_missing (pp ps : list result) (tp ts : list (full_result Strategy))
    (done : list Z) :
  length pp = length tp -> length done = length pp -> length ps = length ts ->
  (exists t, In t ts /\ fr_strategy t = None) ->
  rfor (accuracy_step (pp ++ ps) (tp ++ ts)) (seq (length pp) (length ps))
       (done ++ repeat 0%Z (length ps)) = Raise (KeyError "strategy").
Proof.
  revert pp tp ts done; induction ps as [|p ps IH]; intros pp tp ts done Hp Hd Hs Hmiss.
  - destruct ts; [|discriminate]. destruct Hmiss as [t [[] _]].
  - destruct ts as [|t ts]; [discriminate|]; simpl in Hs.
    simpl seq; simpl rfor; simpl repeat.
    rewrite (accuracy_step_at pp ps tp ts p t done _ Hp Hd).
    destruct (fr_strategy t) as [s|] eqn:Hst; [|reflexivity].
    cbn [rbind].
    specialize (IH (pp ++ [p]) (tp ++ [t]) ts
                   (done ++ [if correct_at (p, t) then 1%Z else 0%Z])).
    rewrite <- !app_assoc in IH; simpl in IH.
    rewrite length_app in IH; simpl in IH; rewrite Nat.add_1_r in IH.
    apply IH.
    + rewrite !length_app; simpl; lia.
    + rewrite !length_app; simpl; lia.
    + lia.
    + destruct Hmiss as [t' [[<-|Hin] Hnone]]; [congruence|eauto].
Qed.

(** X14. [accuracy] raises AssertionError when the two sequences differ in
    length, and KeyError('strategy') when they have the same length and one
    of the true results carries no strategy (the result of a point that
    could not be solved). *)
Theorem accuracy_failures (results_pred : list result)
    (results_test : list (full_result Strategy)) :
  (length results_pred <> length results_test ->
   accuracy results_pred results_test = Raise AssertionError) /\
  (length results_pred = length results_test ->
   (exists t, In t results_test /\ fr_strategy t = None) ->
   accuracy results_pred results_test = Raise (KeyError "strategy")).
Proof.
  split.
  - intros Hne; unfold accuracy.
    apply Nat.eqb_neq in Hne; rewrite Hne; reflexivity.
  - intros Hlen Hmiss; unfold accuracy.
    rewrite Hlen, Nat.eqb_refl; cbn [negb].
    pose proof (accuracy_loop_missing [] results_pred [] results_test [] eq_refl
                  eq_refl Hlen Hmiss) as H.
    simpl in H; rewrite <- Hlen, H; reflexivity.
Qed.

Lemma all_or_missing (results_test : list (full_result Strategy)) :
  (forall t, In t results_test -> fr_strategy t <> None) \/
  (exists t, In t results_test /\ fr_strategy t = None).
Proof.
  induction results_test as [|t l [IH|[t' [Hin Hn]]]].
  - left; intros t [].
  - destruct (fr_strategy t) eqn:Ht.
    + left; intros t' [<-|Hin]; [congruence|now apply IH].
    + right; exists t; split; [now left|exact Ht].
  - right; exists t'; split; [now right|exact Hn].
Qed.

(** What [accuracy] returns, when it returns. *)
Lemma accuracy_returns (results_pred : list result)
    (results_test : list (full_result Strategy)) (a : option Q) (idx : list Z) :
  accuracy results_pred results_test = Ok (a, idx) ->
  length results_pred = length results_test /\
  a = fraction_correct results_pred results_test /\
  idx = map (fun pt => if correct_at pt then 1%Z else 0%Z)
            (combine results_pred results_test).
Proof.
  intros H.
  destruct (Nat.eq_dec (length results_pred) (length results_test)) as [Hlen|Hne].
  - split; [exact Hlen|].
    destruct (all_or_missing results_test) as [Hall|Hmiss].
    + pose proof (accuracy_loop [] results_pred [] results_test [] eq_refl eq_refl
                    Hlen Hall) as Hloop.
      unfold accuracy in H; rewrite Hlen, Nat.eqb_refl in H; cbn [negb] in H.
      simpl in Hloop; rewrite <- Hlen, Hloop in H; cbn [rbind] in H.
      inversion H; split; [|reflexivity].
      unfold int_div, fraction_correct; now rewrite np_sum_int_flags.
    + pose proof (accuracy_loop_missing [] results_pred [] results_test [] eq_refl
                    eq_refl Hlen Hmiss) as Hloop.
      unfold accuracy in H; rewrite Hlen, Nat.eqb_refl in H; cbn [negb] in H.
      simpl in Hloop; rewrite <- Hlen, Hloop in H; discriminate.
  - unfold accuracy in H; apply Nat.eqb_neq in Hne; rewrite Hne in H; discriminate.
Qed.

Lemma fraction_bounds (count n : nat) :
  count <= n -> 0 < n ->
  (0 <= inject_Z (Z.of_nat count) / inject_Z (Z.of_nat n) <= 1)%Q.
Proof.
  intros Hle Hpos.
  assert (Hn : (0 < inject_Z (Z.of_nat n))%Q)
    by (change 0%Q with (inject_Z 0); rewrite <- Zlt_Qlt; lia).
  split.
  - apply Qle_shift_div_l; [exact Hn|]. rewrite Qmult_0_l.
    change 0%Q with (inject_Z 0); rewrite <- Zle_Qle; lia.
  - apply Qle_shift_div_r; [exact Hn|]. rewrite Qmult_1_l.
    rewrite <- Zle_Qle; lia.
Qed.

(** X15. Whenever [accuracy] returns, the vector it returns has one entry
    per test point, each 0 or 1, and the accuracy is either numpy's nan, when
    there is no test point, or a number between 0 and 1. *)
Theorem accuracy_range (results_pred : list result)
    (results_test : list (full_result Strategy)) (a : option Q) (idx : list Z) :
  accuracy results_pred results_test = Ok (a, idx) ->
  length idx = length results_pred /\
  Forall (fun c => c = 0%Z \/ c = 1%Z) idx /\
  match a with
  | None => results_pred = []
  | Some q => results_pred <> [] /\ (0 <= q <= 1)%Q
  end.
Proof.
  intros H; destruct (accuracy_returns _ _ _ _ H) as [Hlen [-> ->]].
  split; [|split].
  - rewrite length_map, length_combine; lia.
  - apply Forall_forall; intros c Hc; apply in_map_iff in Hc.
    destruct Hc as [pt [<- _]]; destruct (correct_at pt); auto.
  - unfold fraction_correct.
    destruct results_pred as [|r l] eqn:Hr; [reflexivity|].
    rewrite <- Hr in *; replace (length results_pred =? 0) with false
      by (rewrite Hr; reflexivity).
    split; [rewrite Hr; discriminate|].
    apply fraction_bounds; [|rewrite Hr; simpl; lia].
    eapply Nat.le_trans; [apply filter_length_le|].
    rewrite length_combine; lia.
Qed.

Lemma suboptimality_denominator (cost_test : Q) :
  (0 < Qabs cost_test + (1 # 10000000000))%Q.
Proof.
  apply Qlt_le_trans with (0 + (1 # 10000000000))%Q; [reflexivity|].
  apply Qplus_le_l, Qabs_nonneg.
Qed.

Lemma suboptimality_sign_le (cost_pred cost_test : Q) :
  (cost_pred <= cost_test)%Q -> (suboptimality cost_pred cost_test <= 0)%Q.
Proof.
  intros H; unfold suboptimality.
  apply Qle_shift_div_r; [apply suboptimality_denominator|]. rewrite Qmult_0_l.
  apply Qplus_le_l with (z := (- cost_test)%Q) in H.
  now rewrite Qplus_opp_r in H.
Qed.

(** X16. The suboptimality has the sign of the difference of the costs: it
    is negative or null exactly when the predicted cost is at most the true
    one, positive or null exactly when it is at least the true one. *)
Theorem suboptimality_sign (cost_pred cost_test : Q) :
  ((suboptimality cost_pred cost_test <= 0)%Q <-> (cost_pred <= cost_test)%Q) /\
  ((0 <= suboptimality cost_pred cost_test)%Q <-> (cost_test <= cost_pred)%Q).
Proof.
  pose proof (suboptimality_denominator cost_test) as Hd.
  unfold suboptimality; split; split; intros H.
  - apply (Qmult_le_r _ _ _ Hd) in H.
    rewrite Qmult_0_l in H. unfold Qdiv in H.
    rewrite <- Qmult_assoc, (Qmult_comm (/ _)), Qmult_inv_r, Qmult_1_r in H
      by (intros Hz; rewrite Hz in Hd; discriminate).
    apply Qplus_le_l with (z := (- cost_test)%Q).
    now rewrite Qplus_opp_r.
  - apply Qle_shift_div_r; [exact Hd|]. rewrite Qmult_0_l.
    apply Qplus_le_l with (z := (- cost_test)%Q) in H.
    now rewrite Qplus_opp_r in H.
  - apply (Qmult_le_r _ _ _ Hd) in H.
    rewrite Qmult_0_l in H. unfold Qdiv in H.
    rewrite <- Qmult_assoc, (Qmult_comm (/ _)), Qmult_inv_r, Qmult_1_r in H
      by (intros Hz; rewrite Hz in Hd; discriminate).
    apply Qplus_le_l with (z := (- cost_test)%Q).
    now rewrite Qplus_opp_r.
  - apply Qle_shift_div_l; [exact Hd|]. rewrite Qmult_0_l.
    apply Qplus_le_l with (z := (- cost_test)%Q) in H.
    now rewrite Qplus_opp_r in H.
Qed.

Lemma in_combine_right {A B} (l : list A) (l' : list B) (b : B) :
  length l = length l' -> In b l' -> exists a, In (a, b) (combine l l').
Proof.
  revert l'; induction l as [|a l IH]; intros [|b' l'] Hlen Hin;
    simpl in *; try discriminate; [destruct Hin|].
  destruct Hin as [->|Hin]; [exists a; now left|].
  destruct (IH l') as [a' Ha']; [lia|exact Hin|exists a'; now right].
Qed.

Lemma filter_all {A} (f : A -> bool) (l : list A) :
  (forall a, In a l -> f a = true) -> filter f l = l.
Proof.
  induction l as [|a l IH]; intros H; simpl; [reflexivity|].
  rewrite (H a (or_introl eq_refl)), IH; [reflexivity|].
  intros; apply H; now right.
Qed.

(** X17. When the tolerance on the suboptimality is not negative and, at
    every test point, the true result carries a strategy and the prediction
    either has that strategy or is feasible within [INFEAS_TOL] at a cost not
    above the true one, every point is flagged correct and the accuracy
    is 1. *)
Theorem accuracy_all_correct (results_pred : list result)
    (results_test : list (full_result Strategy)) :
  length results_pred = length results_test ->
  results_pred <> [] ->
  (0 <= SUBOPT_TOL)%Q ->
  (forall p t, In (p, t) (combine results_pred results_test) ->
     exists s, fr_strategy t = Some s /\
       (strategy_eqb (r_strategy p) s = true \/
        ((r_infeasibility p <= INFEAS_TOL)%Q /\ (r_cost p <= fr_cost t)%Q))) ->
  exists q idx,
    accuracy results_pred results_test = Ok (Some q, idx) /\
    (q == 1)%Q /\
    length idx = length results_pred /\
    Forall (fun c => c = 1%Z) idx.
Proof.
  intros Hlen Hne Htol Hall.
  assert (Hcorrect : forall pt, In pt (combine results_pred results_test) ->
                                correct_at pt = true).
  { intros [p t] Hin; destruct (Hall p t Hin) as [s [Hs Hc]].
    unfold correct_at, correct_point; cbn [fst snd]; rewrite Hs.
    destruct Hc as [Heq|[Hfeas Hcost]]; [rewrite Heq; reflexivity|].
    apply orb_true_iff; right; apply andb_true_iff; split.
    - now apply Qleb_le.
    - apply Qleb_le. apply Qle_trans with 0%Q; [|exact Htol].
      fold (suboptimality (r_cost p) (fr_cost t)).
      now apply suboptimality_sign_le. }
  assert (Hstrat : forall t, In t results_test -> fr_strategy t <> None).
  { intros t Hin; destruct (in_combine_right results_pred results_test t Hlen Hin)
      as [p Hp].
    destruct (Hall p t Hp) as [s [Hs _]]; congruence. }
  pose proof (accuracy_loop [] results_pred [] results_test [] eq_refl eq_refl
                Hlen Hstrat) as Hloop.
  simpl in Hloop.
  assert (Hn : length results_pred <> 0)
    by (destruct results_pred; [congruence|discriminate]).
  eexists; eexists; split; [|split; [|split]].
  - unfold accuracy; rewrite Hlen, Nat.eqb_refl; cbn [negb].
    rewrite <- Hlen, Hloop; cbn [rbind]; unfold int_div.
    apply Nat.eqb_neq in Hn; rewrite Hn; reflexivity.
  - rewrite np_sum_int_flags, (filter_all _ _ Hcorrect), length_combine.
    rewrite <- Hlen, Nat.min_id.
    apply Qmult_inv_r.
    change 0%Q with (inject_Z 0); rewrite inject_Z_injective; lia.
  - rewrite length_map, length_combine; lia.
  - apply Forall_forall; intros c Hc; apply in_map_iff in Hc.
    destruct Hc as [pt [<- Hin]]; now rewrite (Hcorrect pt Hin).
Qed.

(** ** Further properties of [performance] *)

(** What [performance] has computed when it returns. *)
Lemma performance_returns (theta : list row) (parallel use_cache : bool)
    (w w' : World) (s : summary) (d : detail) :
  performance theta parallel use_cache w = (Ok (s, d), w') ->
  exists results_pred w1 a,
    solve (DataFrame theta) use_cache false w = (Ok (Many results_pred), w1) /\
    accuracy results_pred (solve_parametric (_problem (self w)) theta parallel)
      = Ok (a, d_correct d) /\
    s_n_test s = length theta /\
    s_n_correct s = np_sum_int (d_correct d) /\
    s_accuracy s = option_map (Qmult 100) a /\
    d_time_full d
      = map (@fr_time _) (solve_parametric (_problem (self w)) theta parallel) /\
    d_time_pred d = map r_time results_pred /\
    s_avg_time_improv s
      = nan_div (np_mean (d_time_full d)) (np_mean (d_time_pred d)).
Proof.
  intros H.
  unfold performance in H; rewrite bind_get in H; cbv zeta in H.
  apply bind_inv in H; destruct H as [out [w1 [Hsolve H]]].
  next_lift H results_pred Hit.
  next_lift H solve_time_pred Hst.
  next_lift H pred_time_pred Hpt.
  rewrite bind_get in H.
  next_lift H learner Hl.
  next_lift H n_theta Hnt.
  next_lift H enc Henc.
  next_lift H time_comp Htc.
  next_lift H subopt Hsub.
  next_lift H acc Hacc.
  destruct acc as [test_accuracy idx_correct].
  next_lift H max_test Hmt.
  next_lift H max_pred Hmp.
  next_lift H sampler Hsam.
  next_lift H feas_subopt Hfs.
  next_lift H max_infeas Hmi.
  next_lift H max_subopt Hms.
  unfold ret in H; inversion H; subst s d w'; clear H; cbn.
  destruct out as [r|rs]; [discriminate|].
  simpl in Hit; inversion Hit; subst rs.
  exists results_pred, w1, test_accuracy; repeat split; assumption.
Qed.

(** X18. [performance] needs a test set of at least two points. It
    returns only on such a set: on a frame without rows [solve] raises, and
    on a frame of one row [solve] returns a single dictionary, over which
    the comprehensions of [performance] raise TypeError. *)
Theorem performance_needs_two_points (theta : list row) (parallel use_cache : bool)
    (w : World) :
  (forall s d w', performance theta parallel use_cache w = (Ok (s, d), w') ->
                  2 <= length theta) /\
  (forall out w1, length theta = 1 ->
                  solve (DataFrame theta) use_cache false w = (Ok out, w1) ->
                  performance theta parallel use_cache w = (Raise TypeError, w1)).
Proof.
  split.
  - intros s d w' H.
    destruct (performance_returns _ _ _ _ _ _ _ H) as [rs [w1 [a [Hsolve _]]]].
    destruct (solve_returns_shape _ _ _ _ _ _ Hsolve)
      as [learner [_ [H1 [_ [H2 _]]]]].
    simpl in H1, H2; lia.
  - intros out w1 Hlen H.
    destruct (solve_returns_shape _ _ _ _ _ _ H) as [learner [_ [_ [_ [Hshape _]]]]].
    destruct out as [r|rs]; [|simpl in Hshape; congruence].
    unfold performance; rewrite bind_get; cbv zeta.
    rewrite (bind_ok _ _ _ _ _ H).
    apply bind_lift_raise; reflexivity.
Qed.

Lemma np_mean_ratio (a b : list Q) :
  length a = length b -> a <> [] ->
  exists q, nan_div (np_mean a) (np_mean b) = Some q /\
            (q == np_sum a / np_sum b)%Q.
Proof.
  intros Hlen Hne.
  destruct a as [|x a]; [congruence|]. destruct b as [|y b]; [discriminate|].
  unfold np_mean, nan_div; eexists; split; [reflexivity|].
  rewrite <- Hlen.
  set (n := inject_Z (Z.of_nat (length (x :: a)))).
  assert (Hn : ~ (n == 0)%Q).
  { unfold n; change 0%Q with (inject_Z 0); rewrite inject_Z_injective.
    simpl length; lia. }
  unfold Qdiv. rewrite Qinv_mult_distr, Qinv_involutive.
  rewrite <- Qmult_assoc, (Qmult_assoc (/ n)), (Qmult_comm (/ n)).
  rewrite <- (Qmult_assoc (/ np_sum (y :: b))), (Qmult_comm (/ n)).
  rewrite Qmult_inv_r by exact Hn.
  now rewrite Qmult_1_r.
Qed.

(** X19. Whenever [performance] returns, the reported average time
    improvement is the total of the true solve times over the total of the
    predicted times: the two means are taken over the same number of
    points. *)
Theorem avg_time_improv_is_ratio_of_totals (theta : list row)
    (parallel use_cache : bool) (w w' : World) (s : summary) (d : detail) :
  performance theta parallel use_cache w = (Ok (s, d), w') ->
  length (d_time_full d) = length (d_time_pred d) /\
  exists q, s_avg_time_improv s = Some q /\
            (q == np_sum (d_time_full d) / np_sum (d_time_pred d))%Q.
Proof.
  intros H.
  destruct (performance_returns _ _ _ _ _ _ _ H)
    as [rs [w1 [a [Hsolve [Hacc [_ [_ [_ [Hfull [Hpred Havg]]]]]]]]]].
  destruct (accuracy_returns _ _ _ _ Hacc) as [Hlen _].
  destruct (solve_returns_shape _ _ _ _ _ _ Hsolve) as [learner [_ [Hn [H1 _]]]].
  simpl in Hn, H1.
  assert (Hl : length (d_time_full d) = length (d_time_pred d))
    by (rewrite Hfull, Hpred, !length_map; lia).
  split; [exact Hl|]. rewrite Havg.
  apply np_mean_ratio; [exact Hl|].
  rewrite Hfull; intros Hnil; apply (f_equal (@length Q)) in Hnil.
  rewrite length_map in Hnil; simpl in Hnil; lia.
Qed.

(** X20. Whenever [performance] returns, the detail frame flags each test
    point 0 or 1, the number of correct points reported is the number of
    points flagged 1, at most the number of test points, and the accuracy
    reported is 100 times that number over the number of test points. *)
Theorem performance_accuracy_entries (theta : list row)
    (parallel use_cache : bool) (w w' : World) (s : summary) (d : detail) :
  performance theta parallel use_cache w = (Ok (s, d), w') ->
  length (d_correct d) = s_n_test s /\
  Forall (fun c => c = 0%Z \/ c = 1%Z) (d_correct d) /\
  s_n_correct s = Z.of_nat (length (filter (Z.eqb 1) (d_correct d))) /\
  (0 <= s_n_correct s <= Z.of_nat (s_n_test s))%Z /\
  s_accuracy s
    = Some (100 * (inject_Z (s_n_correct s) / inject_Z (Z.of_nat (s_n_test s))))%Q.
Proof.
  intros H.
  destruct (performance_returns _ _ _ _ _ _ _ H)
    as [rs [w1 [a [Hsolve [Hacc [Hn [Hc [Ha _]]]]]]]].
  destruct (accuracy_returns _ _ _ _ Hacc) as [Hlen [Hfrac Hidx]].
  destruct (solve_returns_shape _ _ _ _ _ _ Hsolve) as [learner [_ [Hn1 [H1 _]]]].
  simpl in Hn1, H1.
  assert (Hcount : np_sum_int (d_correct d)
                   = Z.of_nat (length (filter (Z.eqb 1) (d_correct d)))).
  { rewrite Hidx, np_sum_int_flags; f_equal.
    generalize (combine rs (solve_parametric (_problem (self w)) theta parallel)).
    intros l; induction l as [|pt l IH]; simpl; [reflexivity|].
    destruct (correct_at pt); simpl; now rewrite IH. }
  assert (Hlenidx : length (d_correct d) = length theta)
    by (rewrite Hidx, length_map, length_combine; lia).
  split; [congruence|]. split; [|split; [|split]].
  - rewrite Hidx; apply Forall_forall; intros c Hin; apply in_map_iff in Hin.
    destruct Hin as [pt [<- _]]; destruct (correct_at pt); auto.
  - congruence.
  - rewrite Hc, Hcount, Hn, <- Hlenidx.
    pose proof (filter_length_le (Z.eqb 1) (d_correct d)); lia.
  - rewrite Ha, Hfrac, Hc, Hn; unfold fraction_correct.
    replace (length rs =? 0) with false by (symmetry; apply Nat.eqb_neq; lia).
    cbn [option_map]. rewrite Hidx, np_sum_int_flags, H1; reflexivity.
Qed.

(** ** What [cache_factors] and [train] leave in place *)

Lemma same_training_refl (o : Optimizer) : same_training o o.
Proof. repeat split. Qed.

Lemma same_training_trans (o1 o2 o3 : Optimizer) :
  same_training o1 o2 -> same_training o2 o3 -> same_training o1 o3.
Proof.
  intros [H1 [H2 [H3 H4]]] [H5 [H6 [H7 H8]]]; repeat split; congruence.
Qed.

Lemma training_ret {A} (a : A) : keeps_training (ret a : Meth A).
Proof. intros w; apply same_training_refl. Qed.

Lemma training_lift {A} (r : res A) : keeps_training (lift r : Meth A).
Proof. intros w; apply same_training_refl. Qed.

Lemma training_update (f : Optimizer -> Optimizer) :
  (forall o, same_training o (f o)) -> keeps_training (update_self f).
Proof. intros H w; apply H. Qed.

Lemma training_bind {A B} (m : Meth A) (f : A -> Meth B) :
  keeps_training m -> (forall a, keeps_training (f a)) -> keeps_training (bind m f).
Proof.
  intros Hm Hf w; specialize (Hm w); unfold bind.
  destruct (m w) as [[a|e] w1]; cbn [snd] in *; [|exact Hm].
  exact (same_training_trans _ _ _ Hm (Hf a w1)).
Qed.

Lemma training_bind_get {A} (f : World -> Meth A) :
  (forall w, keeps_training (f w)) -> keeps_training (bind get f).
Proof. intros H w; rewrite bind_get; apply H. Qed.

Lemma training_for_loop {A} (body : A -> unit -> Meth unit) (l : list A) :
  (forall a u, keeps_training (body a u)) ->
  keeps_training (for_loop body l tt).
Proof.
  intros H; induction l as [|a l IH]; simpl; [apply training_ret|].
  apply training_bind; [apply H|intros []; exact IH].
Qed.

Lemma training_cache_one (idx : nat) : keeps_training (cache_one idx).
Proof.
  unfold cache_one; apply training_bind_get; intros w.
  apply training_bind; [apply training_lift|intros [strategy theta]].
  apply training_bind; [apply training_update; intros o; repeat split|intros _].
  apply training_bind; [apply training_update; intros o; repeat split|intros _].
  apply training_bind_get; intros w1.
  destruct (kkt_of_strategy _ _) as [[K ch] inv].
  apply training_bind; [apply training_lift|intros f].
  apply training_bind; [|intros _]; apply training_update; intros o; repeat split.
Qed.

Lemma training_cache_factors : keeps_training cache_factors.
Proof.
  unfold cache_factors.
  apply training_bind; [apply training_update; intros o; repeat split|intros _].
  apply training_bind.
  - unfold n_strategies; apply training_bind_get; intros w.
    destruct (encoding (self w)); intros w'; apply same_training_refl.
  - intros n; apply training_for_loop; intros a u; apply training_cache_one.
Qed.

(** What [cache_factors] has built when it returns. *)
Lemma cache_factors_returns (w w' : World) :
  cache_factors w = (Ok tt, w') ->
  exists enc entries,
    encoding (self w) = Some enc /\
    _solver_cache (self w') = Some entries /\
    length entries = length enc /\
    same_training (self w) (self w').
Proof.
  intros H.
  pose proof (training_cache_factors w) as Hk; rewrite H in Hk; cbn [snd] in Hk.
  unfold cache_factors in H; rewrite bind_update_self in H.
  unfold n_strategies in H; cbn [self] in H.
  apply bind_inv in H; destruct H as [n [w1 [Hn H]]].
  rewrite bind_get in Hn; cbn [self encoding set_solver_cache] in Hn.
  destruct (encoding (self w)) as [enc|] eqn:He; [|discriminate].
  unfold ret in Hn; inversion Hn; subst n w1; clear Hn.
  apply cache_loop_size in H; [|discriminate].
  destruct H as [Hsome Hsize]; unfold cache_size in Hsize; cbn in Hsize.
  destruct (_solver_cache (self w')) as [entries|] eqn:Hc; [|congruence].
  exists enc, entries; rewrite length_seq in Hsize; repeat split; try apply Hk.
  exact Hsize.
Qed.

(** What [train] has done when it returns. *)
Lemma train_returns (X : option (list row)) (sampling_fn : option SamplingFn)
    (parallel filter_flag : bool) (learner : string)
    (learner_options : LearnerOptions) (w w' : World) :
  train X sampling_fn parallel learner filter_flag learner_options w = (Ok tt, w') ->
  exists w1 make Xt n_input enc,
    get_samples X sampling_fn parallel filter_flag w = (Ok tt, w1) /\
    LEARNER_MAP learner = Some make /\
    X_train (self w1) = Some Xt /\
    n_features Xt = Ok n_input /\
    encoding (self w1) = Some enc /\
    (if is_qp (_problem (self w1)) then cache_factors else ret tt)
      {| self := set_learner
                   (Some (learner_train (make n_input (length enc) learner_options)
                            Xt (y_train (self w1))))
                   (self w1);
         calls := calls w1 |} = (Ok tt, w').
Proof.
  intros H; unfold train in H.
  apply bind_inv in H; destruct H as [[] [w1 [Hg H]]].
  rewrite bind_get in H.
  next_lift H make Hm. next_lift H Xt HX. next_lift H n_input Hn.
  next_lift H enc He. cbv zeta in H.
  rewrite !bind_update_self in H; cbn [self calls] in H.
  exists w1, make, Xt, n_input, enc; repeat split; try assumption.
  - destruct (LEARNER_MAP learner); [now inversion Hm|discriminate].
  - destruct (X_train (self w1)); [now inversion HX|discriminate].
  - destruct (encoding (self w1)); [now inversion He|discriminate].
Qed.

(** X21. Whenever [train] returns on a QP-representable problem, the object
    holds the learner trained on the stored data and a factorization cache
    with one entry per strategy of the encoding, which is the encoding
    [get_samples] left. *)
Theorem train_caches_every_strategy (X : option (list row))
    (sampling_fn : option SamplingFn) (parallel filter_flag : bool)
    (learner : string) (learner_options : LearnerOptions) (w w' : World) :
  train X sampling_fn parallel learner filter_flag learner_options w = (Ok tt, w') ->
  is_qp (_problem (self (snd (get_samples X sampling_fn parallel filter_flag w))))
    = true ->
  exists make Xt n_input enc entries,
    LEARNER_MAP learner = Some make /\
    X_train (self w') = Some Xt /\
    n_features Xt = Ok n_input /\
    encoding (self w') = Some enc /\
    encoding (self (snd (get_samples X sampling_fn parallel filter_flag w)))
      = Some enc /\
    _learner (self w')
      = Some (learner_train (make n_input (length enc) learner_options)
                Xt (y_train (self w'))) /\
    _solver_cache (self w') = Some entries /\
    length entries = length enc.
Proof.
  intros H Hqp.
  destruct (train_returns _ _ _ _ _ _ _ _ H)
    as [w1 [make [Xt [n_input [enc [Hg [Hm [HX [Hn [He Hc]]]]]]]]]].
  rewrite Hg in Hqp |- *; cbn [snd] in Hqp |- *.
  rewrite Hqp in Hc.
  destruct (cache_factors_returns _ _ Hc)
    as [enc' [entries [He' [Hcache [Hlen [H1 [H2 [H3 H4]]]]]]]].
  cbn [self encoding X_train y_train _learner set_learner] in He', H1, H2, H3, H4.
  assert (enc' = enc) by congruence; subst enc'.
  exists make, Xt, n_input, enc, entries; repeat split; try assumption; congruence.
Qed.

(** X22. With an unknown learner name [train] raises KeyError, and only
    after [get_samples] has returned: the training data of the call are
    stored in the object, whose learner and cache are those it had. *)
Theorem train_unknown_learner (X : option (list row))
    (sampling_fn : option SamplingFn) (parallel filter_flag : bool)
    (learner : string) (learner_options : LearnerOptions) (w w1 : World) :
  get_samples X sampling_fn parallel filter_flag w = (Ok tt, w1) ->
  LEARNER_MAP learner = None ->
  train X sampling_fn parallel learner filter_flag learner_options w
    = (Raise (KeyError learner), w1) /\
  _learner (self w1) = _learner (self w) /\
  _solver_cache (self w1) = _solver_cache (self w).
Proof.
  intros Hg Hm; split.
  - unfold train; rewrite (bind_ok _ _ _ _ _ Hg), bind_get.
    apply bind_lift_raise; rewrite Hm; reflexivity.
  - pose proof (keeps_get_samples X sampling_fn parallel filter_flag w) as [H1 H2].
    rewrite Hg in H1, H2; cbn [snd] in H1, H2; split; assumption.
Qed.

(** ** [get_samples] with a sampling function *)

(** X23. An optimizer that holds samples ignores the sampling function it
    is given: [get_samples] without data returns at once, the object
    untouched, unless the encoding has more than [K_MAX_STRATEGIES]
    strategies and filtering is on, in which case all it does is filter. *)
Theorem get_samples_reuses_samples (sampling_fn : option SamplingFn)
    (parallel filter_flag : bool) (w : World) (enc : list Strategy) :
  samples_present (self w) = true ->
  encoding (self w) = Some enc ->
  get_samples None sampling_fn parallel filter_flag w =
  if ((K_MAX_STRATEGIES <? length enc)%nat && filter_flag)%bool
  then filter_strategies K_MAX_STRATEGIES true w
  else (Ok tt, w).
Proof.
  intros Hp He; unfold get_samples; rewrite bind_get, Hp.
  rewrite andb_false_r; cbn [is_some andb negb].
  assert (Hbody : (match sampling_fn with
                   | Some fn => if false then sample fn parallel else ret tt
                   | None => ret tt
                   end : Meth unit) w = (Ok tt, w))
    by (destruct sampling_fn; reflexivity).
  rewrite (bind_ok _ _ _ _ _ Hbody), bind_get.
  rewrite (bind_lift_ok _ _ _ enc) by (rewrite He; reflexivity).
  destruct (_ && _)%bool; reflexivity.
Qed.

(** X24. Samples drawn with a sampling function cannot be filtered: the
    object has no [obj_train] (neither [__init__] nor [sample] sets it), so
    that [get_samples], when the sampled encoding has more than
    [K_MAX_STRATEGIES] strategies and filtering is on, raises AttributeError
    from [filter_strategies]; the samples and their backup are stored by
    then, no filter is. *)
Theorem get_samples_cannot_filter_sampled (fn : SamplingFn) (parallel : bool)
    (w : World) (s' : Sampler) (X : list row) (y : list Z) (enc : list Strategy) :
  samples_present (self w) = false ->
  obj_train (self w) = None ->
  sampler_sample (new_sampler_fn (_problem (self w)) fn) parallel
    = (s', (X, y, enc)) ->
  K_MAX_STRATEGIES < length enc ->
  exists w',
    get_samples None (Some fn) parallel true w = (Raise AttributeError, w') /\
    X_train (self w') = Some X /\
    y_train (self w') = Some y /\
    encoding (self w') = Some enc /\
    encoding_full (self w') = Some enc /\
    y_train_full (self w') = Some y /\
    _filter (self w') = _filter (self w).
Proof.
  intros Hp Hobj Hs Hk.
  unfold get_samples; rewrite bind_get, Hp; cbn [is_some andb negb].
  assert (Hsample : sample fn parallel w
                    = (Ok tt, {| self := set_samples (Some X) (Some y) (Some enc)
                                           (set_sampler (Some s') (self w));
                                 calls := calls w |}))
    by (unfold sample; rewrite bind_get, Hs; reflexivity).
  rewrite (bind_ok _ _ _ _ _ Hsample), bind_get; cbn [self calls].
  rewrite (bind_lift_ok _ _ _ enc) by reflexivity.
  replace (K_MAX_STRATEGIES <? length enc)%nat with true
    by (symmetry; apply Nat.ltb_lt; exact Hk).
  cbn [andb]; unfold filter_strategies.
  rewrite bind_get, bind_update_self; cbn [self calls].
  eexists; split.
  - apply bind_lift_raise; cbn; rewrite Hobj; reflexivity.
  - cbn; repeat split.
Qed.

(** ** [solve] before training *)

(** X25. An optimizer without a learner cannot solve: [solve] raises the
    ValueError of the missing cache when called with [use_cache=True] on an
    object without a (non-empty) cache, AttributeError otherwise; the solver
    is not called. *)
Theorem solve_untrained (X : frame) (use_cache verbose : bool) (w : World) :
  _learner (self w) = None ->
  fst (solve X use_cache verbose w)
    = Raise (if (use_cache && negb (truthy (_solver_cache (self w))))%bool
             then ValueError CacheNotComputed else AttributeError) /\
  calls (snd (solve X use_cache verbose w)) = calls w.
Proof.
  intros Hl; unfold solve; rewrite bind_get.
  destruct (use_cache && negb (truthy (_solver_cache (self w))))%bool;
    [split; reflexivity|].
  destruct verbose.
  - rewrite bind_update_self.
    rewrite (bind_lift_raise _ _ _ AttributeError)
      by (cbn; rewrite Hl; reflexivity).
    split; reflexivity.
  - rewrite (bind_ok (ret tt) _ _ tt _ eq_refl).
    rewrite (bind_lift_raise _ _ _ AttributeError) by (rewrite Hl; reflexivity).
    split; reflexivity.
Qed.

(** ** [pandas2array] *)

Lemma unroll_from (r : row) (acc : list Q) :
  fold_left (fun x_temp c => match c with
                             | Lst l => x_temp ++ l
                             | Num v => x_temp ++ [v]
                             end) r acc
  = acc ++ flat_map cell_values r.
Proof.
  revert acc; induction r as [|c r IH]; intros acc; simpl.
  - now rewrite app_nil_r.
  - rewrite IH; destruct c; simpl; now rewrite <- app_assoc.
Qed.

Lemma unroll_row_values (r : row) : unroll_row r = flat_map cell_values r.
Proof. unfold unroll_row; now rewrite unroll_from. Qed.

Lemma n_features_from (r : row) (n : nat) :
  fold_left (fun n c => match c with
                        | Lst l => n + length l
                        | Num _ => n + 1
                        end) r n
  = n + width r.
Proof.
  unfold width; revert n; induction r as [|c r IH]; intros n; simpl; [lia|].
  rewrite IH, length_app; destruct c; simpl; lia.
Qed.

Lemma n_features_width (r : row) (X : list row) : n_features (r :: X) = Ok (width r).
Proof. unfold n_features; now rewrite n_features_from. Qed.

Lemma unroll_rows_spec (n : nat) (rows : list row) (X_new : list (list Q)) :
  unroll_rows n rows X_new =
  if forallb (fun x => width x =? n) rows
  then inr (X_new ++ map (flat_map cell_values) rows)
  else inl DimensionMismatch.
Proof.
  revert X_new; induction rows as [|x rows IH]; intros X_new; simpl.
  - now rewrite app_nil_r.
  - unfold np_vstack; rewrite unroll_row_values; fold (width x).
    destruct (width x =? n); simpl; [|reflexivity].
    rewrite IH; destruct (forallb _ rows); [|reflexivity].
    now rewrite <- app_assoc.
Qed.

(** X26. On a frame with rows, [n_features] is the count of the numbers in
    the cells of the first row, and [pandas2array] gives the rows with their
    cells flattened, one per row of the frame and each of [n_features]
    entries, when every row holds as many numbers as the first; when one
    does not, it raises the ValueError of [np.vstack]. *)
Theorem pandas2array_rows (r : row) (X : list row) :
  n_features (r :: X) = Ok (width r) /\
  pandas2array (Frame (r :: X)) =
  if forallb (fun x => width x =? width r) X
  then inr (map (flat_map cell_values) (r :: X))
  else inl DimensionMismatch.
Proof.
  split; [apply n_features_width|].
  unfold pandas2array; rewrite n_features_width, unroll_rows_spec.
  cbn [forallb]; rewrite Nat.eqb_refl; reflexivity.
Qed.

(** ** Saving and loading *)

Context {St : Storage}.

Lemma io_bind_ok {A B} (m : IO A) (f : A -> IO B) (s : Sys) (a : A) (s' : Sys) :
  m s = (IOk a, s') -> io_bind m f s = f a s'.
Proof. intros H; unfold io_bind; now rewrite H. Qed.

Lemma io_bind_raise {A B} (m : IO A) (f : A -> IO B) (s : Sys) (e : io_exn) (s' : Sys) :
  m s = (IRaise e, s') -> io_bind m f s = (IRaise e, s').
Proof. intros H; unfold io_bind; now rewrite H. Qed.

(** When the file is not there, or may be deleted, [make_room] asks
    nothing and leaves no file of the name. *)
Lemma make_room_free (file_name : string) (delete_existing : bool) (s : Sys) :
  sys_disk s file_name = None \/ delete_existing = true ->
  exists d,
    make_room file_name delete_existing s
      = (IOk true, {| sys_self := sys_self s; sys_disk := d;
                      sys_stdin := sys_stdin s |}) /\
    d file_name = None /\
    forall n, n <> file_name -> d n = sys_disk s n.
Proof.
  intros H; unfold make_room, io_bind, io_get, isfile.
  destruct (sys_disk s file_name) as [f|] eqn:Hf; cbn [is_some].
  - destruct H as [H|H]; [discriminate|subst delete_existing]; cbn.
    eexists; split; [reflexivity|]; cbn; split.
    + now rewrite String.eqb_refl.
    + intros n Hn; apply String.eqb_neq in Hn; now rewrite Hn.
  - exists (sys_disk s); destruct s; cbn; auto.
Qed.

(** X27. Training data saved to a file that is free, or that may be
    deleted, come back from the file: [save_training_data] returns, the
    object as it was and no other file touched, and [load_training_data] on
    that file sets the samples, their costs, the encoding and the problem of
    the loading object to those saved; it takes the filter saved if there is
    one and keeps its own otherwise, and keeps its learner and its cache. *)
Theorem training_data_round_trip (file_name : string) (delete_existing : bool)
    (s : Sys) (obj : list Q) :
  sys_disk s file_name = None \/ delete_existing = true ->
  samples_present (sys_self s) = true ->
  obj_train (sys_self s) = Some obj ->
  exists s1,
    save_training_data file_name delete_existing s = (IOk tt, s1) /\
    sys_self s1 = sys_self s /\
    sys_stdin s1 = sys_stdin s /\
    (forall n, n <> file_name -> sys_disk s1 n = sys_disk s n) /\
    forall s2, sys_disk s2 file_name = sys_disk s1 file_name ->
      exists s3,
        load_training_data file_name s2 = (IOk tt, s3) /\
        X_train (sys_self s3) = X_train (sys_self s) /\
        y_train (sys_self s3) = y_train (sys_self s) /\
        obj_train (sys_self s3) = obj_train (sys_self s) /\
        encoding (sys_self s3) = encoding (sys_self s) /\
        _problem (sys_self s3) = _problem (sys_self s) /\
        _filter (sys_self s3) = match _filter (sys_self s) with
                                | Some f => Some f
                                | None => _filter (sys_self s2)
                                end /\
        _learner (sys_self s3) = _learner (sys_self s2) /\
        _solver_cache (sys_self s3) = _solver_cache (sys_self s2) /\
        sys_disk s3 = sys_disk s2.
Proof.
  intros Hfree Hp Hobj.
  destruct (make_room_free file_name delete_existing s Hfree) as [d [Hroom [Hd Hother]]].
  unfold save_training_data.
  rewrite (io_bind_ok _ _ _ _ _ Hroom); cbn [negb].
  unfold io_bind at 1, io_get at 1; cbn [sys_self]; rewrite Hp; cbn [negb].
  unfold samples_present in Hp.
  destruct (X_train (sys_self s)) as [X|] eqn:HX; [|discriminate].
  destruct (y_train (sys_self s)) as [y|] eqn:Hy; [|discriminate].
  destruct (encoding (sys_self s)) as [enc|] eqn:He; [|discriminate].
  rewrite Hobj; cbn [attr of_res to_obj].
  eexists; split; [reflexivity|]; cbn [sys_self sys_stdin sys_disk].
  split; [reflexivity|]. split; [reflexivity|]. split.
  { intros n Hn; pose proof Hn as Hn'; apply String.eqb_neq in Hn'.
    rewrite !Hn'; apply Hother, Hn. }
  intros s2 Hs2; rewrite String.eqb_refl in Hs2.
  unfold load_training_data, io_bind at 1, io_get at 1; rewrite Hs2.
  destruct (_filter (sys_self s)) as [f|]; eexists; (split; [reflexivity|]);
    cbn; repeat split; reflexivity.
Qed.

(** X28. Without samples, or with samples drawn by a sampling function
    (which leave the object without [obj_train]), [save_training_data]
    raises, and the file of the name is lost by then: deleted before the
    ValueError of the missing samples, left empty by the AttributeError of
    the missing costs, so that [load_training_data] on it raises EOFError. *)
Theorem save_training_data_failures (file_name : string) (delete_existing : bool)
    (s : Sys) :
  sys_disk s file_name = None \/ delete_existing = true ->
  (samples_present (sys_self s) = false ->
   exists s1,
     save_training_data file_name delete_existing s
       = (IRaise (IOValueError NeedStrategies), s1) /\
     sys_self s1 = sys_self s /\
     sys_disk s1 file_name = None) /\
  (samples_present (sys_self s) = true ->
   obj_train (sys_self s) = None ->
   exists s1,
     save_training_data file_name delete_existing s
       = (IRaise (Py AttributeError), s1) /\
     sys_self s1 = sys_self s /\
     sys_disk s1 file_name = Some Blank /\
     forall s2, sys_disk s2 file_name = sys_disk s1 file_name ->
       load_training_data file_name s2 = (IRaise EOFError, s2)).
Proof.
  intros Hfree.
  destruct (make_room_free file_name delete_existing s Hfree) as [d [Hroom [Hd Hother]]].
  unfold save_training_data.
  rewrite (io_bind_ok _ _ _ _ _ Hroom); cbn [negb].
  split.
  - intros Hp; unfold io_bind at 1, io_get at 1; cbn [sys_self].
    rewrite Hp; cbn [negb].
    eexists; split; [reflexivity|]; cbn; auto.
  - intros Hp Hobj; unfold io_bind at 1, io_get at 1; cbn [sys_self].
    rewrite Hp, Hobj; cbn [negb].
    eexists; split; [reflexivity|]; cbn [sys_self sys_disk].
    rewrite String.eqb_refl; split; [reflexivity|]. split; [reflexivity|].
    intros s2 Hs2; unfold load_training_data, io_bind at 1, io_get at 1.
    rewrite Hs2; reflexivity.
Qed.

(** X29. An optimizer saved with [save] cannot be read back: [save], on a
    trained optimizer and a file name that is free or may be deleted,
    writes the archive and returns, and [from_file] on that name raises
    KeyError 'name', a key that [save] does not store. *)
Theorem from_file_after_save (file_name : string) (delete_existing : bool)
    (s : Sys) (learner : Learner) :
  _learner (sys_self s) = Some learner ->
  sys_disk s (archive_name file_name) = None \/ delete_existing = true ->
  exists s1 members,
    save file_name delete_existing s = (IOk tt, s1) /\
    sys_self s1 = sys_self s /\
    sys_disk s1 (archive_name file_name) = Some (Archive members) /\
    (forall n, n <> archive_name file_name -> sys_disk s1 n = sys_disk s n) /\
    from_file file_name (sys_disk s1) = IRaise (Py (KeyError "name")).
Proof.
  intros Hl Hfree.
  destruct (make_room_free _ delete_existing s Hfree) as [d [Hroom [Hd Hother]]].
  unfold save, io_bind at 1, io_get at 1; rewrite Hl; cbv zeta.
  rewrite (io_bind_ok _ _ _ _ _ Hroom); cbn [negb].
  do 2 eexists; split; [reflexivity|]; cbn [sys_self sys_disk].
  rewrite String.eqb_refl.
  split; [reflexivity|]. split; [reflexivity|]. split.
  { intros n Hn; pose proof Hn as Hn'; apply String.eqb_neq in Hn'.
    rewrite Hn'; apply Hother, Hn. }
  unfold from_file; cbv zeta; rewrite String.eqb_refl; reflexivity.
Qed.

(** X30. [from_file] never returns an optimizer: the object it builds comes
    from [__init__], without training data, and the last step takes the
    length of its [X_train]; whatever the file, an exception is raised. *)
Theorem from_file_never_returns (file_name : string) (d : Disk) :
  exists e, from_file file_name d = IRaise e.
Proof.
  unfold from_file; cbv zeta.
  destruct (d (archive_name file_name)) as [f|]; [|eexists; reflexivity].
  repeat match goal with
         | |- exists e, ibind (of_res (not_none (X_train _))) _ = _ =>
             cbn; eexists; reflexivity
         | |- exists e, ibind ?r _ = _ =>
             destruct r; cbn [ibind]; [|eexists; reflexivity]
         end.
Qed.

End Proofs.

(** * [choose_best] when candidate solves fail *)

Section FailureProofs.

Context {E : External}.

Variable sentinel : Q.
Variable attempt_solve : Problem -> Strategy -> option kkt_cache -> attempt.
Variable attempt_solve_ray :
  Problem -> Strategy -> list (option kkt_cache) -> attempt.

Local Abbreviation F := (with_failures sentinel attempt_solve attempt_solve_ray).
Local Abbreviation tried := (attempts attempt_solve attempt_solve_ray).

(** With the entry points of the specification, the outcomes of the
    candidates are their attempts, a failed one counted with the sentinel
    as infeasibility. *)
Lemma outcomes_with_failures (p : @Problem F) (parallel : bool)
    (strategies : list (@Strategy F)) (cache : list (option (@kkt_cache F))) :
  @outcomes F p parallel strategies cache
  = map (treat_failure sentinel) (tried p parallel strategies cache).
Proof.
  unfold outcomes, attempts; destruct parallel; rewrite map_map; reflexivity.
Qed.

(** C4 (amended). On an empty list of labels [choose_best] raises, and
    never a NoCandidatesError: AttributeError on an optimizer without a
    learner, otherwise numpy's ValueError on the argmin of an empty array in
    the parallel path or when [n_best] is 0, and IndexError in the
    sequential path. With the solve entry points of the specification, which
    report a failed solve as the infeasibility [sentinel], a failure does not
    abort the call on a list of [n_best] valid labels: it returns the
    candidate that the selection rule designates among all the candidates,
    the failed ones counted with infeasibility [sentinel]; when [sentinel] is
    large (above [INFEAS_TOL] and above the infeasibility of every candidate
    that was solved) and some candidate was solved, the candidate returned is
    one that was solved. *)
Theorem choose_best_failures :
  (forall (w : @World F) (parallel use_cache : bool),
      exists e,
        fst (@choose_best F [] parallel use_cache w) = Raise e /\
        e = match @_learner F (self w) with
            | None => AttributeError
            | Some learner =>
                if (parallel || (@learner_n_best F learner =? 0))%bool
                then ValueError EmptySequence else IndexError
            end /\
        exn_class e <> "NoCandidatesError"%string) /\
  (forall (w : @World F) (labels : list Z) (parallel use_cache : bool)
          (learner : @Learner F) (strategies : list (@Strategy F))
          (cache : list (option (@kkt_cache F))),
      @_learner F (self w) = Some learner ->
      labels <> [] ->
      length labels = @learner_n_best F learner ->
      @decode_labels F (self w) labels = Ok strategies ->
      @cache_for F (self w) labels use_cache (@learner_n_best F learner) = Ok cache ->
      (@INFEAS_TOL F < sentinel)%Q ->
      (forall o, In (Solved o) (tried (_problem (self w)) parallel strategies cache) ->
                 (sr_infeasibility o < sentinel)%Q) ->
      exists i r,
        fst (@choose_best F labels parallel use_cache w) = Ok r /\
        length (tried (_problem (self w)) parallel strategies cache) = length labels /\
        @certified F strategies
          (map (treat_failure sentinel)
               (tried (_problem (self w)) parallel strategies cache)) i r /\
        @selected F
          (map (treat_failure sentinel)
               (tried (_problem (self w)) parallel strategies cache)) i /\
        ((exists o, In (Solved o)
                      (tried (_problem (self w)) parallel strategies cache)) ->
         exists o, nth_error (tried (_problem (self w)) parallel strategies cache) i
                   = Some (Solved o))).
Proof.
  split.
  - intros w parallel use_cache.
    destruct (@_learner F (self w)) as [learner|] eqn:Hl.
    + eexists; split;
        [exact (@choose_best_empty F w parallel use_cache learner Hl)|].
      split; [reflexivity|].
      destruct (parallel || _)%bool; discriminate.
    + exists AttributeError; split; [|split; [reflexivity|discriminate]].
      unfold choose_best, bind, get, lift; rewrite Hl; reflexivity.
  - intros w labels parallel use_cache learner strategies cache
           Hl Hne Hn Hd Hc Htol Hlarge.
    destruct (@choose_best_certified F w labels parallel use_cache learner
                strategies cache Hl Hne Hn Hd Hc)
      as [i [r [cs [Hrun [Hlen [Hcert Hsel]]]]]].
    rewrite outcomes_with_failures in Hlen, Hcert, Hsel.
    set (raws := tried (_problem (self w)) parallel strategies cache) in *.
    exists i, r; rewrite Hrun.
    split; [reflexivity|]. split; [now rewrite length_map in Hlen|].
    split; [exact Hcert|]. split; [exact Hsel|].
    intros [o Ho].
    destruct Hsel as [oi [Hoi [Hfeas Hinf]]].
    apply nth_error_map_Some in Hoi; destruct Hoi as [a [Ha Hoi]].
    destruct a as [o'|x t c]; [eauto|exfalso].
    assert (Hsent : sr_infeasibility oi = sentinel) by (subst oi; reflexivity).
    apply In_nth_error in Ho; destruct Ho as [j Hj].
    assert (Hoj : nth_error (map (treat_failure sentinel) raws) j = Some o)
      by (apply nth_error_map_Some; exists (Solved o); split;
          [exact Hj|reflexivity]).
    assert (Hlt : (sr_infeasibility o < sentinel)%Q)
      by (apply Hlarge; eapply nth_error_In; eauto).
    destruct (Qlt_le_dec (@INFEAS_TOL F) (sr_infeasibility oi)) as [Hgt|Hle].
    + assert (Hnone : forall k ok,
                 nth_error (map (treat_failure sentinel) raws) k = Some ok ->
                 ~ (sr_infeasibility ok <= @INFEAS_TOL F)%Q).
      { intros k ok Hk Hfk.
        destruct Hfeas as [Hfi _]; [eauto|].
        now apply (Qlt_not_le _ _ Hgt). }
      destruct (Hinf Hnone j o Hoj) as [Hmin _].
      rewrite Hsent in Hmin; now apply (Qlt_not_le _ _ Hlt).
    + rewrite Hsent in Hle; now apply (Qlt_not_le _ _ Htol).
Qed.

End FailureProofs.

(** * The claims on concrete inputs *)

#[local] Existing Instance Demo.env.

(** Scenario C of the specification: infeasibilities [0, 0.2, 0], costs
    [5, 1, 3], tolerance 0.01: candidate 2 wins, and the time is 1 + 2 + 3. *)
Example choose_best_scenario_C :
  fst (choose_best [0; 1; 2]%Z false false (Demo.world 3)) =
  Ok {| r_x := 2; r_time := (0 + 1 + 2 + 3)%Q; r_strategy := 2; r_cost := 3%Q;
        r_infeasibility := 0%Q; r_pred_time := None; r_solve_time := None |}.
Proof. reflexivity. Qed.


Lemma choose_best_selection_witness :
  exists i r,
    fst (choose_best [0; 1; 2]%Z false false (Demo.world 3)) = Ok r /\
    certified Demo.candidates
      (outcomes (_problem (self (Demo.world 3))) false Demo.candidates Demo.no_cache) i r /\
    selected
      (outcomes (_problem (self (Demo.world 3))) false Demo.candidates Demo.no_cache) i.
Proof.
  apply (choose_best_selection (Demo.world 3) [0; 1; 2]%Z false false 3
           Demo.candidates Demo.no_cache).
  - reflexivity.
  - discriminate.
  - reflexivity.
  - reflexivity.
  - reflexivity.
Defined.

Lemma choose_best_total_time_witness :
  exists r,
    fst (choose_best [0; 1; 2]%Z true false (Demo.world 3)) = Ok r /\
    length (outcomes (_problem (self (Demo.world 3))) true Demo.candidates
              Demo.no_cache) = 3 /\
    r_time r = np_sum (map (@sr_time _)
                 (outcomes (_problem (self (Demo.world 3))) true Demo.candidates
                    Demo.no_cache)) /\
    (r_time r == total_time
                   (outcomes (_problem (self (Demo.world 3))) true Demo.candidates
                      Demo.no_cache))%Q.
Proof.
  apply (choose_best_total_time (Demo.world 3) [0; 1; 2]%Z true false 3
           Demo.candidates Demo.no_cache).
  - reflexivity.
  - simpl; lia.
  - reflexivity.
  - reflexivity.
  - reflexivity.
Defined.

(** A ranked list of three labels for [n_best = 3]: the two paths agree. *)
Example choose_best_paths_agree_on_three :
  exists i r,
    fst (choose_best [2; 0; 1]%Z true false (Demo.world 3)) = Ok r /\
    fst (choose_best [2; 0; 1]%Z false false (Demo.world 3)) = Ok r /\
    certified [2; 0; 1]
      (outcomes (_problem (self (Demo.world 3))) false [2; 0; 1] Demo.no_cache) i r /\
    selected
      (outcomes (_problem (self (Demo.world 3))) false [2; 0; 1] Demo.no_cache) i /\
    length (calls (snd (choose_best [2; 0; 1]%Z true false (Demo.world 3))))
      = length (calls (Demo.world 3)) + 3 /\
    length (calls (snd (choose_best [2; 0; 1]%Z false false (Demo.world 3))))
      = length (calls (Demo.world 3)) + 3.
Proof.
  apply (choose_best_paths_agree (Demo.world 3) [2; 0; 1]%Z false 3
           [2; 0; 1] Demo.no_cache).
  - reflexivity.
  - discriminate.
  - reflexivity.
  - reflexivity.
  - reflexivity.
  - intros; reflexivity.
Qed.


(** Scenario D of the specification, on the candidates 1, 3, 1: nobody is
    feasible, the first candidate of least infeasibility is returned. *)
Example choose_best_scenario_D :
  fst (choose_best [3; 1; 1]%Z false false (Demo.world 3)) =
  Ok {| r_x := 1; r_time := (0 + 1 + 2 + 2)%Q; r_strategy := 1; r_cost := 1%Q;
        r_infeasibility := (1 # 5)%Q; r_pred_time := None; r_solve_time := None |}.
Proof. reflexivity. Qed.

(** C4, as stated, fails: on an empty list of labels the exception raised
    is not a NoCandidatesError. *)
Lemma choose_best_empty_not_NoCandidatesError :
  exists e, fst (choose_best [] false true (Demo.world 3)) = Raise e /\
            exn_class e <> "NoCandidatesError"%string.
Proof. exists IndexError; split; [reflexivity|discriminate]. Qed.

Lemma choose_best_failures_witness :
  (exists e,
     fst (@choose_best Cases.failing [] false false (Cases.failing_world 0)) = Raise e /\
     e = ValueError EmptySequence /\
     exn_class e <> "NoCandidatesError"%string) /\
  (exists i r,
     fst (@choose_best Cases.failing [3; 1; 2]%Z false false (Cases.failing_world 3))
       = Ok r /\
     length Demo.failing_attempts = length [3; 1; 2]%Z /\
     @certified Cases.failing Demo.failing_candidates
       (map (treat_failure 1000000) Demo.failing_attempts) i r /\
     @selected Cases.failing (map (treat_failure 1000000) Demo.failing_attempts) i /\
     ((exists o, In (Solved o) Demo.failing_attempts) ->
      exists o, nth_error Demo.failing_attempts i = Some (Solved o))).
Proof.
  split.
  - apply (proj1 (@choose_best_failures Demo.env 1000000
                    (fun _ s _ => Cases.attempt_solve s)
                    (fun _ s _ => Cases.attempt_solve s))
                 (Cases.failing_world 0) false false).
  - apply (proj2 (@choose_best_failures Demo.env 1000000
                    (fun _ s _ => Cases.attempt_solve s)
                    (fun _ s _ => Cases.attempt_solve s))
                 (Cases.failing_world 3) [3; 1; 2]%Z false false 3
                 Demo.failing_candidates Demo.no_cache).
    + reflexivity.
    + discriminate.
    + reflexivity.
    + reflexivity.
    + reflexivity.
    + reflexivity.
    + intros o [H|[H|[H|[]]]]; inversion H; subst; reflexivity.
Defined.

(** The solve of the first of three candidates fails: the call returns the
    third, the only one that is feasible, and the time is that of the three
    attempts. *)
Example choose_best_with_a_failure :
  fst (@choose_best Cases.failing [3; 1; 2]%Z false false (Cases.failing_world 3))
  = Ok (@Build_result Cases.failing 2 (0 + 1 + 2 + 3)%Q 2 3%Q 0%Q None None).
Proof. reflexivity. Qed.

(** [solve] on a frame of two points: a list, the results in the order of
    the rows (the labels of point 0 are 0, 1, 2, those of point 1 are
    1, 2, 0; the prediction took 2/10, 1/10 per point). *)
Example solve_two_points :
  fst (solve (DataFrame [[Num 1%Q]; [Num 2%Q]]) false false (Demo.world 3)) =
  Ok (Many [ {| r_x := 2; r_time := ((2 # 1) / 10 / 2 + (0 + 1 + 2 + 3))%Q;
                r_strategy := 2; r_cost := 3%Q; r_infeasibility := 0%Q;
                r_pred_time := Some ((2 # 1) / 10 / 2)%Q;
                r_solve_time := Some (0 + 1 + 2 + 3)%Q |};
             {| r_x := 2; r_time := ((2 # 1) / 10 / 2 + (0 + 2 + 3 + 1))%Q;
                r_strategy := 2; r_cost := 3%Q; r_infeasibility := 0%Q;
                r_pred_time := Some ((2 # 1) / 10 / 2)%Q;
                r_solve_time := Some (0 + 2 + 3 + 1)%Q |} ]).
Proof. reflexivity. Qed.

Lemma solve_single_or_list_witness :
  exists rs,
    length rs = length (frame_rows (Series [Num 1%Q])) /\
    (forall i, i < length (frame_rows (Series [Num 1%Q])) ->
       exists r, point_result (Demo.world 3) false false
                   (frame_rows (Series [Num 1%Q])) i = Ok r /\
                 nth_error rs i
                 = Some (append_predict_time
                           (t_predict (3 : @Learner Demo.env)
                              (frame_rows (Series [Num 1%Q]))) r)) /\
    (length (frame_rows (Series [Num 1%Q])) = 1 ->
       exists r, rs = [r] /\
                 fst (solve (Series [Num 1%Q]) false false (Demo.world 3))
                 = Ok (Single r)) /\
    (1 < length (frame_rows (Series [Num 1%Q])) ->
       fst (solve (Series [Num 1%Q]) false false (Demo.world 3)) = Ok (Many rs)).
Proof.
  apply (solve_single_or_list (Series [Num 1%Q]) false false (Demo.world 3) 3).
  - discriminate.
  - reflexivity.
  - intros [|i] Hi; [|simpl in Hi; lia].
    exists [0; 1; 2]%Z; split; [reflexivity|].
    exists 3, Demo.candidates, Demo.no_cache.
    split; [reflexivity|]. split; [discriminate|].
    split; [reflexivity|]. split; reflexivity.
  - simpl; lia.
Defined.

Lemma solve_cache_not_built_witness :
  fst (solve (DataFrame [[Num 1%Q]; [Num 2%Q]]) true false (Demo.world 3))
    = Raise (ValueError CacheNotComputed) /\
  calls (snd (solve (DataFrame [[Num 1%Q]; [Num 2%Q]]) true false (Demo.world 3)))
    = calls (Demo.world 3) /\
  snd (solve (DataFrame [[Num 1%Q]; [Num 2%Q]]) true false (Demo.world 3))
    = Demo.world 3.
Proof.
  apply (solve_cache_not_built (DataFrame [[Num 1%Q]; [Num 2%Q]]) false (Demo.world 3)).
  left; reflexivity.
Defined.

(** Two of the three test points of [Demo.predicted] count as correct. *)
Example accuracy_two_thirds :
  accuracy Demo.predicted Demo.truth = Ok (Some (2 # 3)%Q, [1; 1; 0]%Z).
Proof. reflexivity. Qed.

Lemma accuracy_is_fraction_correct_witness :
  accuracy Demo.predicted Demo.truth =
  Ok (fraction_correct Demo.predicted Demo.truth,
      map (fun pt => if correct_at pt then 1%Z else 0%Z)
          (combine Demo.predicted Demo.truth)).
Proof.
  apply (accuracy_is_fraction_correct Demo.predicted Demo.truth).
  - reflexivity.
  - intros t [H|[H|[H|[]]]]; subst t; discriminate.
Defined.

(** C7, as stated, fails: the KKT matrix of strategy 1 does not factorize;
    the exception (scipy's, not a per-strategy FactorizationError) aborts
    [cache_factors], and the strategies 2 and 3, whose matrices factorize,
    get no entry. *)
Lemma cache_factors_aborts_on_failure :
  fst (cache_factors (Demo.world 3))
    = Raise (RuntimeError "Factor is exactly singular") /\
  exn_class (RuntimeError "Factor is exactly singular")
    <> "FactorizationError"%string /\
  _solver_cache (self (snd (cache_factors (Demo.world 3))))
    = Some [ {| factors := 0; inverse_data := tt; chain := tt |} ] /\
  kkt_at (Demo.world 3) 2 = Ok 2 /\ factorized 2 = Ok 2 /\
  kkt_at (Demo.world 3) 3 = Ok 3 /\ factorized 3 = Ok 3.
Proof.
  split; [reflexivity|]. split; [discriminate|].
  repeat split; reflexivity.
Qed.

Lemma cache_factors_stops_at_failure_witness :
  fst (cache_factors (Demo.world 3))
    = Raise (RuntimeError "Factor is exactly singular") /\
  cache_size (self (snd (cache_factors (Demo.world 3)))) = 1 /\
  cache_size (self (snd (cache_factors (Demo.world 3)))) < length [0; 1; 2; 3].
Proof.
  apply (cache_factors_stops_at_failure (Demo.world 3)
           (snd (cached_up_to (Demo.world 3) 1)) [0; 1; 2; 3] 1 1
           (RuntimeError "Factor is exactly singular")).
  - reflexivity.
  - simpl; lia.
  - reflexivity.
  - reflexivity.
  - reflexivity.
Defined.

Lemma infeasible_training_point_aborts_witness :
  exists m w',
    get_samples (Some [[Num 1%Q]; []]) None true true Demo.fresh
      = (Raise (ValueError m), w') /\
    train (Some [[Num 1%Q]; []]) None true "pytorch" true (3 : @LearnerOptions Demo.env)
          Demo.fresh
      = (Raise (ValueError m), w') /\
    _learner (self w') = _learner (self Demo.fresh) /\
    _solver_cache (self w') = _solver_cache (self Demo.fresh) /\
    ((None : option (@SamplingFn Demo.env)) = None ->
     m = InfeasiblePoints
           (length (filter (fun r => negb (is_some (fr_strategy r)))
                           (solve_parametric (_problem (self Demo.fresh))
                              [[Num 1%Q]; []] true))) /\
     X_train (self w') = Some [[Num 1%Q]; []] /\
     y_train (self w') = None /\
     encoding (self w') = None /\
     samples_present (self w') = false).
Proof.
  apply (infeasible_training_point_aborts [[Num 1%Q]; []] None true true
           "pytorch" (3 : @LearnerOptions Demo.env) Demo.fresh).
  exists (Demo.full_solve []); split; [right; left; reflexivity|reflexivity].
Defined.

(** With feasible points only, [train] on the same optimizer builds the
    labels, the encoding and the learner. *)
Example train_feasible :
  let w' := snd (train (Some [[Num 1%Q]; [Num 2%Q]]) None true "pytorch" true
                   (3 : @LearnerOptions Demo.env) Demo.fresh) in
  fst (train (Some [[Num 1%Q]; [Num 2%Q]]) None true "pytorch" true
         (3 : @LearnerOptions Demo.env) Demo.fresh) = Ok tt /\
  y_train (self w') = Some [0; 0]%Z /\ encoding (self w') = Some [0] /\
  _learner (self w') = Some 3.
Proof. repeat split; reflexivity. Qed.

(** C5, as stated, fails. Two test points: the full solves take 4 and 1,
    the predicted total times are 1.1 and 2.1. The ratios are 40/11 and
    10/21, of mean 2.05... and maximum 3.63...; the metrics reported are
    2.5/1.6 = 1.5625 and 4/2.1 = 1.90.... *)
Lemma performance_headline_not_ratio_statistics :
  exists s d a b m,
    fst (performance [[Num 4%Q]; [Num 1%Q]] true false (Demo.world 1)) = Ok (s, d) /\
    d_time_full d = [4%Q; 1%Q] /\
    d_time_pred d = [(22 # 20)%Q; (42 # 20)%Q] /\
    s_avg_time_improv s = Some a /\
    np_mean (d_time_improvement d) = Some b /\
    ~ (a == b)%Q /\
    np_max (d_time_improvement d) = Ok m /\
    ~ (s_max_time_improv s == m)%Q.
Proof.
  do 5 eexists.
  split; [reflexivity|]. split; [reflexivity|]. split; [reflexivity|].
  split; [reflexivity|]. split; [reflexivity|].
  split; [intros H; vm_compute in H; discriminate|].
  split; [reflexivity|intros H; vm_compute in H; discriminate].
Qed.

Lemma performance_time_improvement_witness :
  exists s d,
    fst (performance [[Num 4%Q]; [Num 1%Q]] true false (Demo.world 1)) = Ok (s, d) /\
    d_time_full d
      = map (@fr_time _)
            (solve_parametric (_problem (self (Demo.world 1)))
               [[Num 4%Q]; [Num 1%Q]] true) /\
    (forall i p, nth_error (d_time_pred d) i = Some p ->
       exists pt st, nth_error (d_pred_time_pred d) i = Some pt /\
                     nth_error (d_solve_time_pred d) i = Some st /\
                     p = (pt + st)%Q) /\
    s_avg_time_improv s
      = nan_div (np_mean (d_time_full d)) (np_mean (d_time_pred d)) /\
    (exists a b, np_max (d_time_full d) = Ok a /\ np_max (d_time_pred d) = Ok b /\
                 s_max_time_improv s = (a / b)%Q) /\
    (forall i, i < length [[Num 4%Q]; [Num 1%Q]] ->
       exists t p, nth_error (d_time_full d) i = Some t /\
                   nth_error (d_time_pred d) i = Some p /\
                   nth_error (d_time_improvement d) i = Some (t / p)%Q).
Proof.
  do 2 eexists; split; [reflexivity|].
  apply (performance_time_improvement [[Num 4%Q]; [Num 1%Q]] true false (Demo.world 1)).
  reflexivity.
Defined.

Lemma choose_best_invalid_label_witness :
  choose_best [0; 7; 1]%Z false false (Demo.world 3) = (Raise IndexError, Demo.world 3).
Proof.
  apply (choose_best_invalid_label [0; 7; 1]%Z false false (Demo.world 3) 3
           [0; 1; 2; 3]).
  - reflexivity.
  - reflexivity.
  - exists 7%Z; split; [right; left; reflexivity|].
    unfold in_range; simpl; lia.
Defined.

Lemma sequential_ignores_extra_labels_witness :
  fst (choose_best [0; 2]%Z false false (Demo.world 1)) =
    fst (choose_best (firstn 1 [0; 2]%Z) false false (Demo.world 1)) /\
  length (calls (snd (choose_best [0; 2]%Z false false (Demo.world 1))))
    = length (calls (Demo.world 1)) + 1 /\
  length (calls (snd (choose_best [0; 2]%Z true false (Demo.world 1))))
    = length (calls (Demo.world 1)) + length [0; 2]%Z.
Proof.
  apply (sequential_ignores_extra_labels (Demo.world 1) [0; 2]%Z false 1
           (0 :: 2 :: nil) (None :: nil)).
  - reflexivity.
  - simpl; lia.
  - reflexivity.
  - reflexivity.
Defined.

(** One label too many for [n_best = 1]: the sequential path returns the
    first candidate, the parallel path the cheaper second one. *)
Example extra_label_changes_result :
  fst (choose_best [0; 2]%Z false false (Demo.world 1)) =
    Ok (@Build_result Demo.env 0 (0 + 1)%Q 0 5%Q 0%Q None None) /\
  fst (choose_best [0; 2]%Z true false (Demo.world 1)) =
    Ok (@Build_result Demo.env 2 (0 + 1 + 3)%Q 2 3%Q 0%Q None None).
Proof. split; reflexivity. Qed.

Lemma sequential_too_few_labels_witness :
  fst (choose_best [0; 2]%Z false false (Demo.world 3)) = Raise IndexError /\
  length (calls (snd (choose_best [0; 2]%Z false false (Demo.world 3))))
    = length (calls (Demo.world 3)) + length [0; 2]%Z /\
  ([0; 2]%Z <> [] ->
   exists r, fst (choose_best [0; 2]%Z true false (Demo.world 3)) = Ok r).
Proof.
  apply (sequential_too_few_labels (Demo.world 3) [0; 2]%Z false 3
           (0 :: 2 :: nil) Demo.no_cache).
  - reflexivity.
  - simpl; lia.
  - reflexivity.
  - reflexivity.
Defined.

(** ** [solve] and [cache_factors] on concrete inputs *)

Lemma solve_empty_frame_witness :
  fst (solve (DataFrame []) false false (Demo.world 3)) = Raise ZeroDivisionError /\
  calls (snd (solve (DataFrame []) false false (Demo.world 3)))
    = calls (Demo.world 3).
Proof.
  apply (solve_empty_frame false false (Demo.world 3) 3).
  - discriminate.
  - reflexivity.
Defined.

Lemma solve_output_shape_and_times_witness :
  exists out w',
    solve (DataFrame [[Num 1%Q]; [Num 2%Q]]) false false (Demo.world 3)
      = (Ok out, w') /\
    exists learner,
      _learner (self (Demo.world 3)) = Some learner /\
      1 <= length (frame_rows (DataFrame [[Num 1%Q]; [Num 2%Q]])) /\
      length (results_of out)
        = length (frame_rows (DataFrame [[Num 1%Q]; [Num 2%Q]])) /\
      match out with
      | Single _ => length (frame_rows (DataFrame [[Num 1%Q]; [Num 2%Q]])) = 1
      | Many _ => length (frame_rows (DataFrame [[Num 1%Q]; [Num 2%Q]])) <> 1
      end /\
      forall r, In r (results_of out) ->
        r_pred_time r
          = Some (t_predict learner (frame_rows (DataFrame [[Num 1%Q]; [Num 2%Q]]))) /\
        exists st, r_solve_time r = Some st /\
                   r_time r
                   = (t_predict learner
                        (frame_rows (DataFrame [[Num 1%Q]; [Num 2%Q]])) + st)%Q.
Proof.
  do 2 eexists; split; [vm_compute; reflexivity|].
  eapply (solve_output_shape_and_times (DataFrame [[Num 1%Q]; [Num 2%Q]]) false false
            (Demo.world 3)).
  vm_compute; reflexivity.
Defined.

Lemma solve_calls_and_state_witness :
  exists out w',
    solve (DataFrame [[Num 1%Q]; [Num 2%Q]]) false false (Demo.world 3)
      = (Ok out, w') /\
    exists learner cs,
      _learner (self (Demo.world 3)) = Some learner /\
      calls w' = calls (Demo.world 3) ++ cs /\
      length cs = length (frame_rows (DataFrame [[Num 1%Q]; [Num 2%Q]]))
                  * learner_n_best learner /\
      Forall (fun c => call_is_ray c = false) cs /\
      exists p, self w' = set_problem p (self (Demo.world 3)).
Proof.
  do 2 eexists; split; [vm_compute; reflexivity|].
  eapply (solve_calls_and_state (DataFrame [[Num 1%Q]; [Num 2%Q]]) false false
            (Demo.world 3)).
  vm_compute; reflexivity.
Defined.


(** After [cache_factors] the cache of [Cases.factorable] holds the factors
    of the strategies 0 and 2, and a solve with the cache finds them. *)
Example cache_then_choose :
  _solver_cache (self (snd (cache_factors Cases.factorable)))
    = Some [ {| factors := 0; inverse_data := tt; chain := tt |};
             {| factors := 2; inverse_data := tt; chain := tt |} ] /\
  fst (choose_best [1; 0]%Z false true (snd (cache_factors Cases.factorable)))
    = Ok (@Build_result Demo.env 2 (0 + 3 + 1)%Q 2 3%Q 0%Q None None).
Proof. split; reflexivity. Qed.

Lemma aligned_cache_lookup_witness :
  exists es r,
    rmap (py_index [0; 2]) [1; 0]%Z = Ok [2; 0] /\
    rmap (py_index [ {| factors := 0; inverse_data := tt; chain := tt |};
                     {| factors := 2; inverse_data := tt; chain := tt |} ]) [1; 0]%Z
      = Ok es /\
    choose_best [1; 0]%Z false true (snd (cache_factors Cases.factorable)) =
    (Ok r,
     extend (snd (cache_factors Cases.factorable))
       (map (fun se => CallSolve
                         (_problem (self (snd (cache_factors Cases.factorable))))
                         (fst se) (Some (snd se)))
            (combine [2; 0] es))).
Proof.
  apply (aligned_cache_lookup (snd (cache_factors Cases.factorable)) [0; 2]
           [ {| factors := 0; inverse_data := tt; chain := tt |};
             {| factors := 2; inverse_data := tt; chain := tt |} ]
           [1; 0]%Z [2; 0] false 2).
  - reflexivity.
  - reflexivity.
  - reflexivity.
  - reflexivity.
  - discriminate.
  - reflexivity.
  - reflexivity.
Defined.

(** The same call on the two paths: the sequential solver is handed, for each
    candidate, the factors of its strategy; the solver of the parallel path
    is handed the list of both, for each candidate. *)
Example cached_calls_on_both_paths :
  calls (snd (choose_best [1; 0]%Z false true (snd (cache_factors Cases.factorable))))
  = [ CallSolve [[Num 2%Q]; [Num 1%Q]] 2
        (Some {| factors := 2; inverse_data := tt; chain := tt |});
      CallSolve [[Num 2%Q]; [Num 1%Q]] 0
        (Some {| factors := 0; inverse_data := tt; chain := tt |}) ] /\
  calls (snd (choose_best [1; 0]%Z true true (snd (cache_factors Cases.factorable))))
  = [ CallSolveRay [[Num 2%Q]; [Num 1%Q]] 2
        [ Some {| factors := 2; inverse_data := tt; chain := tt |};
          Some {| factors := 0; inverse_data := tt; chain := tt |} ];
      CallSolveRay [[Num 2%Q]; [Num 1%Q]] 0
        [ Some {| factors := 2; inverse_data := tt; chain := tt |};
          Some {| factors := 0; inverse_data := tt; chain := tt |} ] ].
Proof. split; reflexivity. Qed.

(** ** [get_samples] and [train] on concrete inputs *)

Lemma train_without_cache_then_solve_witness :
  exists w',
    @train Cases.env (Some [[Num 1%Q]; [Num 2%Q]]) None true "pytorch" true
      (2 : @LearnerOptions Cases.env) Cases.fresh = (Ok tt, w') /\
    _solver_cache (self w') = None /\
    @solve Cases.env (DataFrame [[Num 1%Q]; [Num 2%Q]]) true false w'
      = (Raise (ValueError CacheNotComputed), w').
Proof.
  eexists; split; [vm_compute; reflexivity|].
  apply (@train_without_cache_then_solve Cases.env (Some [[Num 1%Q]; [Num 2%Q]])
           None true true "pytorch" (2 : @LearnerOptions Cases.env) Cases.fresh _
           (DataFrame [[Num 1%Q]; [Num 2%Q]]) false).
  - reflexivity.
  - reflexivity.
  - reflexivity.
Defined.

(** Without the cache the trained optimizer of [Cases.env] does solve. *)
Example train_then_solve_without_cache :
  exists r,
    fst (@solve Cases.env (Series [Num 1%Q]) false false
           (snd (@train Cases.env (Some [[Num 1%Q]; [Num 2%Q]]) None true "pytorch"
                   true (1 : @LearnerOptions Cases.env) Cases.fresh)))
    = Ok (Single r).
Proof. eexists; vm_compute; reflexivity. Qed.

Lemma get_samples_feasible_witness :
  exists w',
    get_samples (Some [[Num 1%Q]; [Num 2%Q]]) None true true Demo.fresh = (Ok tt, w') /\
    X_train (self w') = Some [[Num 1%Q]; [Num 2%Q]] /\
    obj_train (self w') = Some [3%Q; 3%Q] /\
    y_train (self w') = Some [0; 0]%Z /\
    encoding (self w') = Some [0] /\
    encoding_full (self w') = None.
Proof.
  destruct (get_samples_feasible [[Num 1%Q]; [Num 2%Q]] true true Demo.fresh [0; 0]
              eq_refl eq_refl) as [w' [H1 [H2 [H3 H4]]]].
  exists w'; repeat split; try assumption; apply H4.
Defined.

Lemma get_samples_status_assertion_witness :
  exists w',
    @get_samples Cases.env (Some [[Num 1%Q]; [Lst []]]) None true true Cases.fresh
      = (Raise AssertionError, w') /\
    X_train (self w') = Some [[Num 1%Q]; [Lst []]] /\
    obj_train (self w') = Some [3%Q; 0%Q] /\
    y_train (self w') = None /\ encoding (self w') = None.
Proof.
  apply (@get_samples_status_assertion Cases.env [[Num 1%Q]; [Lst []]] true true
           Cases.fresh [0; 1]).
  - reflexivity.
  - reflexivity.
Defined.

(** ** [accuracy] on concrete inputs *)

Lemma accuracy_failures_witness :
  accuracy Demo.predicted (firstn 2 Demo.truth) = Raise AssertionError /\
  accuracy Demo.predicted
    [Demo.full_solve [Num 1%Q]; Demo.full_solve []; Demo.full_solve [Num 1%Q]]
    = Raise (KeyError "strategy").
Proof.
  split.
  - apply (proj1 (accuracy_failures Demo.predicted (firstn 2 Demo.truth))).
    simpl; lia.
  - apply (proj2 (accuracy_failures Demo.predicted
             [Demo.full_solve [Num 1%Q]; Demo.full_solve []; Demo.full_solve [Num 1%Q]])).
    + reflexivity.
    + exists (Demo.full_solve []); split; [right; left; reflexivity|reflexivity].
Defined.

Lemma accuracy_range_witness :
  exists a idx,
    accuracy Demo.predicted Demo.truth = Ok (a, idx) /\
    length idx = length Demo.predicted /\
    Forall (fun c => c = 0%Z \/ c = 1%Z) idx /\
    match a with
    | None => Demo.predicted = []
    | Some q => Demo.predicted <> [] /\ (0 <= q <= 1)%Q
    end.
Proof.
  do 2 eexists; split; [reflexivity|].
  apply (accuracy_range Demo.predicted Demo.truth).
  reflexivity.
Defined.

Lemma accuracy_all_correct_witness :
  exists q idx,
    accuracy Cases.predicted Cases.truth = Ok (Some q, idx) /\
    (q == 1)%Q /\
    length idx = length Cases.predicted /\
    Forall (fun c => c = 1%Z) idx.
Proof.
  apply (accuracy_all_correct Cases.predicted Cases.truth).
  - reflexivity.
  - discriminate.
  - vm_compute; discriminate.
  - intros p t [H|[H|[]]]; inversion H; subst p t; exists 0; split; try reflexivity.
    + left; reflexivity.
    + right; split; vm_compute; discriminate.
Defined.

(** ** [performance] on concrete inputs *)

Lemma performance_needs_two_points_witness :
  (exists s d w',
     performance [[Num 4%Q]; [Num 1%Q]] true false (Demo.world 1) = (Ok (s, d), w') /\
     2 <= length [[Num 4%Q]; [Num 1%Q]]) /\
  (exists out w1,
     solve (DataFrame [[Num 4%Q]]) false false (Demo.world 1) = (Ok out, w1) /\
     performance [[Num 4%Q]] true false (Demo.world 1) = (Raise TypeError, w1)).
Proof.
  split.
  - do 3 eexists; split; [vm_compute; reflexivity|].
    eapply (proj1 (performance_needs_two_points [[Num 4%Q]; [Num 1%Q]] true false
                     (Demo.world 1))).
    vm_compute; reflexivity.
  - do 2 eexists; split; [vm_compute; reflexivity|].
    eapply (proj2 (performance_needs_two_points [[Num 4%Q]] true false
                     (Demo.world 1))).
    + reflexivity.
    + vm_compute; reflexivity.
Defined.

Lemma avg_time_improv_is_ratio_of_totals_witness :
  exists s d w',
    performance [[Num 4%Q]; [Num 1%Q]] true false (Demo.world 1) = (Ok (s, d), w') /\
    length (d_time_full d) = length (d_time_pred d) /\
    exists q, s_avg_time_improv s = Some q /\
              (q == np_sum (d_time_full d) / np_sum (d_time_pred d))%Q.
Proof.
  do 3 eexists; split; [vm_compute; reflexivity|].
  eapply (avg_time_improv_is_ratio_of_totals [[Num 4%Q]; [Num 1%Q]] true false
            (Demo.world 1)).
  vm_compute; reflexivity.
Defined.

Lemma performance_accuracy_entries_witness :
  exists s d w',
    performance [[Num 4%Q]; [Num 1%Q]] true false (Demo.world 1) = (Ok (s, d), w') /\
    length (d_correct d) = s_n_test s /\
    Forall (fun c => c = 0%Z \/ c = 1%Z) (d_correct d) /\
    s_n_correct s = Z.of_nat (length (filter (Z.eqb 1) (d_correct d))) /\
    (0 <= s_n_correct s <= Z.of_nat (s_n_test s))%Z /\
    s_accuracy s
      = Some (100 * (inject_Z (s_n_correct s) / inject_Z (Z.of_nat (s_n_test s))))%Q.
Proof.
  do 3 eexists; split; [vm_compute; reflexivity|].
  eapply (performance_accuracy_entries [[Num 4%Q]; [Num 1%Q]] true false
            (Demo.world 1)).
  vm_compute; reflexivity.
Defined.

(** ** [train], [get_samples] and [pandas2array] on concrete inputs *)

Lemma train_caches_every_strategy_witness :
  exists w',
    train (Some [[Num 1%Q]; [Num 2%Q]]) None true "pytorch" true
      (2 : @LearnerOptions Demo.env) Demo.fresh = (Ok tt, w') /\
    exists make Xt n_input enc entries,
      LEARNER_MAP "pytorch" = Some make /\
      X_train (self w') = Some Xt /\
      n_features Xt = Ok n_input /\
      encoding (self w') = Some enc /\
      encoding (self (snd (get_samples (Some [[Num 1%Q]; [Num 2%Q]]) None true true
                             Demo.fresh))) = Some enc /\
      _learner (self w')
        = Some (learner_train
                  (make n_input (length enc) (2 : @LearnerOptions Demo.env))
                  Xt (y_train (self w'))) /\
      _solver_cache (self w') = Some entries /\
      length entries = length enc.
Proof.
  eexists; split; [vm_compute; reflexivity|].
  apply (train_caches_every_strategy (Some [[Num 1%Q]; [Num 2%Q]]) None true true
           "pytorch" (2 : @LearnerOptions Demo.env) Demo.fresh _).
  - vm_compute; reflexivity.
  - reflexivity.
Defined.

Lemma train_unknown_learner_witness :
  exists w1,
    get_samples (Some [[Num 1%Q]; [Num 2%Q]]) None true true Demo.fresh = (Ok tt, w1) /\
    train (Some [[Num 1%Q]; [Num 2%Q]]) None true "xgboost" true
      (2 : @LearnerOptions Demo.env) Demo.fresh = (Raise (KeyError "xgboost"), w1) /\
    _learner (self w1) = _learner (self Demo.fresh) /\
    _solver_cache (self w1) = _solver_cache (self Demo.fresh).
Proof.
  eexists; split; [vm_compute; reflexivity|].
  apply (train_unknown_learner (Some [[Num 1%Q]; [Num 2%Q]]) None true true
           "xgboost" (2 : @LearnerOptions Demo.env) Demo.fresh _).
  - vm_compute; reflexivity.
  - reflexivity.
Defined.

Lemma get_samples_reuses_samples_witness :
  get_samples None (Some (tt : @SamplingFn Demo.env)) true true (Demo.world 3)
    = (Ok tt, Demo.world 3).
Proof.
  apply (get_samples_reuses_samples (Some (tt : @SamplingFn Demo.env)) true true
           (Demo.world 3) [0; 1; 2; 3]).
  - reflexivity.
  - reflexivity.
Defined.

Lemma get_samples_cannot_filter_sampled_witness :
  exists w',
    @get_samples Cases.env None (Some tt) true true Cases.fresh
      = (Raise AttributeError, w') /\
    X_train (self w') = Some [[Num 1%Q]; [Num 2%Q]] /\
    y_train (self w') = Some [0; 1]%Z /\
    encoding (self w') = Some [0; 2] /\
    encoding_full (self w') = Some [0; 2] /\
    y_train_full (self w') = Some [0; 1]%Z /\
    _filter (self w') = _filter (self Cases.fresh).
Proof.
  apply (@get_samples_cannot_filter_sampled Cases.env tt true Cases.fresh tt
           [[Num 1%Q]; [Num 2%Q]] [0; 1]%Z [0; 2]).
  - reflexivity.
  - reflexivity.
  - reflexivity.
  - simpl; lia.
Defined.

(** With filtering off the same call returns. *)
Example get_samples_sampled_unfiltered :
  fst (@get_samples Cases.env None (Some tt) true false Cases.fresh) = Ok tt.
Proof. reflexivity. Qed.

Lemma solve_untrained_witness :
  fst (solve (Series [Num 1%Q]) false false Demo.fresh) = Raise AttributeError /\
  calls (snd (solve (Series [Num 1%Q]) false false Demo.fresh)) = calls Demo.fresh.
Proof.
  apply (solve_untrained (Series [Num 1%Q]) false false Demo.fresh).
  reflexivity.
Defined.

(** A frame of a number and a list per row: three features; a row with a
    shorter list is rejected. *)
Example pandas2array_three_features :
  pandas2array (Frame [[Num 1%Q; Lst [2%Q; 3%Q]]; [Num 4%Q; Lst [5%Q; 6%Q]]])
    = inr [[1%Q; 2%Q; 3%Q]; [4%Q; 5%Q; 6%Q]] /\
  pandas2array (Frame [[Num 1%Q; Lst [2%Q; 3%Q]]; [Num 4%Q; Lst [5%Q]]])
    = inl DimensionMismatch.
Proof. split; reflexivity. Qed.

(** ** Saving and loading on concrete inputs *)

#[local] Existing Instance Cases.storage.

Lemma training_data_round_trip_witness :
  exists s1,
    save_training_data "data.pkl" false Cases.sampled = (IOk tt, s1) /\
    sys_self s1 = sys_self Cases.sampled /\
    sys_stdin s1 = sys_stdin Cases.sampled /\
    (forall n, n <> "data.pkl"%string -> sys_disk s1 n = sys_disk Cases.sampled n) /\
    forall s2, sys_disk s2 "data.pkl"%string = sys_disk s1 "data.pkl"%string ->
      exists s3,
        load_training_data "data.pkl" s2 = (IOk tt, s3) /\
        X_train (sys_self s3) = X_train (sys_self Cases.sampled) /\
        y_train (sys_self s3) = y_train (sys_self Cases.sampled) /\
        obj_train (sys_self s3) = obj_train (sys_self Cases.sampled) /\
        encoding (sys_self s3) = encoding (sys_self Cases.sampled) /\
        _problem (sys_self s3) = _problem (sys_self Cases.sampled) /\
        _filter (sys_self s3) = match _filter (sys_self Cases.sampled) with
                                | Some f => Some f
                                | None => _filter (sys_self s2)
                                end /\
        _learner (sys_self s3) = _learner (sys_self s2) /\
        _solver_cache (sys_self s3) = _solver_cache (sys_self s2) /\
        sys_disk s3 = sys_disk s2.
Proof.
  apply (training_data_round_trip "data.pkl" false Cases.sampled [3%Q; 3%Q]).
  - left; reflexivity.
  - reflexivity.
  - reflexivity.
Defined.

(** The trained optimizer of [Demo], loading the data saved by
    [Cases.sampled], holds the two points, their encoding of one strategy
    and its own learner. *)
Example load_saved_training_data :
  exists s3,
    load_training_data "data.pkl"
      {| sys_self := Demo.optimizer 3;
         sys_disk := sys_disk (snd (save_training_data "data.pkl" false Cases.sampled));
         sys_stdin := [] |} = (IOk tt, s3) /\
    X_train (sys_self s3) = Some [[Num 1%Q]; [Num 2%Q]] /\
    y_train (sys_self s3) = Some [0; 0]%Z /\
    encoding (sys_self s3) = Some [0] /\
    obj_train (sys_self s3) = Some [3%Q; 3%Q] /\
    _learner (sys_self s3) = Some 3.
Proof. eexists; split; [vm_compute; reflexivity|]; repeat split. Qed.

(** The file exists and the answer typed is not 'y': nothing is saved. *)
Example save_training_data_declined :
  forall f,
    save_training_data "data.pkl" false
      {| sys_self := sys_self Cases.sampled;
         sys_disk := fun n => if String.eqb n "data.pkl"%string then Some f else None;
         sys_stdin := ["maybe"; "N"; "y"]%string |}
    = (IOk tt,
       {| sys_self := sys_self Cases.sampled;
          sys_disk := fun n => if String.eqb n "data.pkl"%string then Some f else None;
          sys_stdin := ["y"]%string |}).
Proof. intros f; reflexivity. Qed.

Lemma save_training_data_failures_witness :
  (exists s1,
     save_training_data "data.pkl" true
       {| sys_self := self Demo.fresh; sys_disk := Cases.no_file; sys_stdin := [] |}
       = (IRaise (IOValueError NeedStrategies), s1) /\
     sys_self s1 = self Demo.fresh /\
     sys_disk s1 "data.pkl"%string = None) /\
  (exists s1,
     save_training_data "data.pkl" true Cases.trained
       = (IRaise (Py AttributeError), s1) /\
     sys_self s1 = sys_self Cases.trained /\
     sys_disk s1 "data.pkl"%string = Some Blank /\
     forall s2, sys_disk s2 "data.pkl"%string = sys_disk s1 "data.pkl"%string ->
       load_training_data "data.pkl" s2 = (IRaise EOFError, s2)).
Proof.
  split.
  - apply (proj1 (save_training_data_failures "data.pkl" true
                    {| sys_self := self Demo.fresh; sys_disk := Cases.no_file;
                       sys_stdin := [] |} (or_intror eq_refl))).
    reflexivity.
  - apply (proj2 (save_training_data_failures "data.pkl" true Cases.trained
                    (or_intror eq_refl))).
    + reflexivity.
    + reflexivity.
Defined.

Lemma from_file_after_save_witness :
  exists s1 members,
    save "demo" false Cases.trained = (IOk tt, s1) /\
    sys_self s1 = sys_self Cases.trained /\
    sys_disk s1 (archive_name "demo") = Some (Archive members) /\
    (forall n, n <> archive_name "demo" -> sys_disk s1 n = sys_disk Cases.trained n) /\
    from_file "demo" (sys_disk s1) = IRaise (Py (KeyError "name")).
Proof.
  apply (from_file_after_save "demo" false Cases.trained 3).
  - reflexivity.
  - left; reflexivity.
Defined.

(** The archive is written under the name with the extension added. *)
Example save_adds_extension :
  archive_name "demo" = "demo.tar.gz"%string /\
  archive_name "demo.tar.gz" = "demo.tar.gz"%string /\
  isfile (sys_disk (snd (save "demo" false Cases.trained))) "demo.tar.gz" = true /\
  isfile (sys_disk (snd (save "demo" false Cases.trained))) "demo" = false.
Proof. repeat split. Qed.
